(** * The article pipeline of the discoverability radar

    A shallow embedding of the store and of the stage scripts
    (build_unified_db.py, scrape_articles.py, summarize_articles.py,
    summarize_batch_submit.py, summarize_batch_process.py,
    filter_cultural_articles.py, check_cultural_filter_batch.py,
    google_search/google_search.py), with the properties of the
    specification stated over it, and of the code around them: the
    columns the scripts add (fix_database_schema.py), the request files
    (summarize_batch_prepare.py), the search importer and
    integrate_media_cloud.py, the selection and the embedding batches of
    run_topic_modeling.py, the grouping of generate_topic_descriptions.py
    and the topic files read by dashboard_optimized.py.

    The SQLite table [articles] is a list of rows in rowid order together
    with the AUTOINCREMENT counter; a connection is the pair of the
    committed table and the table seen by the open transaction.  The
    external collaborators (scraper, language model, batch endpoint,
    dateutil, the clock) are the inputs of the functions below. *)

From Stdlib Require Import ZArith Lia Ascii String List.
From stdpp Require Import base list strings gmap.
Import ListNotations.

Local Open Scope string_scope.
Local Open Scope Z_scope.

(** ** Python and SQLite string primitives *)

Module Str.

(** [len(s)] of Python. *)
Definition len (s : string) : Z := Z.of_nat (String.length s).

(** [s[:n]] of Python for a non-negative constant [n]. *)
Fixpoint slice_to (n : nat) (s : string) : string :=
  match n, s with
  | S n', String c s' => String c (slice_to n' s')
  | _, _ => EmptyString
  end.

(** [LENGTH(X)] of SQLite on a TEXT value: the number of characters
    before the first NUL character. *)
Fixpoint sql_length_nat (s : string) : nat :=
  match s with
  | EmptyString => O
  | String c s' =>
      if Ascii.eqb c Ascii.zero then O else S (sql_length_nat s')
  end.

Definition sql_length (s : string) : Z := Z.of_nat (sql_length_nat s).

(** [str.isspace] restricted to one-byte characters; it is also the
    class [\s] of the [re] module. *)
Definition is_space (c : ascii) : bool :=
  let n := nat_of_ascii c in
  ((9 <=? n)%nat && (n <=? 13)%nat)
  || ((28 <=? n)%nat && (n <=? 32)%nat).

(** The class [\d] of the [re] module on one-byte characters. *)
Definition is_digit (c : ascii) : bool :=
  let n := nat_of_ascii c in (48 <=? n)%nat && (n <=? 57)%nat.

Definition upper_char (c : ascii) : ascii :=
  let n := nat_of_ascii c in
  if ((97 <=? n)%nat && (n <=? 122)%nat)%bool
  then ascii_of_nat (n - 32) else c.

Definition lower_char (c : ascii) : ascii :=
  let n := nat_of_ascii c in
  if ((65 <=? n)%nat && (n <=? 90)%nat)%bool
  then ascii_of_nat (n + 32) else c.

Fixpoint map_chars (f : ascii -> ascii) (s : string) : string :=
  match s with
  | EmptyString => EmptyString
  | String c s' => String (f c) (map_chars f s')
  end.

(** [s.upper()] and [s.lower()]. *)
Definition upper : string -> string := map_chars upper_char.
Definition lower : string -> string := map_chars lower_char.

(** [s.lstrip()], [s.rstrip()] and [s.strip()]. *)
Fixpoint lstrip (s : string) : string :=
  match s with
  | String c s' => if is_space c then lstrip s' else s
  | EmptyString => EmptyString
  end.

Fixpoint rstrip (s : string) : string :=
  match s with
  | EmptyString => EmptyString
  | String c s' =>
      match rstrip s' with
      | EmptyString => if is_space c then EmptyString else String c EmptyString
      | r => String c r
      end
  end.

Definition strip (s : string) : string := rstrip (lstrip s).

(** [s.startswith(p)], used to define the operator [p in s]. *)
Fixpoint startswith (p s : string) : bool :=
  match p, s with
  | EmptyString, _ => true
  | String a p', String b s' => Ascii.eqb a b && startswith p' s'
  | String _ _, EmptyString => false
  end.

(** [p in s] of Python: [p] occurs in [s] as a contiguous run. *)
Fixpoint contains (p s : string) : bool :=
  startswith p s
  || match s with
     | EmptyString => false
     | String _ s' => contains p s'
     end.

(** Python truthiness of a string. *)
Definition truthy (s : string) : bool :=
  match s with EmptyString => false | _ => true end.

End Str.

(** ** The record store *)

(** One row of the table [articles], with the columns created by
    build_unified_db.py and those added lazily by the stage scripts.
    A column added by ALTER TABLE reads NULL ([None]) until written. *)
Record article : Type := mkArticle {
  article_id : Z;
  title : string;
  url : string;
  source : string;
  date : string;
  search_type : string;
  text : option string;
  scraped_at : option string;
  scrape_status : option string;
  summary : option string;
  summarized_at : option string;
  summary_status : option string;
  batch_id : option string;
  cultural_relevant : option Z;
  filter_batch_id : option string
}.

Definition set_text (v : option string) (a : article) : article :=
  mkArticle (article_id a) (title a) (url a) (source a) (date a)
    (search_type a) v (scraped_at a) (scrape_status a) (summary a)
    (summarized_at a) (summary_status a) (batch_id a)
    (cultural_relevant a) (filter_batch_id a).

Definition set_scraped_at (v : option string) (a : article) : article :=
  mkArticle (article_id a) (title a) (url a) (source a) (date a)
    (search_type a) (text a) v (scrape_status a) (summary a)
    (summarized_at a) (summary_status a) (batch_id a)
    (cultural_relevant a) (filter_batch_id a).

Definition set_scrape_status (v : option string) (a : article) : article :=
  mkArticle (article_id a) (title a) (url a) (source a) (date a)
    (search_type a) (text a) (scraped_at a) v (summary a)
    (summarized_at a) (summary_status a) (batch_id a)
    (cultural_relevant a) (filter_batch_id a).

Definition set_summary (v : option string) (a : article) : article :=
  mkArticle (article_id a) (title a) (url a) (source a) (date a)
    (search_type a) (text a) (scraped_at a) (scrape_status a) v
    (summarized_at a) (summary_status a) (batch_id a)
    (cultural_relevant a) (filter_batch_id a).

Definition set_summarized_at (v : option string) (a : article) : article :=
  mkArticle (article_id a) (title a) (url a) (source a) (date a)
    (search_type a) (text a) (scraped_at a) (scrape_status a) (summary a)
    v (summary_status a) (batch_id a)
    (cultural_relevant a) (filter_batch_id a).

Definition set_summary_status (v : option string) (a : article) : article :=
  mkArticle (article_id a) (title a) (url a) (source a) (date a)
    (search_type a) (text a) (scraped_at a) (scrape_status a) (summary a)
    (summarized_at a) v (batch_id a)
    (cultural_relevant a) (filter_batch_id a).

Definition set_batch_id (v : option string) (a : article) : article :=
  mkArticle (article_id a) (title a) (url a) (source a) (date a)
    (search_type a) (text a) (scraped_at a) (scrape_status a) (summary a)
    (summarized_at a) (summary_status a) v
    (cultural_relevant a) (filter_batch_id a).

Definition set_cultural_relevant (v : option Z) (a : article) : article :=
  mkArticle (article_id a) (title a) (url a) (source a) (date a)
    (search_type a) (text a) (scraped_at a) (scrape_status a) (summary a)
    (summarized_at a) (summary_status a) (batch_id a)
    v (filter_batch_id a).

Definition set_filter_batch_id (v : option string) (a : article) : article :=
  mkArticle (article_id a) (title a) (url a) (source a) (date a)
    (search_type a) (text a) (scraped_at a) (scrape_status a) (summary a)
    (summarized_at a) (summary_status a) (batch_id a)
    (cultural_relevant a) v.

(** The table: its rows in rowid order and the AUTOINCREMENT counter. *)
Record table : Type := mkTable {
  rows : list article;
  seq : Z
}.

(** [CREATE TABLE articles (...)] on a fresh database file. *)
Definition empty_table : table := mkTable [] 0.

(** A sqlite3 connection: what is on disk and what the open transaction
    sees.  [execute] changes the latter only. *)
Record connection : Type := mkConn {
  committed : table;
  working : table
}.

Definition connect (t : table) : connection := mkConn t t.

Definition execute (f : table -> table) (c : connection) : connection :=
  mkConn (committed c) (f (working c)).

Definition commit (c : connection) : connection :=
  mkConn (working c) (working c).

(** The process stops without committing: the next connection sees the
    committed table only. *)
Definition interrupt (c : connection) : connection :=
  connect (committed c).

(** [UPDATE articles SET ... WHERE cond]. *)
Definition update_where (cond : article -> bool) (f : article -> article)
  (t : table) : table :=
  mkTable (map (fun a => if cond a then f a else a) (rows t)) (seq t).

Definition has_id (i : Z) (a : article) : bool := article_id a =? i.

(** [SELECT ... WHERE cond ORDER BY id]; the rows are kept in rowid
    order, which is the order of [id]. *)
Definition select_where (cond : article -> bool) (t : table) : list article :=
  List.filter cond (rows t).

Definition urls (t : table) : list string := map url (rows t).
Definition ids (t : table) : list Z := map article_id (rows t).

(** ** Exceptions *)

(** The result of a piece of script: it ran to its end, or an exception
    left it; in both cases the state reached so far is kept. *)
Inductive run (A : Type) : Type :=
| Completed (a : A)
| Raised (e : string) (a : A).
Arguments Completed {A} a.
Arguments Raised {A} e a.

Definition state_of {A} (r : run A) : A :=
  match r with Completed a => a | Raised _ a => a end.

Definition is_completed {A} (r : run A) : bool :=
  match r with Completed _ => true | Raised _ _ => false end.

(** A [for] loop whose body may raise: the first exception leaves it. *)
Fixpoint for_each {A B} (body : B -> A -> run A) (l : list B) (a : A) : run A :=
  match l with
  | [] => Completed a
  | x :: l' =>
      match body x a with
      | Completed a' => for_each body l' a'
      | Raised e a' => Raised e a'
      end
  end.

(** ** The deduplicating importer (build_unified_db.py) *)

Module Importer.

(** [INSERT INTO articles (title, url, source, date, search_type)
    VALUES (?, ?, ?, ?, ?)].  [url] is UNIQUE: [None] is
    sqlite3.IntegrityError, and the table is left as it was. *)
Definition insert_article (ti u so da ty : string) (t : table) : option table :=
  if bool_decide (u ∈ urls t) then None
  else
    let i := seq t + 1 in
    Some (mkTable
            (rows t ++ [mkArticle i ti u so da ty None None None None None
                          None None None None])
            i).

(** The inner dictionaries of [stats]. *)
Record counters : Type := mkCounters {
  added : nat;
  skipped : nat;
  errors : nat
}.

(** [stats = {'google_news': {...}, 'google_all': {...},
    'media_cloud': {...}}]. *)
Definition initial_stats : gmap string counters :=
  <["google_news" := mkCounters 0 0 0]>
    (<["google_all" := mkCounters 0 0 0]>
       (<["media_cloud" := mkCounters 0 0 0]> ∅)).

(** [stats[key][field] += 1]; [None] is KeyError. *)
Definition bump (f : counters -> counters) (key : string)
  (stats : gmap string counters) : option (gmap string counters) :=
  match stats !! key with
  | Some c => Some (<[key := f c]> stats)
  | None => None
  end.

Definition incr_added (c : counters) : counters :=
  mkCounters (S (added c)) (skipped c) (errors c).
Definition incr_skipped (c : counters) : counters :=
  mkCounters (added c) (S (skipped c)) (errors c).
Definition incr_errors (c : counters) : counters :=
  mkCounters (added c) (skipped c) (S (errors c)).

Definition state : Type := connection * gmap string counters.

(** The [try: INSERT; commit; added += 1 / except IntegrityError:
    skipped += 1 / except Exception: errors += 1] block shared by the
    two loops.  A KeyError of [stats[key]] inside the [try] reaches the
    last handler, which raises it again. *)
Definition insert_and_count (key ti u so da : string) (st : state) : run state :=
  let '(c, stats) := st in
  match insert_article ti u so da key (working c) with
  | Some t' =>
      let c' := commit (execute (fun _ => t') c) in
      match bump incr_added key stats with
      | Some stats' => Completed (c', stats')
      | None =>
          match bump incr_errors key stats with
          | Some stats' => Completed (c', stats')
          | None => Raised "KeyError" (c', stats)
          end
      end
  | None =>
      match bump incr_skipped key stats with
      | Some stats' => Completed (c, stats')
      | None => Raised "KeyError" (c, stats)
      end
  end.

(** A row of [search_results] in the Google Search database. *)
Record search_result : Type := mkSearchResult {
  sr_title : option string;
  sr_link : option string;
  sr_source : option string;
  sr_date : option string;
  sr_search_type : option string
}.

(** [WHERE link IS NOT NULL AND link != ''] *)
Definition has_link (r : search_result) : bool :=
  match sr_link r with
  | Some l => negb (String.eqb l "")
  | None => false
  end.

(** [x or d] on a nullable string. *)
Definition or_else (x : option string) (d : string) : string :=
  match x with
  | Some s => if Str.truthy s then s else d
  | None => d
  end.

Definition map_search_type (ty : string) : string :=
  if String.eqb ty "news" then "google_news"
  else if String.eqb ty "all" then "google_all"
  else ty.

Definition google_body (r : search_result) (st : state) : run state :=
  let ti := or_else (sr_title r) "" in
  let u := default "" (sr_link r) in
  let so := or_else (sr_source r) "" in
  let da := or_else (sr_date r) "" in
  let ty := or_else (sr_search_type r) "google_unknown" in
  insert_and_count (map_search_type ty) ti u so da st.

(** STEP 1: the loop over [google_cursor.fetchall()]. *)
Definition import_google (src : list search_result) (st : state) : run state :=
  for_each google_body (List.filter has_link src) st.

(** A row of the Media Cloud CSV as [csv.DictReader] yields it: what
    [row.get(k, '')] returns for each of the four columns.  A field
    that a short line lacks is [None], the value the reader fills it
    with; a column that the header lacks reads [''] . *)
Record csv_row : Type := mkCsvRow {
  csv_title : option string;
  csv_url : option string;
  csv_media_name : option string;
  csv_publish_date : option string
}.

Section MediaCloud.

(** [date_parser.parse(s).isoformat()] of dateutil; [None] when it
    raises. *)
Variable date_parser_parse : string -> option string.

(** The body of the loop over the CSV reader.  The four [.strip()]
    are outside every [try]: on a [None] the AttributeError leaves the
    script. *)
Definition media_cloud_body (r : csv_row) (st : state) : run state :=
  match csv_title r, csv_url r, csv_media_name r, csv_publish_date r with
  | Some title, Some url, Some media_name, Some publish_date =>
      let ti := Str.strip title in
      let u := Str.strip url in
      let so := Str.strip media_name in
      let date_string := Str.strip publish_date in
      if negb (Str.truthy u) then
        match bump incr_skipped "media_cloud" (snd st) with
        | Some stats' => Completed (fst st, stats')
        | None => Raised "KeyError" st
        end
      else
        let da := match date_parser_parse date_string with
                  | Some iso => iso
                  | None => date_string
                  end in
        insert_and_count "media_cloud" ti u so da st
  | _, _, _, _ => Raised "AttributeError" st
  end.

(** STEP 2: the loop over the CSV reader. *)
Definition import_media_cloud (src : list csv_row) (st : state) : run state :=
  for_each media_cloud_body src st.

(** [os.remove(DB_PATH)] when the file is there, [sqlite3.connect] and
    [CREATE TABLE articles]: the connection opens on the empty table,
    whatever an earlier run left in the file. *)
Definition new_database (existing : option table) : connection :=
  connect empty_table.

(** The two steps on an open connection; the second is not reached
    when the first raises. *)
Definition import_steps (google : list search_result)
  (media : list csv_row) (c : connection) : run state :=
  match import_google google (c, initial_stats) with
  | Completed st => import_media_cloud media st
  | Raised e st => Raised e st
  end.

(** The script as written: a new database, then the two steps. *)
Definition build_unified_db (google : list search_result)
  (media : list csv_row) : run state :=
  match import_google google (connect empty_table, initial_stats) with
  | Completed st => import_media_cloud media st
  | Raised e st => Raised e st
  end.

(** The script run where the database file holds [existing]. *)
Definition build_unified_db_over (existing : table)
  (google : list search_result) (media : list csv_row) : run state :=
  import_steps google media (new_database (Some existing)).

End MediaCloud.

Definition total (f : counters -> nat) (stats : gmap string counters) : nat :=
  map_fold (fun _ c n => (f c + n)%nat) O stats.

End Importer.

(** ** The synchronous stage runners *)

(** What one call of an external collaborator gives back. *)
Inductive response (A : Type) : Type :=
| Returned (v : A)
| Exception (msg : string).
Arguments Returned {A} v.
Arguments Exception {A} msg.

(** [f'error: {str(e)[:200]}'] *)
Definition error_status (msg : string) : string :=
  "error: " ++ Str.slice_to 200 msg.

(** A loop over the rows fetched before it starts, stopped by the
    operator after [k] complete iterations; [in_flight] is the statement
    of the next iteration, executed but not yet committed when the
    process stops. *)
Definition interrupted_loop {B} (body : B -> connection -> connection)
  (in_flight : B -> table -> table) (k : nat) (l : list B)
  (c : connection) : connection :=
  let c' := fold_left (fun c x => body x c) (firstn k l) c in
  match nth_error l k with
  | Some x => execute (in_flight x) c'
  | None => c'
  end.

Module Scrape.

(** [WHERE text IS NULL OR text = ''] *)
Definition pending (a : article) : bool :=
  match text a with
  | None => true
  | Some s => String.eqb s ""
  end.

(** [SELECT id, url, title FROM articles WHERE ... ORDER BY id] *)
Definition articles_to_scrape (t : table) : list article :=
  select_where pending t.

Record stats : Type := mkStats {
  success : nat;
  failed : nat;
  skipped : nat
}.

Section Run.

(** [Article(url)], [download()], [parse()], [.text]: the text, or
    the exception one of them raised. *)
Variable fetch : string -> response string.
(** [datetime.now().isoformat()] when the row of an article is
    written. *)
Variable clock : Z -> string.

(** [if text and len(text) > 100] *)
Definition substantial (s : string) : bool :=
  Str.truthy s && (Str.len s >? 100).

(** The UPDATE statement issued for one fetched row. *)
Definition statement (a : article) : table -> table :=
  match fetch (url a) with
  | Returned s =>
      if substantial s then
        update_where (has_id (article_id a))
          (fun r => set_scrape_status (Some "success")
                      (set_scraped_at (Some (clock (article_id a)))
                         (set_text (Some s) r)))
      else
        update_where (has_id (article_id a))
          (set_scrape_status (Some "no_content"))
  | Exception msg =>
      update_where (has_id (article_id a))
        (set_scrape_status (Some (error_status msg)))
  end.

Definition count (a : article) (st : stats) : stats :=
  match fetch (url a) with
  | Returned s =>
      if substantial s
      then mkStats (S (success st)) (failed st) (skipped st)
      else mkStats (success st) (failed st) (S (skipped st))
  | Exception _ => mkStats (success st) (S (failed st)) (skipped st)
  end.

(** One iteration: every branch executes its UPDATE and commits. *)
Definition body (a : article) (st : connection * stats) : connection * stats :=
  (commit (execute (statement a) (fst st)), count a (snd st)).

(** The whole loop. *)
Definition scrape_loop (l : list article) (st : connection * stats)
  : connection * stats :=
  fold_left (fun st a => body a st) l st.

(** scrape_articles.py from the table on disk to the table on disk. *)
Definition scrape_articles (t : table) : table * stats :=
  let c := connect t in
  let r := scrape_loop (articles_to_scrape t) (c, mkStats 0 0 0) in
  (committed (fst r), snd r).

(** The same run stopped after [k] records. *)
Definition scrape_articles_interrupted (k : nat) (t : table) : table :=
  let c := connect t in
  committed
    (interrupt
       (interrupted_loop (fun a c => fst (body a (c, mkStats 0 0 0)))
          statement k (articles_to_scrape t) c)).

End Run.

End Scrape.

Module Summarize.

Definition null_or_empty (x : option string) : bool :=
  match x with
  | None => true
  | Some s => String.eqb s ""
  end.

(** [WHERE text IS NOT NULL AND text != '' AND LENGTH(text) > 200
    AND (summary IS NULL OR summary = '')], the selection of
    summarize_articles.py, summarize_batch_prepare.py and of the UPDATE
    of summarize_batch_submit.py. *)
Definition pending (a : article) : bool :=
  match text a with
  | None => false
  | Some s =>
      negb (String.eqb s "") && (Str.sql_length s >? 200)
      && null_or_empty (summary a)
  end.

Definition articles_to_summarize (t : table) : list article :=
  select_where pending t.

(** The user prompt built from a fetched row. *)
Definition user_prompt (ti u tx : string) : string :=
  "Article Title: " ++ ti ++ "
Article URL: " ++ u ++ "

Article Text:
" ++ tx ++ "

Please provide a focused summary extracting all discoverability-related information.".

Definition prompt_of (a : article) : string :=
  user_prompt (title a) (url a) (default "" (text a)).

(** [response.choices[0].message.content] (nullable) and
    [response.usage.total_tokens]. *)
Record completion : Type := mkCompletion {
  content : option string;
  total_tokens : Z
}.

Record stats : Type := mkStats {
  success : nat;
  failed : nat;
  skipped : nat;
  tokens_used : Z
}.

(** [str(e)] of the TypeError raised by [len(None)]. *)
Definition len_none_message : string :=
  "object of type 'NoneType' has no len()".

Section Run.

(** [client.chat.completions.create(...)] on a user prompt. *)
Variable llm : string -> response completion.
Variable clock : Z -> string.

Definition write_success (a : article) (s : option string) : table -> table :=
  update_where (has_id (article_id a))
    (fun r => set_summary_status (Some "success")
                (set_summarized_at (Some (clock (article_id a)))
                   (set_summary s r))).

Definition write_error (a : article) (msg : string) : table -> table :=
  update_where (has_id (article_id a))
    (set_summary_status (Some (error_status msg))).

(** One iteration.  With a null content the success row is
    committed, then [len(summary)] in the progress line raises and
    the handler commits the error status over it. *)
Definition body (a : article) (st : connection * stats) : connection * stats :=
  let '(c, s) := st in
  match llm (prompt_of a) with
  | Returned r =>
      let s1 := mkStats (success s) (failed s) (skipped s)
                  (tokens_used s + total_tokens r) in
      let c1 := commit (execute (write_success a (content r)) c) in
      let s2 := mkStats (S (success s1)) (failed s1) (skipped s1)
                  (tokens_used s1) in
      match content r with
      | Some _ => (c1, s2)
      | None =>
          (commit (execute (write_error a len_none_message) c1),
           mkStats (success s2) (S (failed s2)) (skipped s2)
             (tokens_used s2))
      end
  | Exception msg =>
      (commit (execute (write_error a msg) c),
       mkStats (success s) (S (failed s)) (skipped s) (tokens_used s))
  end.

Definition summarize_loop (l : list article) (st : connection * stats)
  : connection * stats :=
  fold_left (fun st a => body a st) l st.

(** summarize_articles.py from the table on disk to the table on
    disk. *)
Definition summarize_articles (t : table) : table * stats :=
  let r := summarize_loop (articles_to_summarize t)
             (connect t, mkStats 0 0 0 0) in
  (committed (fst r), snd r).

End Run.

End Summarize.

(** ** The asynchronous batch stage runners *)

(** One line of the result bundle after [json.loads]:
    [int(result['custom_id'])], [str(result['error'])] when
    [result.get('error')] is truthy, and the message content and token
    count of [result['response']['body']]. *)
Record batch_result : Type := mkResult {
  custom_id : Z;
  error : option string;
  content : option string;
  total_tokens : Z
}.

(** [SELECT DISTINCT col FROM articles WHERE col IS NOT NULL ... LIMIT 1]
    returns a row. *)
Definition batch_found (col : article -> option string) (t : table) : bool :=
  existsb (fun a => match col a with Some _ => true | None => false end)
    (rows t).

Module SummarizeBatch.

(** summarize_batch_submit.py: the UPDATE that marks the articles of
    the batch, and its commit. *)
Definition mark_submitted (batch : string) (t : table) : table :=
  update_where Summarize.pending
    (fun r => set_summary_status (Some "batch_submitted")
                (set_batch_id (Some batch) r))
    t.

Definition summarize_batch_submit (batch : string) (t : table) : table :=
  committed (commit (execute (mark_submitted batch) (connect t))).

Section Process.

(** The successive readings of [datetime.now().isoformat()], one
    per line of the bundle. *)
Variable clock : nat -> string.

(** The UPDATE issued for one line. *)
Definition statement (now : string) (r : batch_result) : table -> table :=
  match error r with
  | Some msg =>
      update_where (has_id (custom_id r))
        (set_summary_status (Some (error_status msg)))
  | None =>
      update_where (has_id (custom_id r))
        (fun a => set_summary_status (Some "success")
                    (set_summarized_at (Some now)
                       (set_summary (content r) a)))
  end.

(** The loop over the lines; nothing is committed inside it. *)
Fixpoint process_from (n : nat) (l : list batch_result) (c : connection)
  : connection :=
  match l with
  | [] => c
  | r :: l' => process_from (S n) l' (execute (statement (clock n) r) c)
  end.

(** summarize_batch_process.py from the table on disk to the table
    on disk: [status] is [batch.status] and [output] the parsed
    output file, when there is one. *)
Definition summarize_batch_process (status : string)
  (output : option (list batch_result)) (t : table) : table :=
  if negb (batch_found batch_id t) then t
  else if negb (String.eqb status "completed") then t
  else match output with
       | None => t
       | Some l => committed (commit (process_from O l (connect t)))
       end.

(** The loop stopped after [k] lines. *)
Definition process_interrupted (k : nat) (l : list batch_result)
  (t : table) : table :=
  committed (interrupt (process_from O (firstn k l) (connect t))).

End Process.

End SummarizeBatch.

Module Filter.

(** [WHERE summary IS NOT NULL AND summary != '' AND
    LENGTH(summary) > 50 AND cultural_relevant IS NULL] *)
Definition pending (a : article) : bool :=
  match summary a, cultural_relevant a with
  | Some s, None => negb (String.eqb s "") && (Str.sql_length s >? 50)
  | _, _ => false
  end.

Definition articles (t : table) : list article := select_where pending t.

(** [UPDATE articles SET filter_batch_id = ? WHERE id IN (...)] over
    the ids of the selected rows, and its commit. *)
Definition mark_submitted (batch : string) (t : table) : table :=
  let sel := map article_id (articles t) in
  committed
    (commit
       (execute
          (update_where (fun a => bool_decide (article_id a ∈ sel))
             (set_filter_batch_id (Some batch)))
          (connect t))).

(** [content.strip().upper()] *)
Definition decision (s : string) : string := Str.upper (Str.strip s).

(** [1 if 'YES' in decision else 0] *)
Definition is_relevant (s : string) : Z :=
  if Str.contains "YES" (decision s) then 1 else 0.

(** One line of the bundle.  A null content has no [strip]: the
    AttributeError is not caught. *)
Definition reconcile_body (r : batch_result) (c : connection) : run connection :=
  match error r with
  | Some _ =>
      Completed
        (execute
           (update_where (has_id (custom_id r)) (set_cultural_relevant (Some 1)))
           c)
  | None =>
      match content r with
      | Some s =>
          Completed
            (execute
               (update_where (has_id (custom_id r))
                  (set_cultural_relevant (Some (is_relevant s))))
               c)
      | None => Raised "AttributeError" c
      end
  end.

Definition reconcile (l : list batch_result) (c : connection) : run connection :=
  for_each reconcile_body l c.

(** The processing of a completed batch, in filter_cultural_articles.py
    (step 5) and in check_cultural_filter_batch.py, from the table on
    disk to the table on disk; the commit follows the loop. *)
Definition process_results (l : list batch_result) (t : table) : table :=
  match reconcile l (connect t) with
  | Completed c => committed (commit c)
  | Raised _ c => committed (interrupt c)
  end.

(** check_cultural_filter_batch.py. *)
Definition check_cultural_filter_batch (status : string)
  (output : option (list batch_result)) (t : table) : table :=
  if negb (batch_found filter_batch_id t) then t
  else if String.eqb status "completed" then
    match output with
    | None => t
    | Some l => process_results l t
    end
  else t.

End Filter.

(** ** Date normalisation of the search importer (google_search.py) *)

Module GoogleSearchDates.

(** A naive [datetime] is its number of microseconds since
    0001-01-01T00:00:00, the least value of the type; a [timedelta]
    is a number of microseconds. *)
Definition datetime : Type := Z.

Definition second : Z := 1000000.
Definition minute : Z := 60 * second.
Definition hour : Z := 60 * minute.
Definition day : Z := 24 * hour.
Definition week : Z := 7 * day.

Inductive unit_name : Type :=
| seconds | minutes | hours | days | weeks | months | years.

(** The word of each pattern of the list [patterns], in its order. *)
Definition patterns : list (string * unit_name) :=
  [("second", seconds); ("minute", minutes); ("hour", hours);
   ("day", days); ("week", weeks); ("month", months); ("year", years)].

(** The [timedelta] subtracted for each unit: 30 days per month and
    365 days per year. *)
Definition timedelta (u : unit_name) (amount : Z) : Z :=
  match u with
  | seconds => amount * second
  | minutes => amount * minute
  | hours => amount * hour
  | days => amount * day
  | weeks => amount * week
  | months => amount * 30 * day
  | years => amount * 365 * day
  end.

(** [now - delta]: OverflowError below [datetime.min].  A delta that
    [timedelta] itself refuses is larger than the whole range of
    [datetime], so the one test covers both. *)
Definition minus (now : datetime) (delta : Z) : response (option datetime) :=
  if now - delta <? 0 then Exception "OverflowError"
  else Returned (Some (now - delta)).

(** The longest run of digits at the head of a string, and the rest. *)
Fixpoint take_digits (s : string) : string * string :=
  match s with
  | String c s' =>
      if Str.is_digit c
      then let '(d, r) := take_digits s' in (String c d, r)
      else (EmptyString, s)
  | EmptyString => (EmptyString, EmptyString)
  end.

Fixpoint skip_spaces (s : string) : string :=
  match s with
  | String c s' => if Str.is_space c then skip_spaces s' else s
  | EmptyString => EmptyString
  end.

Fixpoint strip_prefix (p s : string) : option string :=
  match p, s with
  | EmptyString, _ => Some s
  | String a p', String b s' =>
      if Ascii.eqb a b then strip_prefix p' s' else None
  | String _ _, EmptyString => None
  end.

Definition optional_s (s : string) : string :=
  match s with
  | String "s" r => r
  | _ => s
  end.

(** [(\d+)\s*word[s]?\s*ago] matched at the head of [s]; the result is
    group 1.  Each greedy part is followed by a character outside its
    class, so taking the longest run at each step loses no match. *)
Definition match_here (word s : string) : option string :=
  let '(d, r1) := take_digits s in
  if Str.truthy d then
    match strip_prefix word (skip_spaces r1) with
    | Some r2 =>
        if Str.startswith "ago" (skip_spaces (optional_s r2))
        then Some d else None
    | None => None
    end
  else None.

(** [re.search(pattern, s)]: the match at the leftmost position. *)
Fixpoint re_search (word s : string) : option string :=
  match match_here word s with
  | Some d => Some d
  | None =>
      match s with
      | String _ s' => re_search word s'
      | EmptyString => None
      end
  end.

(** [int(digits)] *)
Definition digit_value (c : ascii) : Z := Z.of_nat (nat_of_ascii c) - 48.

Fixpoint int_from (acc : Z) (s : string) : Z :=
  match s with
  | String c s' => int_from (10 * acc + digit_value c) s'
  | EmptyString => acc
  end.

Definition int (s : string) : Z := int_from 0 s.

Section Parse.

(** [dateutil.parser.parse]; [None] when it raises. *)
Variable parser_parse : string -> option datetime.
(** [datetime.isoformat] *)
Variable isoformat : datetime -> string.

(** The loop over [patterns]. *)
Fixpoint first_pattern (ps : list (string * unit_name)) (now : datetime)
  (s : string) : option (response (option datetime)) :=
  match ps with
  | [] => None
  | (word, u) :: ps' =>
      match re_search word s with
      | Some d => Some (minus now (timedelta u (int d)))
      | None => first_pattern ps' now s
      end
  end.

(** [parse_relative_date(date_string)] with [datetime.now()] read as
    [now]. *)
Definition parse_relative_date (now : datetime) (date_string : string)
  : response (option datetime) :=
  if negb (Str.truthy date_string) then Returned None
  else
    match parser_parse date_string with
    | Some d => Returned (Some d)
    | None =>
        let date_string_lower := Str.strip (Str.lower date_string) in
        match first_pattern patterns now date_string_lower with
        | Some r => r
        | None =>
            if Str.contains "yesterday" date_string_lower
            then minus now (1 * day)
            else if Str.contains "today" date_string_lower
                    || Str.contains "just now" date_string_lower
            then Returned (Some now)
            else Returned None
        end
    end.

(** [date_to_store] of [run_search]. *)
Definition date_to_store (now : datetime) (date_string : string)
  : response string :=
  match parse_relative_date now date_string with
  | Returned (Some d) => Returned (isoformat d)
  | Returned None => Returned date_string
  | Exception e => Exception e
  end.

End Parse.

End GoogleSearchDates.

(** ** Notions used to state the properties *)

(** The effect of [UPDATE ... WHERE id = i] on one row. *)
Definition on_id (i : Z) (f : article -> article) (a : article) : article :=
  if has_id i a then f a else a.

(** [p] occurs in [s]. *)
Definition occurs_in (p s : string) : Prop :=
  exists pre post : string, s = pre ++ p ++ post.

(** The value the relevance filter leaves in a row: 0 or 1. *)
Definition decided (a : article) : Prop :=
  cultural_relevant a = Some 0 \/ cultural_relevant a = Some 1.

Module FilterFacts.

(** What one line of the bundle does to one row. *)
Definition row_effect (r : batch_result) (a : article) : article :=
  match error r, content r with
  | Some _, _ => on_id (custom_id r) (set_cultural_relevant (Some 1)) a
  | None, Some s =>
      on_id (custom_id r)
        (set_cultural_relevant (Some (Filter.is_relevant s))) a
  | None, None => a
  end.

Definition rows_effect (l : list batch_result) (a : article) : article :=
  fold_left (fun a r => row_effect r a) l a.

(** Every line without error carries a text. *)
Definition readable (l : list batch_result) : bool :=
  forallb (fun r => match error r, content r with
                    | None, None => false
                    | _, _ => true
                    end) l.

End FilterFacts.

(** What a loop of [UPDATE ... WHERE id = ?] statements, one per fetched
    row [s] and each applying [g s], does to one row of the table. *)
Definition loop_effect (g : article -> article -> article)
  (l : list article) (r : article) : article :=
  fold_left (fun r s => on_id (article_id s) (g s) r) l r.

Module ScrapeFacts.

Section Effect.

Variable fetch : string -> response string.
Variable clock : Z -> string.

(** The text of the fetched row [s] was accepted. *)
Definition accepted (s : article) : bool :=
  match fetch (url s) with
  | Returned x => Scrape.substantial x
  | Exception _ => false
  end.

(** What the iteration for the fetched row [s] writes in a row. *)
Definition row_effect (s r : article) : article :=
  match fetch (url s) with
  | Returned x =>
      if Scrape.substantial x then
        set_scrape_status (Some "success")
          (set_scraped_at (Some (clock (article_id s)))
             (set_text (Some x) r))
      else set_scrape_status (Some "no_content") r
  | Exception msg => set_scrape_status (Some (error_status msg)) r
  end.

(** What a whole run does to a row of the table it starts from. *)
Definition run_effect (r : article) : article :=
  if Scrape.pending r then row_effect r r else r.

End Effect.

End ScrapeFacts.

Module SummarizeFacts.

Section Effect.

Variable llm : string -> response Summarize.completion.
Variable clock : Z -> string.

(** A summary with at least one character was stored. *)
Definition accepted (s : article) : bool :=
  match llm (Summarize.prompt_of s) with
  | Returned c =>
      match Summarize.content c with
      | Some x => Str.truthy x
      | None => false
      end
  | Exception _ => false
  end.

Definition success_row (s : article) (x : option string) (r : article)
  : article :=
  set_summary_status (Some "success")
    (set_summarized_at (Some (clock (article_id s))) (set_summary x r)).

Definition row_effect (s r : article) : article :=
  match llm (Summarize.prompt_of s) with
  | Returned c =>
      match Summarize.content c with
      | Some x => success_row s (Some x) r
      | None =>
          set_summary_status
            (Some (error_status Summarize.len_none_message))
            (success_row s None r)
      end
  | Exception msg => set_summary_status (Some (error_status msg)) r
  end.

Definition run_effect (r : article) : article :=
  if Summarize.pending r then row_effect r r else r.

(** The net statement of one iteration. *)
Definition statement (s : article) (t : table) : table :=
  update_where (has_id (article_id s)) (row_effect s) t.

End Effect.

End SummarizeFacts.

(** The stages and, in the words of the specification, what it is for a
    record to lack the output of a stage and to satisfy its
    prerequisites. *)
Inductive stage : Type :=
| Scraping
| Summarization
| RelevanceFiltering.

Definition output_missing (S : stage) (a : article) : Prop :=
  match S with
  | Scraping => text a = None \/ text a = Some ""
  | Summarization => summary a = None \/ summary a = Some ""
  | RelevanceFiltering => cultural_relevant a = None
  end.

Definition prerequisites (S : stage) (a : article) : Prop :=
  match S with
  | Scraping => True
  | Summarization =>
      exists s, text a = Some s /\ s <> "" /\ 200 < Str.sql_length s
  | RelevanceFiltering =>
      exists s, summary a = Some s /\ s <> "" /\ 50 < Str.sql_length s
  end.

(** The selection of each stage script. *)
Definition pending_set (S : stage) (t : table) : list article :=
  match S with
  | Scraping => Scrape.articles_to_scrape t
  | Summarization => Summarize.articles_to_summarize t
  | RelevanceFiltering => Filter.articles t
  end.

Module SummarizeBatchFacts.

(** What the statement of one line of the bundle does to one row. *)
Definition row_effect (now : string) (r : batch_result) (a : article)
  : article :=
  match error r with
  | Some msg =>
      on_id (custom_id r)
        (set_summary_status (Some (error_status msg))) a
  | None =>
      on_id (custom_id r)
        (fun a => set_summary_status (Some "success")
                    (set_summarized_at (Some now)
                       (set_summary (content r) a))) a
  end.

(** What the loop does to one row, the first line being read at the
    [n]-th reading of the clock. *)
Fixpoint rows_effect (clock : nat -> string) (n : nat)
  (l : list batch_result) (a : article) : article :=
  match l with
  | [] => a
  | r :: l' => rows_effect clock (S n) l' (row_effect (clock n) r a)
  end.

(** A row without the columns a line can write. *)
Definition without_status (a : article) : article :=
  set_summary_status None a.

Definition without_time (a : article) : article :=
  set_summarized_at None a.

Definition without_summary (a : article) : article :=
  set_summary None (set_summarized_at None (set_summary_status None a)).

(** The bundle has a line for the id, and a line without error. *)
Definition mentions (i : Z) (l : list batch_result) : bool :=
  existsb (fun r => custom_id r =? i) l.

Definition answers (i : Z) (l : list batch_result) : bool :=
  existsb (fun r => (custom_id r =? i)
                    && match error r with Some _ => false | None => true end)
    l.


End SummarizeBatchFacts.

Module FilterIdempotence.

Definition without_decision (a : article) : article :=
  set_cultural_relevant None a.

End FilterIdempotence.

Module ImporterFacts.

Import Importer.

(** Nothing is pending in the transaction and the urls are distinct. *)
Definition clean (c : connection) : Prop :=
  committed c = working c /\ List.NoDup (urls (working c)).

(** The rows of [t] are the first rows of [t'], as they were. *)
Definition extends (t t' : table) : Prop :=
  exists more : list article, rows t' = (rows t ++ more)%list.

Definition same_keys (s s' : gmap string counters) : Prop :=
  forall k : string, is_Some (s !! k) <-> is_Some (s' !! k).

(** What an iteration of either loop does with its row: count it as
    skipped without touching the table, try the INSERT, or leave the
    script on a line that lacks a field. *)
Inductive action : Type :=
| Skip (key : string)
| Insert (key ti u so da : string)
| Stop.

Definition key_of (a : action) : option string :=
  match a with
  | Skip key => Some key
  | Insert key _ _ _ _ => Some key
  | Stop => None
  end.

(** The action has a key and the dictionary has it. *)
Definition counted (a : action) (s : gmap string counters) : Prop :=
  match key_of a with
  | Some key => is_Some (s !! key)
  | None => False
  end.

Definition perform (a : action) (st : state) : run state :=
  match a with
  | Skip key =>
      match bump incr_skipped key (snd st) with
      | Some stats' => Completed (fst st, stats')
      | None => Raised "KeyError" st
      end
  | Insert key ti u so da => insert_and_count key ti u so da st
  | Stop => Raised "AttributeError" st
  end.

Definition google_action (r : search_result) : action :=
  Insert
    (map_search_type (or_else (sr_search_type r) "google_unknown"))
    (or_else (sr_title r) "") (default "" (sr_link r))
    (or_else (sr_source r) "") (or_else (sr_date r) "").

(** The line has its four fields. *)
Definition complete (r : csv_row) : bool :=
  match csv_title r, csv_url r, csv_media_name r, csv_publish_date r with
  | Some _, Some _, Some _, Some _ => true
  | _, _, _, _ => false
  end.

Definition media_cloud_action (date_parser_parse : string -> option string)
  (r : csv_row) : action :=
  match csv_title r, csv_url r, csv_media_name r, csv_publish_date r with
  | Some title, Some url, Some media_name, Some publish_date =>
      if negb (Str.truthy (Str.strip url)) then Skip "media_cloud"
      else
        Insert "media_cloud" (Str.strip title) (Str.strip url)
          (Str.strip media_name)
          match date_parser_parse (Str.strip publish_date) with
          | Some iso => iso
          | None => Str.strip publish_date
          end
  | _, _, _, _ => Stop
  end.

(** The actions of a run of the script, in the order of its loops. *)
Definition actions (date_parser_parse : string -> option string)
  (google : list search_result) (media : list csv_row) : list action :=
  (map google_action (List.filter has_link google)
   ++ map (media_cloud_action date_parser_parse) media)%list.

(** The type of the row, once mapped, is a key of [stats]. *)
Definition known_type (r : search_result) : Prop :=
  let key := map_search_type (or_else (sr_search_type r) "google_unknown") in
  key = "google_news" \/ key = "google_all" \/ key = "media_cloud".

(** The url an action would insert is in the table already. *)
Definition known (a : action) (c : connection) : Prop :=
  match a with
  | Insert _ _ u _ _ => In u (urls (working c))
  | Skip _ => True
  | Stop => True
  end.

Definition conn_of (r : run state) : connection := fst (state_of r).
Definition stats_of (r : run state) : gmap string counters :=
  snd (state_of r).

End ImporterFacts.

(** ** The columns of the table *)

Module Schema.

(** The names of the columns of [articles].  SQLite compares column
    names without regard to case; they are kept in lower case. *)
Definition schema : Type := gset string.

(** [CREATE TABLE articles (...)] of build_unified_db.py. *)
Definition created : schema :=
  {[ "id"; "title"; "url"; "source"; "date"; "search_type"; "created_at" ]}.

(** [ALTER TABLE articles ADD COLUMN name type]; [None] is
    sqlite3.OperationalError (duplicate column name). *)
Definition add_column (name : string) (s : schema) : option schema :=
  let n := Str.lower name in
  if bool_decide (n ∈ s) then None else Some ({[ n ]} ∪ s).

(** One block [try: ALTER ...; ALTER ...; commit / except
    sqlite3.OperationalError: ...]: the first statement that is refused
    leaves the [try]; the columns added before it stay. *)
Fixpoint try_add (names : list string) (s : schema) : schema :=
  match names with
  | [] => s
  | n :: names' =>
      match add_column n s with
      | Some s' => try_add names' s'
      | None => s
      end
  end.

(** A statement that names the columns [cols] is accepted when they all
    exist; otherwise it raises sqlite3.OperationalError (no such
    column). *)
Definition accepts (cols : list string) (s : schema) : bool :=
  forallb (fun n => bool_decide (Str.lower n ∈ s)) cols.

(** The two blocks of scrape_articles.py. *)
Definition scrape_articles_setup (s : schema) : schema :=
  try_add ["scraped_at"; "scrape_status"] (try_add ["text"] s).

(** The two blocks of summarize_articles.py. *)
Definition summarize_articles_setup (s : schema) : schema :=
  try_add ["summarized_at"; "summary_status"] (try_add ["summary"] s).

(** The one block of summarize_batch_prepare.py. *)
Definition summarize_batch_prepare_setup (s : schema) : schema :=
  try_add ["summary"; "summary_status"; "summarized_at"; "batch_id"] s.

(** The one block of filter_cultural_articles.py. *)
Definition filter_cultural_articles_setup (s : schema) : schema :=
  try_add ["cultural_relevant"; "filter_batch_id"] s.

(** fix_database_schema.py: the list [columns_to_add] and the loop
    over it, each ALTER in a [try] of its own. *)
Definition columns_to_add : list string :=
  ["summary"; "summary_status"; "summarized_at"; "batch_id"; "text";
   "scrape_status"; "scraped_at"].

Definition fix_database_schema (s : schema) : schema :=
  fold_left (fun s n => match add_column n s with
                        | Some s' => s'
                        | None => s
                        end) columns_to_add s.

(** The columns named by the UPDATE of summarize_batch_submit.py and of
    fix_database_schema.py. *)
Definition submit_update_columns : list string :=
  ["batch_id"; "summary_status"; "summary"; "text"].

End Schema.

(** ** Conversions between [int] and [str] *)

Module Py.

Definition digit_char (d : Z) : ascii := ascii_of_nat (48 + Z.to_nat d).

(** The decimal digits of a non-negative [n], written in front of
    [acc]; [fuel] bounds the number of digits. *)
Fixpoint digits_of (fuel : nat) (n : Z) (acc : string) : string :=
  match fuel with
  | O => acc
  | S fuel' =>
      let acc' := String (digit_char (n mod 10)) acc in
      if n <? 10 then acc' else digits_of fuel' (n / 10) acc'
  end.

(** [str(n)] of an [int]: no more decimal digits than binary ones. *)
Definition str (n : Z) : string :=
  if n <? 0
  then String "-" (digits_of (S (Z.to_nat (Z.log2 (- n)))) (- n) "")
  else digits_of (S (Z.to_nat (Z.log2 n))) n "".

(** The digits of [int(s)]: one underscore is allowed between two
    digits; [None] is ValueError. *)
Fixpoint int_digits (after_digit : bool) (acc : Z) (s : string) : option Z :=
  match s with
  | EmptyString => if after_digit then Some acc else None
  | String c s' =>
      if Str.is_digit c
      then int_digits true (10 * acc + GoogleSearchDates.digit_value c) s'
      else if Ascii.eqb c "_"
           then if after_digit then int_digits false acc s' else None
           else None
  end.

(** [int(s)] of a [str] of one-byte characters: surrounding white space
    is dropped, then come an optional sign and the digits. *)
Definition int (s : string) : option Z :=
  match Str.strip s with
  | String "-" r => option_map Z.opp (int_digits false 0 r)
  | String "+" r => int_digits false 0 r
  | r => int_digits false 0 r
  end.

End Py.

(** ** The request files of the batch stages *)

(** The part of a line of the request file that depends on the
    article: [custom_id] and the content of the user message. *)
Record request : Type := mkRequest {
  request_custom_id : string;
  request_user_prompt : string
}.

Module SummarizeBatchPrepare.

(** summarize_batch_prepare.py: one request for each selected row, in
    the order of the selection. *)
Definition request_of (a : article) : request :=
  mkRequest (Py.str (article_id a)) (Summarize.prompt_of a).

Definition summarize_batch_prepare (t : table) : list request :=
  map request_of (Summarize.articles_to_summarize t).

End SummarizeBatchPrepare.

Module FixDatabaseSchema.

Definition BATCH_ID : string := "batch_69494aa753708190818b6d63dd6bb69c".

(** The UPDATE of fix_database_schema.py and its commit. *)
Definition update (t : table) : table :=
  committed
    (commit (execute (SummarizeBatch.mark_submitted BATCH_ID) (connect t))).

End FixDatabaseSchema.

Module FilterSubmit.

Definition user_prompt (ti sm : string) : string :=
  "Title: " ++ ti ++ "

Summary: " ++ sm ++ "

Is this article relevant to culture and creative industries?".

Definition request_of (a : article) : request :=
  mkRequest (Py.str (article_id a))
    (user_prompt (title a) (default "" (summary a))).

(** Steps 1 to 3 of filter_cultural_articles.py, [batch] being the id
    the batch endpoint gives: [None] when the script leaves with
    [exit(0)] because nothing is selected; otherwise the request file
    and the table once the selected rows are marked. *)
Definition submit (batch : string) (t : table)
  : option (list request * table) :=
  match Filter.articles t with
  | [] => None
  | sel => Some (map request_of sel, Filter.mark_submitted batch t)
  end.

End FilterSubmit.

(** ** The batch a script looks up *)

(** [SELECT DISTINCT col FROM articles WHERE col IS NOT NULL
    ORDER BY col DESC LIMIT 1], the values compared byte by byte. *)
Definition latest_batch (col : article -> option string) (t : table)
  : option string :=
  fold_left
    (fun best a =>
       match col a, best with
       | Some b, Some m => if String.ltb m b then Some b else Some m
       | Some b, None => Some b
       | None, _ => best
       end)
    (rows t) None.

(** ** The rows the importer writes *)

Module ImporterRows.

(** The row an INSERT adds to the table [t]: the next id, the five
    values of the statement, and NULL in every column that a later
    script adds. *)
Definition inserted (t : table) (key ti u so da : string) : article :=
  mkArticle (seq t + 1) ti u so da key None None None None None None None
    None None.

(** A row as the importer leaves it. *)
Definition untouched (a : article) : Prop :=
  text a = None /\ scraped_at a = None /\ scrape_status a = None
  /\ summary a = None /\ summarized_at a = None /\ summary_status a = None
  /\ batch_id a = None /\ cultural_relevant a = None
  /\ filter_batch_id a = None.

End ImporterRows.

Module ImporterInvariant.

(** The url an action would insert is not the empty string. *)
Definition has_url (a : ImporterFacts.action) : Prop :=
  match a with
  | ImporterFacts.Insert _ _ u _ _ => u <> ""
  | ImporterFacts.Skip _ => True
  | ImporterFacts.Stop => True
  end.

(** Ids are 1, 2, ... in row order, the counter is the last of them,
    and every row has a url and nothing that a later script writes. *)
Definition well_formed (t : table) : Prop :=
  seq t = Z.of_nat (length (rows t))
  /\ ids t = map Z.of_nat (List.seq 1 (length (rows t)))
  /\ forall a, In a (rows t) -> url a <> "" /\ ImporterRows.untouched a.

End ImporterInvariant.

(** Every character of [s] satisfies [p]. *)
Fixpoint every_char (p : ascii -> bool) (s : string) : bool :=
  match s with
  | EmptyString => true
  | String c s' => p c && every_char p s'
  end.

(** ** What the stage scripts leave alone *)

(** The columns that the importer writes and no other script does. *)
Definition identity (a : article)
  : Z * string * string * string * string * string :=
  (article_id a, title a, url a, source a, date a, search_type a).

(** The same rows in the same order, as far as those columns go. *)
Definition same_records (t t' : table) : Prop :=
  map identity (rows t') = map identity (rows t) /\ seq t' = seq t.

(** Both tables of a connection hold the records of [t0]. *)
Definition holds (t0 : table) (c : connection) : Prop :=
  same_records t0 (committed c) /\ same_records t0 (working c).

(** ** The selection of the topic model *)

Module TopicModeling.

(** [WHERE summary IS NOT NULL AND summary != '' AND LENGTH(summary) > 50
    AND (cultural_relevant = 1 OR cultural_relevant IS NULL)] of
    run_topic_modeling.py. *)
Definition selected (a : article) : bool :=
  match summary a with
  | Some s =>
      negb (String.eqb s "") && (Str.sql_length s >? 50)
      && match cultural_relevant a with
         | Some v => v =? 1
         | None => true
         end
  | None => false
  end.

Definition batch_size : nat := 128.

(** [range(0, n, step)] for a positive [step]. *)
Definition range_step (n step : nat) : list nat :=
  map (fun k => (k * step)%nat) (List.seq 0 ((n + step - 1) / step)).

(** [documents[i:i+batch_size]] for each [i] of
    [range(0, len(documents), batch_size)]. *)
Definition batches {A} (documents : list A) : list (list A) :=
  map (fun i => firstn batch_size (skipn i documents))
    (range_step (length documents) batch_size).

(** [all_embeddings.extend(result.embeddings)] over the batches, [embed]
    being the call of the embedding service on one batch. *)
Definition all_embeddings {A B} (embed : list A -> list B)
  (documents : list A) : list B :=
  concat (map embed (batches documents)).

(** The total printed with each batch:
    [(len(documents)-1)//batch_size + 1]. *)
Definition printed_total {A} (documents : list A) : Z :=
  (Z.of_nat (length documents) - 1) / Z.of_nat batch_size + 1.

End TopicModeling.

(** ** The tally of the summarizer *)

Module SummarizeTally.

Section Tally.

Variable llm : string -> response Summarize.completion.

(** The call for the row returned; it returned a null content; the
    tokens it reported. *)
Definition returned (a : article) : bool :=
  match llm (Summarize.prompt_of a) with
  | Returned _ => true
  | Exception _ => false
  end.

Definition null_content (a : article) : bool :=
  match llm (Summarize.prompt_of a) with
  | Returned r =>
      match Summarize.content r with Some _ => false | None => true end
  | Exception _ => false
  end.

Definition tokens (a : article) : Z :=
  match llm (Summarize.prompt_of a) with
  | Returned r => Summarize.total_tokens r
  | Exception _ => 0
  end.

End Tally.

End SummarizeTally.

(** ** The articles of each topic (generate_topic_descriptions.py) *)

Module TopicDescriptions.

(** A row of [SELECT id, title, summary, topic FROM articles WHERE ...]. *)
Record topic_article : Type := mkTopicArticle {
  ta_id : Z;
  ta_title : string;
  ta_summary : string;
  ta_topic : Z
}.

(** [if topic not in articles_by_topic: articles_by_topic[topic] = []]
    and [articles_by_topic[topic].append(...)]. *)
Definition add_article (d : gmap Z (list topic_article))
  (a : topic_article) : gmap Z (list topic_article) :=
  <[ta_topic a := (default [] (d !! ta_topic a) ++ [a])%list]> d.

Definition articles_by_topic (articles : list topic_article)
  : gmap Z (list topic_article) :=
  fold_left add_article articles ∅.

(** [sample_size = min(30, len(topic_articles))] for a topic of
    [topics_to_process]; [None] when the topic has no article and is
    skipped. *)
Definition sample_size (articles : list topic_article) (topic_id : Z)
  : option nat :=
  match articles_by_topic articles !! topic_id with
  | Some l => Some (Nat.min 30 (length l))
  | None => None
  end.

End TopicDescriptions.

(** ** The search results (google_search.py, integrate_media_cloud.py) *)

Module SearchResults.

(** One row of the table [search_results]; [link] is UNIQUE and, like
    every column but the id, may be NULL. *)
Record row : Type := mkRow {
  rowid : Z;
  title : option string;
  link : option string;
  source : option string;
  date : option string;
  snippet : option string;
  query : option string;
  search_type : option string
}.

(** The table: its rows in rowid order and the AUTOINCREMENT counter.
    Both scripts commit after every INSERT. *)
Record results : Type := mkResults {
  result_rows : list row;
  result_seq : Z
}.

Definition links (t : results) : list (option string) :=
  map link (result_rows t).

(** [INSERT INTO search_results (title, link, source, date, snippet,
    query, search_type) VALUES (?, ?, ?, ?, ?, ?, ?)]; [None] is
    sqlite3.IntegrityError, raised when a row has the link already. *)
Definition insert (ti li so da sn q ty : string) (t : results)
  : option results :=
  if bool_decide (Some li ∈ links t) then None
  else
    let i := result_seq t + 1 in
    Some (mkResults
            (result_rows t
             ++ [mkRow i (Some ti) (Some li) (Some so) (Some da) (Some sn)
                   (Some q) (Some ty)])
            i).

(** [UPDATE search_results SET search_type = 'news'
    WHERE search_type IS NULL] *)
Definition fill_search_type (t : results) : results :=
  mkResults
    (map (fun r => match search_type r with
                   | Some _ => r
                   | None =>
                       mkRow (rowid r) (title r) (link r) (source r) (date r)
                         (snippet r) (query r) (Some "news")
                   end)
       (result_rows t))
    (result_seq t).

(** One result of a page, every field read with [article.get(k, '')]
    and the name taken out of a [source] that is a dictionary. *)
Record item : Type := mkItem {
  item_title : string;
  item_link : string;
  item_source : string;
  item_date : string;
  item_snippet : string
}.

(** What [get_dict()] returns, as far as the loop reads it:
    [results[results_key]] when the key is there, and whether
    [serpapi_pagination] has a [next]. *)
Record page : Type := mkPage {
  page_results : option (list item);
  page_next : bool
}.

Record counts : Type := mkCounts {
  new_count : nat;
  duplicate_count : nat;
  total_pages_fetched : nat
}.

Section RunSearch.

Variable parser_parse : string -> option GoogleSearchDates.datetime.
Variable isoformat : GoogleSearchDates.datetime -> string.
(** [GoogleSearch(search_params).get_dict()] for a value of
    [search_params['start']], or the exception it raises. *)
Variable api : Z -> response page.
(** [datetime.now()] when the [i]-th result of the page at [start] is
    parsed. *)
Variable now : Z -> nat -> GoogleSearchDates.datetime.
(** [search_params['q']] and [search_type]. *)
Variable q : string.
Variable ty : string.

(** The body of the loop over the results of a page.  An exception of
    the date parsing is not caught here. *)
Definition save (start : Z) (i : nat) (it : item) (st : results * counts)
  : run (results * counts) :=
  match GoogleSearchDates.date_to_store parser_parse isoformat
          (now start i) (item_date it) with
  | Exception e => Raised e st
  | Returned d =>
      match insert (item_title it) (item_link it) (item_source it) d
              (item_snippet it) q ty (fst st) with
      | Some t' =>
          Completed
            (t', mkCounts (S (new_count (snd st)))
                   (duplicate_count (snd st))
                   (total_pages_fetched (snd st)))
      | None =>
          Completed
            (fst st, mkCounts (new_count (snd st))
                       (S (duplicate_count (snd st)))
                       (total_pages_fetched (snd st)))
      end
  end.

Fixpoint save_all (start : Z) (i : nat) (l : list item)
  (st : results * counts) : run (results * counts) :=
  match l with
  | [] => Completed st
  | it :: l' =>
      match save start i it st with
      | Completed st' => save_all start (S i) l' st'
      | Raised e st' => Raised e st'
      end
  end.

(** The [while True] loop, for at most [fuel] pages; [None] when the
    pages are not exhausted by then.  Every way out of the [try] but
    a next page is a [break]. *)
Fixpoint pages (fuel : nat) (start : Z) (st : results * counts)
  : option (results * counts) :=
  match fuel with
  | O => None
  | S fuel' =>
      match api start with
      | Exception _ => Some st
      | Returned p =>
          match page_results p with
          | None | Some [] => Some st
          | Some l =>
              let st1 := (fst st,
                          mkCounts (new_count (snd st))
                            (duplicate_count (snd st))
                            (S (total_pages_fetched (snd st)))) in
              match save_all start O l st1 with
              | Raised _ st2 => Some st2
              | Completed st2 =>
                  if page_next p then pages fuel' (start + 10) st2
                  else Some st2
              end
          end
      end
  end.

(** [run_search(search_params, search_type, results_key)] with
    [search_params['start']] equal to [start]. *)
Definition run_search (fuel : nat) (start : Z) (t : results)
  : option (results * counts) :=
  pages fuel start (t, mkCounts 0 0 0).

(** The page at [start] ends the loop whatever the table holds. *)
Definition last_page (start : Z) : Prop :=
  match api start with
  | Exception _ => True
  | Returned p =>
      page_next p = false
      \/ page_results p = None \/ page_results p = Some []
  end.

End RunSearch.

(** [new_count], [duplicate_count] and [error_count] of
    integrate_media_cloud.py. *)
Record csv_counts : Type := mkCsvCounts {
  csv_new_count : nat;
  csv_duplicate_count : nat;
  csv_error_count : nat
}.

Section Integrate.

(** [date_parser.parse(s).isoformat()]; [None] when it raises. *)
Variable date_parser_parse : string -> option string.

(** integrate_media_cloud.py: the body of the loop over the CSV
    reader, all of it inside one [try].  The INSERT of a link that is
    there raises sqlite3.IntegrityError, counted as a duplicate; the
    [.strip()] of a field that a short line lacks raises
    AttributeError, which [except Exception] counts as an error.  The
    loop goes on in every case. *)
Definition integrate_body (r : Importer.csv_row) (st : results * csv_counts)
  : results * csv_counts :=
  let cn := snd st in
  match Importer.csv_title r, Importer.csv_url r, Importer.csv_media_name r,
        Importer.csv_publish_date r with
  | Some title, Some url, Some media_name, Some publish_date =>
      let ti := Str.strip title in
      let li := Str.strip url in
      let so := Str.strip media_name in
      let date_string := Str.strip publish_date in
      let da := match date_parser_parse date_string with
                | Some iso => iso
                | None => date_string
                end in
      match insert ti li so da "" "media_cloud_import" "media_cloud"
              (fst st) with
      | Some t' =>
          (t', mkCsvCounts (S (csv_new_count cn)) (csv_duplicate_count cn)
                 (csv_error_count cn))
      | None =>
          (fst st, mkCsvCounts (csv_new_count cn)
                     (S (csv_duplicate_count cn)) (csv_error_count cn))
      end
  | _, _, _, _ =>
      (fst st, mkCsvCounts (csv_new_count cn) (csv_duplicate_count cn)
                 (S (csv_error_count cn)))
  end.

Definition integrate_media_cloud (src : list Importer.csv_row) (t : results)
  : results * csv_counts :=
  fold_left (fun st r => integrate_body r st) src (t, mkCsvCounts 0 0 0).

End Integrate.

(** The columns that build_unified_db.py selects. *)
Definition selected_columns (r : row) : Importer.search_result :=
  Importer.mkSearchResult (title r) (link r) (source r) (date r)
    (search_type r).

(** The links that are not NULL are distinct. *)
Definition unique_links (t : results) : Prop :=
  List.NoDup
    (List.filter (fun l => match l with Some _ => true | None => false end)
       (links t)).

(** A row written by a run with the query [q] and the type [ty]. *)
Definition written_by (q ty : string) (r : row) : Prop :=
  search_type r = Some ty /\ query r = Some q /\ link r <> None.

(** What a piece of the loop may do: add rows of the run at the end
    of the table and count each of them as new, and count more
    duplicates and pages. *)
Definition advances (q ty : string) (st st' : results * counts) : Prop :=
  (exists more : list row,
      result_rows (fst st') = (result_rows (fst st) ++ more)%list
      /\ Forall (written_by q ty) more
      /\ new_count (snd st') = (new_count (snd st) + length more)%nat)
  /\ (unique_links (fst st) -> unique_links (fst st'))
  /\ (duplicate_count (snd st) <= duplicate_count (snd st'))%nat
  /\ (total_pages_fetched (snd st) <= total_pages_fetched (snd st'))%nat.

(** The rows of [t] are the first rows of [t'], as they were. *)
Definition grows (t t' : results) : Prop :=
  exists more : list row, result_rows t' = (result_rows t ++ more)%list.

End SearchResults.

(** ** The topic files of the dashboard *)

Module TopicFiles.

(** An entry of topic_info.json, as far as the dashboard reads it. *)
Record topic_entry : Type := mkTopicEntry {
  entry_name : string;
  entry_keywords : list string
}.

(** [json.dump] of a dictionary keyed by [int] followed by [json.load]:
    the keys come back as [str(key)]; two ints have the same [str]
    only when they are equal. *)
Definition json_keys {V} (d : list (Z * V)) : list (string * V) :=
  map (fun kv => (Py.str (fst kv), snd kv)) d.

(** A Python dictionary keyed by [str], read by key. *)
Fixpoint dict_get {V} (d : list (string * V)) (k : string) : option V :=
  match d with
  | [] => None
  | (k', v) :: d' => if String.eqb k' k then Some v else dict_get d' k
  end.

(** [get_topic_label(topic_id)] of dashboard_optimized.py. *)
Definition get_topic_label (topic_info : list (string * topic_entry))
  (topic_id : Z) : string :=
  let topic_id_str := Py.str topic_id in
  if topic_id =? -1 then "Outliers"
  else
    match dict_get topic_info topic_id_str with
    | Some e => entry_name e
    | None => "Topic " ++ Py.str topic_id
    end.

(** [get_keywords(topic_id)] of dashboard_optimized.py. *)
Definition get_keywords (topic_info : list (string * topic_entry))
  (topic_id : Z) : list string :=
  match dict_get topic_info (Py.str topic_id) with
  | Some e => entry_keywords e
  | None => []
  end.

(** [{int(k): v for k, v in descriptions.items()}]; [None] when an
    [int(k)] raises ValueError. *)
Definition int_keys {V} (descriptions : list (string * V))
  : option (gmap Z V) :=
  fold_left
    (fun acc kv =>
       match acc, Py.int (fst kv) with
       | Some m, Some i => Some (<[i := snd kv]> m)
       | _, _ => None
       end)
    descriptions (Some ∅).

(** [load_topic_descriptions()] once the file is read: an exception
    gives the empty dictionary. *)
Definition load_topic_descriptions {V} (descriptions : list (string * V))
  : gmap Z V :=
  default ∅ (int_keys descriptions).

End TopicFiles.

(** ** The whole of filter_cultural_articles.py *)

Module FilterScript.

(** [status] is one that ends the batch without results. *)
Definition gave_up (status : string) : bool :=
  String.eqb status "failed" || String.eqb status "cancelled"
  || String.eqb status "expired".

(** Step 4, the loop [while True: batch = client.batches.retrieve(...)]:
    [status n] is the status the [n]-th retrieval returns.  [Some true]
    is the [break] on ['completed'], [Some false] is [exit(1)], and
    [None] means that the loop is still waiting after [fuel]
    retrievals. *)
Fixpoint wait (fuel : nat) (status : nat -> string) (n : nat) : option bool :=
  match fuel with
  | O => None
  | S fuel' =>
      if String.eqb (status n) "completed" then Some true
      else if gave_up (status n) then Some false
      else wait fuel' status (S n)
  end.

(** The script from the table on disk to the table on disk: [answer]
    is what the user types at the prompt, [output] the parsed output
    file when the batch has one. *)
Definition filter_cultural_articles (batch answer : string)
  (fuel : nat) (status : nat -> string)
  (output : option (list batch_result)) (t : table) : option table :=
  match FilterSubmit.submit batch t with
  | None => Some t
  | Some (_, t1) =>
      if String.eqb (Str.strip (Str.lower answer)) "y" then
        match wait fuel status O with
        | None => None
        | Some false => Some t1
        | Some true =>
            match output with
            | None => Some t1
            | Some l => Some (Filter.process_results l t1)
            end
        end
      else Some t1
  end.

End FilterScript.

(** ** The batch endpoint seen from the synchronous one *)

Module BatchAsSync.

Section Lines.

Variable llm : string -> response Summarize.completion.

(** The line of the output file for the request of the row [a], when
    the batch endpoint answers the request as the call [llm] would:
    the content and the tokens of the completion, or the exception as
    the error of the line. *)
Definition line_of (a : article) : batch_result :=
  match llm (Summarize.prompt_of a) with
  | Returned c =>
      mkResult (article_id a) None (Summarize.content c)
        (Summarize.total_tokens c)
  | Exception msg => mkResult (article_id a) (Some msg) None 0
  end.

Definition bundle_of (t : table) : list batch_result :=
  map line_of (Summarize.articles_to_summarize t).

End Lines.

(** A row without the columns in which the two ways of summarising
    differ by design: the batch id and the time of the summary. *)
Definition comparable (a : article) : article :=
  set_batch_id None (set_summarized_at None a).

(** The row has a summary of at least one character. *)
Definition summarised (a : article) : Prop :=
  exists x : string, summary a = Some x /\ x <> "".

(** Every line without error carries a summary of at least one
    character. *)
Definition answered (l : list batch_result) : Prop :=
  forall r, In r l -> error r = None ->
            exists x : string, content r = Some x /\ x <> "".

End BatchAsSync.

(** ** Notions for the dates of the search importer *)

Module SearchDatesFacts.




End SearchDatesFacts.

(** ** Sample data *)

Module Sample.

Fixpoint repeat_char (n : nat) (c : ascii) : string :=
  match n with
  | O => EmptyString
  | S n' => String c (repeat_char n' c)
  end.

(** A text of 300 characters and a summary of 60. *)
Definition long_text : string := repeat_char 300 "x".
Definition fair_summary : string := repeat_char 60 "s".

(** A row as the importer leaves it, with the given text and summary. *)
Definition row (i : Z) (u : string) (tx sm : option string) : article :=
  mkArticle i "title" u "source" "2025-01-01" "media_cloud"
    tx None None sm None None None None None.

Definition fresh (l : list article) : table :=
  mkTable l (Z.of_nat (length l)).

(** Two rows waiting to be scraped. *)
Definition imported : table :=
  fresh [row 1 "http://a" None None; row 2 "http://b" None None].

(** Two rows with text, waiting for a summary. *)
Definition scraped : table :=
  fresh [row 1 "http://a" (Some long_text) None;
         row 2 "http://b" (Some long_text) None].

(** Two summarised rows, waiting for the relevance filter. *)
Definition summarised : table :=
  fresh [row 1 "http://a" (Some long_text) (Some fair_summary);
         row 2 "http://b" (Some long_text) (Some fair_summary)].

(** Five rows with text, waiting for a summary, and the bundle of
    their batch, whose third line is an error of the provider. *)
Definition five : table :=
  fresh [row 1 "http://a" (Some long_text) None;
         row 2 "http://b" (Some long_text) None;
         row 3 "http://c" (Some long_text) None;
         row 4 "http://d" (Some long_text) None;
         row 5 "http://e" (Some long_text) None].


Definition answer (i : Z) (s : string) : batch_result :=
  mkResult i None (Some s) 10.

Definition failure (i : Z) (e : string) : batch_result :=
  mkResult i (Some e) None 0.


End Sample.

(** * Properties *)

(** ** Date normalisation *)

Section DateNormalisation.

Import GoogleSearchDates.

Variable parser_parse : string -> option datetime.
Variable isoformat : datetime -> string.




End DateNormalisation.

(** ** Strings *)

Section StringFacts.

Lemma startswith_spec (p s : string) :
  Str.startswith p s = true <-> exists post, s = p ++ post.
Proof.
  revert s. induction p as [| a p IH]; intros s; simpl.
  - split; [intros _; exists s; reflexivity | reflexivity].
  - destruct s as [| b s].
    + split; [discriminate | intros [post H]; discriminate].
    + rewrite andb_true_iff, Ascii.eqb_eq, IH. split.
      * intros [-> [post ->]]. exists post. reflexivity.
      * intros [post H]. injection H as -> ->. split; [reflexivity |].
        exists post. reflexivity.
Qed.

Lemma contains_spec (p s : string) :
  Str.contains p s = true <-> occurs_in p s.
Proof.
  unfold occurs_in. induction s as [| c s IH].
  - simpl. rewrite orb_false_r, startswith_spec. split.
    + intros [post H]. exists "", post. exact H.
    + intros (pre & post & H). destruct pre as [| x pre].
      * exists post. exact H.
      * discriminate.
  - cbn [Str.contains]. rewrite orb_true_iff, startswith_spec, IH. split.
    + intros [[post H] | (pre & post & H)].
      * exists "", post. exact H.
      * exists (String c pre), post. simpl. rewrite H. reflexivity.
    + intros (pre & post & H). destruct pre as [| x pre].
      * left. exists post. exact H.
      * right. simpl in H. injection H as -> ->. exists pre, post.
        reflexivity.
Qed.

End StringFacts.

(** ** The store *)

Section StoreFacts.

Lemma rows_update_by_id (i : Z) (f : article -> article) (t : table) :
  rows (update_where (has_id i) f t) = map (on_id i f) (rows t).
Proof. reflexivity. Qed.

Lemma on_id_same (i : Z) (f : article -> article) (a : article) :
  article_id a = i -> on_id i f a = f a.
Proof.
  intros H. unfold on_id, has_id. rewrite H, Z.eqb_refl. reflexivity.
Qed.

Lemma on_id_other (i : Z) (f : article -> article) (a : article) :
  article_id a <> i -> on_id i f a = a.
Proof.
  intros H. unfold on_id, has_id.
  destruct (Z.eqb_spec (article_id a) i); [contradiction | reflexivity].
Qed.

Lemma on_id_keeps_id (i : Z) (f : article -> article) (a : article) :
  (forall x, article_id (f x) = article_id x) ->
  article_id (on_id i f a) = article_id a.
Proof.
  intros H. unfold on_id. destruct (has_id i a); [apply H | reflexivity].
Qed.

End StoreFacts.

(** ** Relevance filtering: reconciliation *)

Section FilterReconciliation.

Import FilterFacts.

Lemma is_relevant_cases (s : string) :
  Filter.is_relevant s = 0 \/ Filter.is_relevant s = 1.
Proof.
  unfold Filter.is_relevant.
  destruct (Str.contains "YES" (Filter.decision s)); [right | left]; reflexivity.
Qed.

Lemma is_relevant_iff (s : string) :
  Filter.is_relevant s = 1 <-> occurs_in "YES" (Str.upper (Str.strip s)).
Proof.
  rewrite <- contains_spec. unfold Filter.is_relevant, Filter.decision.
  destruct (Str.contains "YES" (Str.upper (Str.strip s))).
  - split; reflexivity.
  - split; discriminate.
Qed.

Lemma row_effect_id (r : batch_result) (a : article) :
  article_id (row_effect r a) = article_id a.
Proof.
  unfold row_effect.
  destruct (error r), (content r); try reflexivity;
    apply on_id_keeps_id; reflexivity.
Qed.

Lemma rows_effect_id (l : list batch_result) (a : article) :
  article_id (rows_effect l a) = article_id a.
Proof.
  revert a. induction l as [| r l IH]; intros a; simpl.
  - reflexivity.
  - unfold rows_effect in IH. rewrite IH. apply row_effect_id.
Qed.

Lemma rows_effect_cons (r : batch_result) (l : list batch_result)
  (a : article) :
  rows_effect (r :: l) a = rows_effect l (row_effect r a).
Proof. reflexivity. Qed.

Lemma readable_cons (r : batch_result) (l : list batch_result) :
  readable (r :: l)
  = match error r, content r with
    | None, None => false
    | _, _ => true
    end && readable l.
Proof. reflexivity. Qed.

(** The loop, when it ends, has applied the effect of every line to
    every row and committed nothing. *)
Lemma reconcile_completed (l : list batch_result) (c c' : connection) :
  Filter.reconcile l c = Completed c' ->
  readable l = true
  /\ committed c' = committed c
  /\ rows (working c') = map (rows_effect l) (rows (working c))
  /\ seq (working c') = seq (working c).
Proof.
  unfold Filter.reconcile. revert c.
  induction l as [| r l IH]; intros c H; simpl in H.
  - injection H as <-. simpl. rewrite map_id. auto.
  - unfold Filter.reconcile_body in H.
    destruct (error r) as [e |] eqn:He.
    + apply IH in H as (Hr & Hc & Hw & Hs). simpl in Hw, Hs.
      rewrite readable_cons, He, Hr.
      repeat split; try assumption.
      rewrite Hw, map_map. apply map_ext. intros a.
      rewrite rows_effect_cons. unfold row_effect. rewrite He.
      reflexivity.
    + destruct (content r) as [s |] eqn:Hs'; [| discriminate].
      apply IH in H as (Hr & Hc & Hw & Hs). simpl in Hw, Hs.
      rewrite readable_cons, He, Hs', Hr.
      repeat split; try assumption.
      rewrite Hw, map_map. apply map_ext. intros a.
      rewrite rows_effect_cons. unfold row_effect. rewrite He, Hs'.
      reflexivity.
Qed.

Lemma reconcile_readable (l : list batch_result) (c : connection) :
  readable l = true -> exists c', Filter.reconcile l c = Completed c'.
Proof.
  unfold Filter.reconcile. revert c.
  induction l as [| r l IH]; intros c H; simpl.
  - eexists. reflexivity.
  - rewrite readable_cons in H. apply andb_true_iff in H as [H1 H2].
    unfold Filter.reconcile_body.
    destruct (error r); [apply IH, H2 |].
    destruct (content r); [apply IH, H2 | discriminate].
Qed.

Lemma reconcile_keeps_disk (l : list batch_result) (c : connection) :
  committed (state_of (Filter.reconcile l c)) = committed c.
Proof.
  unfold Filter.reconcile. revert c.
  induction l as [| r l IH]; intros c; simpl.
  - reflexivity.
  - unfold Filter.reconcile_body.
    destruct (error r); [rewrite IH; reflexivity |].
    destruct (content r); [rewrite IH; reflexivity | reflexivity].
Qed.




Lemma row_effect_decided (r : batch_result) (a : article) :
  decided a -> decided (row_effect r a).
Proof.
  intros H. unfold row_effect.
  destruct (error r) as [e |], (content r) as [s |]; try exact H;
    unfold on_id; destruct (has_id (custom_id r) a); try exact H.
  - right. reflexivity.
  - right. reflexivity.
  - unfold decided. simpl. destruct (is_relevant_cases s) as [-> | ->]; auto.
Qed.

Lemma rows_effect_decided (l : list batch_result) (a : article) :
  decided a -> decided (rows_effect l a).
Proof.
  revert a. induction l as [| r l IH]; intros a H; simpl.
  - exact H.
  - apply IH, row_effect_decided, H.
Qed.

Lemma rows_effect_covers (l : list batch_result) (a : article) :
  readable l = true ->
  In (article_id a) (map custom_id l) ->
  decided (rows_effect l a).
Proof.
  revert a. induction l as [| r l IH]; intros a Hr Hin.
  - contradiction.
  - rewrite readable_cons in Hr. apply andb_true_iff in Hr as [Hr1 Hr2].
    simpl in Hin. unfold rows_effect. simpl. fold (rows_effect l).
    destruct (Z.eq_dec (custom_id r) (article_id a)) as [E | N].
    + apply rows_effect_decided. unfold row_effect.
      destruct (error r) as [e |], (content r) as [s |]; try discriminate;
        rewrite on_id_same by (symmetry; exact E).
      * right. reflexivity.
      * right. reflexivity.
      * unfold decided. simpl.
        destruct (is_relevant_cases s) as [-> | ->]; auto.
    + destruct Hin as [E | Hin]; [contradiction |].
      apply IH; [exact Hr2 |]. rewrite row_effect_id. exact Hin.
Qed.

Lemma rows_effect_untouched (l : list batch_result) (a : article) :
  ~ In (article_id a) (map custom_id l) -> rows_effect l a = a.
Proof.
  revert a. induction l as [| r l IH]; intros a H.
  - reflexivity.
  - simpl in H. unfold rows_effect. simpl. fold (rows_effect l).
    assert (E : row_effect r a = a).
    { unfold row_effect. destruct (error r), (content r);
        try reflexivity; apply on_id_other; intros E; apply H; left;
        symmetry; exact E. }
    rewrite E. apply IH. intros Hin. apply H. right. exact Hin.
Qed.


End FilterReconciliation.

Lemma process_results_rows (l : list batch_result) (t : table) :
  FilterFacts.readable l = true ->
  rows (Filter.process_results l t) = map (FilterFacts.rows_effect l) (rows t).
Proof.
  intros Hr. unfold Filter.process_results.
  destruct (reconcile_readable l (connect t) Hr) as [c' Hc]. rewrite Hc.
  apply reconcile_completed in Hc as (_ & _ & Hw & _). exact Hw.
Qed.







(** ** Loops of updates by id *)

Section ByIdLoops.

Variable g : article -> article -> article.
Hypothesis g_id : forall s r, article_id (g s r) = article_id r.

Lemma loop_effect_cons (s : article) (l : list article) (r : article) :
  loop_effect g (s :: l) r = loop_effect g l (on_id (article_id s) (g s) r).
Proof. reflexivity. Qed.

Lemma loop_effect_id (l : list article) (r : article) :
  article_id (loop_effect g l r) = article_id r.
Proof.
  revert r. induction l as [| s l IH]; intros r.
  - reflexivity.
  - rewrite loop_effect_cons, IH. apply on_id_keeps_id. apply g_id.
Qed.

Lemma loop_effect_absent (l : list article) (r : article) :
  ~ In (article_id r) (map article_id l) -> loop_effect g l r = r.
Proof.
  revert r. induction l as [| s l IH]; intros r H.
  - reflexivity.
  - simpl in H. rewrite loop_effect_cons, on_id_other.
    + apply IH. tauto.
    + intros E. apply H. left. symmetry. exact E.
Qed.

Lemma loop_effect_present (l : list article) (s r : article) :
  List.NoDup (map article_id l) ->
  In s l ->
  article_id r = article_id s ->
  loop_effect g l r = g s r.
Proof.
  revert r. induction l as [| s0 l IH]; intros r Hnd Hin Hid.
  - contradiction.
  - simpl in Hnd. apply NoDup_cons_iff in Hnd as [Hnotin Hnd].
    rewrite loop_effect_cons. destruct Hin as [-> | Hin].
    + rewrite on_id_same by exact Hid. apply loop_effect_absent.
      rewrite g_id, Hid. exact Hnotin.
    + rewrite on_id_other.
      * apply IH; assumption.
      * intros E. apply Hnotin. rewrite <- E, Hid.
        apply in_map. exact Hin.
Qed.

Lemma fold_updates_rows (l : list article) (t : table) :
  rows (fold_left
          (fun t s => update_where (has_id (article_id s)) (g s) t) l t)
  = map (loop_effect g l) (rows t).
Proof.
  revert t. induction l as [| s l IH]; intros t; simpl.
  - symmetry. apply map_id.
  - rewrite IH, rows_update_by_id, map_map. apply map_ext. intros r.
    reflexivity.
Qed.

Lemma fold_updates_seq (l : list article) (t : table) :
  seq (fold_left
         (fun t s => update_where (has_id (article_id s)) (g s) t) l t)
  = seq t.
Proof.
  revert t. induction l as [| s l IH]; intros t; simpl.
  - reflexivity.
  - rewrite IH. reflexivity.
Qed.

End ByIdLoops.

Section PrimaryKey.

Lemma same_id_same_row (l : list article) (x y : article) :
  List.NoDup (map article_id l) ->
  In x l -> In y l -> article_id x = article_id y -> x = y.
Proof.
  induction l as [| a l IH]; intros Hnd Hx Hy E.
  - contradiction.
  - simpl in Hnd. apply NoDup_cons_iff in Hnd as [Hnotin Hnd].
    destruct Hx as [-> | Hx], Hy as [-> | Hy].
    + reflexivity.
    + exfalso. apply Hnotin. rewrite E. apply in_map. exact Hy.
    + exfalso. apply Hnotin. rewrite <- E. apply in_map. exact Hx.
    + apply IH; assumption.
Qed.

Lemma NoDup_filter_ids (p : article -> bool) (l : list article) :
  List.NoDup (map article_id l) -> List.NoDup (map article_id (List.filter p l)).
Proof.
  induction l as [| a l IH]; intros Hnd; simpl.
  - constructor.
  - simpl in Hnd. apply NoDup_cons_iff in Hnd as [Hnotin Hnd].
    destruct (p a); simpl.
    + apply NoDup_cons_iff. split; [| apply IH, Hnd].
      intros Hin. apply Hnotin. apply in_map_iff in Hin as (x & E & Hx).
      apply filter_In in Hx as [Hx _]. rewrite <- E. apply in_map. exact Hx.
    + apply IH, Hnd.
Qed.

(** A loop over the rows selected by [p] touches exactly those rows,
    each with the effect computed from itself. *)
Lemma selected_loop_effect (g : article -> article -> article)
  (p : article -> bool) (t : table) (r : article) :
  (forall s x, article_id (g s x) = article_id x) ->
  List.NoDup (ids t) ->
  In r (rows t) ->
  loop_effect g (List.filter p (rows t)) r = if p r then g r r else r.
Proof.
  intros g_id Hnd Hr. destruct (p r) eqn:Hp.
  - apply loop_effect_present.
    + exact g_id.
    + apply NoDup_filter_ids, Hnd.
    + apply filter_In. split; assumption.
    + reflexivity.
  - apply loop_effect_absent. intros Hin.
    apply in_map_iff in Hin as (x & E & Hx).
    apply filter_In in Hx as [Hx Hpx].
    assert (x = r) by (apply (same_id_same_row (rows t)); assumption).
    subst x. congruence.
Qed.

End PrimaryKey.

(** ** The submission of the relevance filter *)

Lemma selected_ids (p : article -> bool) (t : table) (a : article) :
  List.NoDup (ids t) ->
  In a (rows t) ->
  bool_decide (article_id a ∈ map article_id (select_where p t)) = p a.
Proof.
  intros Hnd Ha. destruct (p a) eqn:Hp.
  - apply bool_decide_eq_true_2, list_elem_of_In, in_map, filter_In.
    split; assumption.
  - apply bool_decide_eq_false_2. intros Hin.
    apply list_elem_of_In, in_map_iff in Hin as (x & E & Hx).
    apply filter_In in Hx as [Hx Hpx].
    assert (x = a) by (apply (same_id_same_row (rows t)); assumption).
    subst x. congruence.
Qed.

Lemma filter_mark_rows (batch : string) (t : table) :
  List.NoDup (ids t) ->
  rows (Filter.mark_submitted batch t)
  = map (fun a => if Filter.pending a
                  then set_filter_batch_id (Some batch) a else a) (rows t).
Proof.
  intros Hnd. unfold Filter.mark_submitted, update_where.
  cbn [connect execute commit committed working rows].
  apply map_ext_in. intros a Ha. unfold Filter.articles.
  rewrite (selected_ids Filter.pending t a Hnd Ha). reflexivity.
Qed.

Section StatementLoops.

Variable g : article -> article -> article.
Variable stmt : article -> table -> table.
Hypothesis g_id : forall s r, article_id (g s r) = article_id r.
Hypothesis stmt_eq :
  forall s t, stmt s t = update_where (has_id (article_id s)) (g s) t.

Lemma fold_statements (l : list article) (t : table) :
  fold_left (fun t s => stmt s t) l t
  = fold_left (fun t s => update_where (has_id (article_id s)) (g s) t) l t.
Proof.
  revert t. induction l as [| s l IH]; intros t; simpl.
  - reflexivity.
  - rewrite stmt_eq. apply IH.
Qed.

(** A loop over the rows selected by [p] in a table whose ids are
    distinct rewrites each selected row from itself and leaves the
    others. *)
Lemma selected_statements_rows (p : article -> bool) (t : table) :
  List.NoDup (ids t) ->
  rows (fold_left (fun t s => stmt s t) (select_where p t) t)
  = map (fun r => if p r then g r r else r) (rows t).
Proof.
  intros Hnd. rewrite fold_statements, fold_updates_rows.
  apply map_ext_in. intros r Hr.
  apply selected_loop_effect; assumption.
Qed.

(** Each iteration commits: the connection is clean after the loop. *)
Lemma committed_loop (l : list article) (c : connection) :
  committed c = working c ->
  fold_left (fun c s => commit (execute (stmt s) c)) l c
  = connect (fold_left (fun t s => stmt s t) l (working c)).
Proof.
  revert c. induction l as [| s l IH]; intros c Hc; simpl.
  - destruct c as [ct wk]. simpl in Hc. subst. reflexivity.
  - rewrite IH by reflexivity. reflexivity.
Qed.

End StatementLoops.

(** ** The scraping run *)

Section ScrapeRun.

Variable fetch : string -> response string.
Variable clock : Z -> string.

Lemma scrape_statement_eq (s : article) (t : table) :
  Scrape.statement fetch clock s t
  = update_where (has_id (article_id s))
      (ScrapeFacts.row_effect fetch clock s) t.
Proof.
  unfold Scrape.statement, ScrapeFacts.row_effect.
  destruct (fetch (url s)) as [x | msg]; [| reflexivity].
  destruct (Scrape.substantial x); reflexivity.
Qed.

Lemma scrape_row_effect_id (s r : article) :
  article_id (ScrapeFacts.row_effect fetch clock s r) = article_id r.
Proof.
  unfold ScrapeFacts.row_effect.
  destruct (fetch (url s)) as [x | msg]; [| reflexivity].
  destruct (Scrape.substantial x); reflexivity.
Qed.

Lemma scrape_loop_fst (l : list article) (c : connection) (st : Scrape.stats) :
  fst (Scrape.scrape_loop fetch clock l (c, st))
  = fold_left (fun c s => commit (execute (Scrape.statement fetch clock s) c))
      l c.
Proof.
  unfold Scrape.scrape_loop. revert c st.
  induction l as [| s l IH]; intros c st; simpl.
  - reflexivity.
  - unfold Scrape.body at 2. simpl. apply IH.
Qed.

Lemma scrape_loop_counts (l : list article) (c : connection) (st : Scrape.stats) :
  let st' := snd (Scrape.scrape_loop fetch clock l (c, st)) in
  (Scrape.success st' + Scrape.failed st' + Scrape.skipped st'
   = Scrape.success st + Scrape.failed st + Scrape.skipped st + length l)%nat.
Proof.
  cbv zeta. unfold Scrape.scrape_loop. revert c st.
  induction l as [| s l IH]; intros c st.
  - simpl. lia.
  - cbn [fold_left length].
    destruct (Scrape.body fetch clock s (c, st)) as [c1 st1] eqn:E.
    rewrite IH. unfold Scrape.body in E. injection E as _ <-.
    unfold Scrape.count.
    destruct (fetch (url s)) as [x | msg]; [| simpl; lia].
    destruct (Scrape.substantial x); simpl; lia.
Qed.

Lemma scrape_articles_rows (t : table) :
  List.NoDup (ids t) ->
  rows (fst (Scrape.scrape_articles fetch clock t))
  = map (ScrapeFacts.run_effect fetch clock) (rows t).
Proof.
  intros Hnd. unfold Scrape.scrape_articles. cbn [fst].
  rewrite scrape_loop_fst.
  rewrite (committed_loop (Scrape.statement fetch clock)) by reflexivity.
  cbn [committed connect working]. unfold Scrape.articles_to_scrape.
  apply (selected_statements_rows (ScrapeFacts.row_effect fetch clock)
           (Scrape.statement fetch clock) scrape_row_effect_id
           scrape_statement_eq Scrape.pending t Hnd).
Qed.

End ScrapeRun.

(** ** The summarisation run *)

Section SummarizeRun.

Variable llm : string -> response Summarize.completion.
Variable clock : Z -> string.

Let summarize_statement := SummarizeFacts.statement llm clock.

Lemma update_twice (i : Z) (f h : article -> article) (t : table) :
  (forall r, article_id (h r) = article_id r) ->
  update_where (has_id i) f (update_where (has_id i) h t)
  = update_where (has_id i) (fun r => f (h r)) t.
Proof.
  intros Hh. unfold update_where. simpl. f_equal. rewrite map_map.
  apply map_ext. intros r. unfold has_id.
  destruct (Z.eqb_spec (article_id r) i) as [E | N].
  - rewrite Hh, E, Z.eqb_refl. reflexivity.
  - destruct (Z.eqb_spec (article_id r) i); [contradiction | reflexivity].
Qed.

Lemma summarize_body_fst (s : article) (c : connection)
  (st : Summarize.stats) :
  fst (Summarize.body llm clock s (c, st))
  = commit (execute (summarize_statement s) c).
Proof.
  unfold Summarize.body, summarize_statement, SummarizeFacts.statement,
    SummarizeFacts.row_effect.
  destruct (llm (Summarize.prompt_of s)) as [r | msg]; [| reflexivity].
  destruct (Summarize.content r) as [x |]; [reflexivity |].
  cbn [fst]. unfold commit, execute. cbn [working committed].
  unfold Summarize.write_error, Summarize.write_success.
  rewrite update_twice by reflexivity. reflexivity.
Qed.

Lemma summarize_row_effect_id (s r : article) :
  article_id (SummarizeFacts.row_effect llm clock s r) = article_id r.
Proof.
  unfold SummarizeFacts.row_effect.
  destruct (llm (Summarize.prompt_of s)) as [c | msg]; [| reflexivity].
  destruct (Summarize.content c); reflexivity.
Qed.

Lemma summarize_loop_fst (l : list article) (c : connection)
  (st : Summarize.stats) :
  fst (Summarize.summarize_loop llm clock l (c, st))
  = fold_left (fun c s => commit (execute (summarize_statement s) c)) l c.
Proof.
  unfold Summarize.summarize_loop. revert c st.
  induction l as [| s l IH]; intros c st.
  - reflexivity.
  - cbn [fold_left].
    destruct (Summarize.body llm clock s (c, st)) as [c1 st1] eqn:E.
    rewrite IH. f_equal.
    change c1 with (fst (c1, st1)). rewrite <- E. apply summarize_body_fst.
Qed.

Lemma summarize_articles_rows (t : table) :
  List.NoDup (ids t) ->
  rows (fst (Summarize.summarize_articles llm clock t))
  = map (SummarizeFacts.run_effect llm clock) (rows t).
Proof.
  intros Hnd. unfold Summarize.summarize_articles. cbn [fst].
  rewrite summarize_loop_fst.
  rewrite (committed_loop summarize_statement) by reflexivity.
  cbn [committed connect working]. unfold Summarize.articles_to_summarize.
  apply (selected_statements_rows (SummarizeFacts.row_effect llm clock)
           summarize_statement summarize_row_effect_id
           (fun s t => eq_refl) Summarize.pending t Hnd).
Qed.

Lemma summarize_loop_counts (l : list article) (c : connection)
  (st : Summarize.stats) :
  let st' := snd (Summarize.summarize_loop llm clock l (c, st)) in
  (Summarize.success st + Summarize.failed st + length l
   <= Summarize.success st' + Summarize.failed st')%nat.
Proof.
  cbv zeta. unfold Summarize.summarize_loop. revert c st.
  induction l as [| s l IH]; intros c st.
  - simpl. lia.
  - cbn [fold_left length].
    destruct (Summarize.body llm clock s (c, st)) as [c1 st1] eqn:E.
    specialize (IH c1 st1).
    assert (Summarize.success st + Summarize.failed st + 1
            <= Summarize.success st1 + Summarize.failed st1)%nat; [| lia].
    unfold Summarize.body in E.
    destruct (llm (Summarize.prompt_of s)) as [r | msg].
    + destruct (Summarize.content r); injection E as _ <-; simpl; lia.
    + injection E as _ <-. simpl. lia.
Qed.

End SummarizeRun.

Lemma length_slice_to (n : nat) (s : string) :
  (String.length (Str.slice_to n s) <= n)%nat.
Proof.
  revert s. induction n as [| n IH]; intros s.
  - simpl. lia.
  - destruct s as [| c s]; simpl; [lia |]. specialize (IH s). lia.
Qed.

Lemma length_append (s1 s2 : string) :
  String.length (s1 ++ s2) = (String.length s1 + String.length s2)%nat.
Proof.
  induction s1 as [| c s1 IH]; simpl; [reflexivity | rewrite IH; reflexivity].
Qed.

Ltac distinct_ids :=
  vm_compute; repeat constructor; simpl; intuition (try discriminate; try lia).

(** C7. In the two synchronous runs (scraping and summarising) the
    exception raised for one record becomes its status, ['error: ']
    followed by at most 200 characters of the message, and nothing else
    of that row changes; the loop goes through every selected record;
    every row ends as the effect of its own call only, whatever happened
    for the other records. *)
Theorem failure_is_local
  (fetch : string -> response string) (sclock : Z -> string)
  (llm : string -> response Summarize.completion) (lclock : Z -> string)
  (t : table) :
  List.NoDup (ids t) ->
  let scraped := Scrape.scrape_articles fetch sclock t in
  let summarised := Summarize.summarize_articles llm lclock t in
  rows (fst scraped) = map (ScrapeFacts.run_effect fetch sclock) (rows t)
  /\ (Scrape.success (snd scraped) + Scrape.failed (snd scraped)
      + Scrape.skipped (snd scraped)
      = length (Scrape.articles_to_scrape t))%nat
  /\ (forall (a : article) (msg : string),
        In a (rows t) ->
        Scrape.pending a = true ->
        fetch (url a) = Exception msg ->
        In (set_scrape_status (Some ("error: " ++ Str.slice_to 200 msg)) a)
          (rows (fst scraped)))
  /\ (forall (fetch' : string -> response string) (u : string),
        (forall v, v <> u -> fetch' v = fetch v) ->
        forall r : article,
          In r (rows t) ->
          url r <> u ->
          In (ScrapeFacts.run_effect fetch sclock r)
            (rows (fst (Scrape.scrape_articles fetch' sclock t))))
  /\ rows (fst summarised)
     = map (SummarizeFacts.run_effect llm lclock) (rows t)
  /\ (length (Summarize.articles_to_summarize t)
      <= Summarize.success (snd summarised)
         + Summarize.failed (snd summarised))%nat
  /\ (forall (a : article) (msg : string),
        In a (rows t) ->
        Summarize.pending a = true ->
        llm (Summarize.prompt_of a) = Exception msg ->
        In (set_summary_status (Some ("error: " ++ Str.slice_to 200 msg)) a)
          (rows (fst summarised)))
  /\ (forall (llm' : string -> response Summarize.completion) (a : article),
        (forall r, In r (rows t) -> r <> a ->
                   llm' (Summarize.prompt_of r) = llm (Summarize.prompt_of r)) ->
        forall r : article,
          In r (rows t) ->
          r <> a ->
          In (SummarizeFacts.run_effect llm lclock r)
            (rows (fst (Summarize.summarize_articles llm' lclock t))))
  /\ (forall msg : string, (String.length (error_status msg) <= 207)%nat).
Proof.
  intros Hnd scraped summarised.
  assert (Hs := scrape_articles_rows fetch sclock t Hnd).
  assert (Hl := summarize_articles_rows llm lclock t Hnd).
  split; [exact Hs |]. split.
  { unfold scraped, Scrape.scrape_articles. cbn [snd].
    rewrite (scrape_loop_counts fetch sclock). simpl. reflexivity. }
  split.
  { intros a msg Ha Hp Hf. fold scraped in Hs. rewrite Hs.
    apply in_map_iff. exists a. split; [| exact Ha].
    unfold ScrapeFacts.run_effect, ScrapeFacts.row_effect.
    rewrite Hp, Hf. reflexivity. }
  split.
  { intros fetch' u Hag r Hr Hu.
    rewrite (scrape_articles_rows fetch' sclock t Hnd).
    apply in_map_iff. exists r. split; [| exact Hr].
    unfold ScrapeFacts.run_effect, ScrapeFacts.row_effect.
    rewrite (Hag (url r) Hu). reflexivity. }
  split; [exact Hl |]. split.
  { unfold summarised, Summarize.summarize_articles. cbn [snd].
    pose proof (summarize_loop_counts llm lclock
                  (Summarize.articles_to_summarize t) (connect t)
                  (Summarize.mkStats 0 0 0 0)) as H.
    cbv zeta in H. simpl in H. exact H. }
  split.
  { intros a msg Ha Hp Hf. fold summarised in Hl. rewrite Hl.
    apply in_map_iff. exists a. split; [| exact Ha].
    unfold SummarizeFacts.run_effect, SummarizeFacts.row_effect.
    rewrite Hp, Hf. reflexivity. }
  split.
  { intros llm' a Hag r Hr Hne.
    rewrite (summarize_articles_rows llm' lclock t Hnd).
    apply in_map_iff. exists r. split; [| exact Hr].
    unfold SummarizeFacts.run_effect, SummarizeFacts.row_effect.
    rewrite (Hag r Hr Hne). reflexivity. }
  intros msg. unfold error_status. rewrite length_append.
  pose proof (length_slice_to 200 msg) as Hcap.
  change (String.length "error: ") with 7%nat. lia.
Qed.

Lemma failure_is_local_witness :
  In (set_scrape_status (Some "error: timed out")
        (Sample.row 1 "http://a" None None))
     (rows (fst (Scrape.scrape_articles
                   (fun u => if String.eqb u "http://a"
                             then Exception "timed out"
                             else Returned Sample.long_text)
                   (fun _ => "2025-06-01T00:00:00") Sample.imported))).
Proof.
  destruct (failure_is_local
              (fun u => if String.eqb u "http://a"
                        then Exception "timed out"
                        else Returned Sample.long_text)
              (fun _ => "2025-06-01T00:00:00")
              (fun _ => Exception "unused") (fun _ => "")
              Sample.imported)
    as (_ & _ & H & _).
  - distinct_ids.
  - apply (H (Sample.row 1 "http://a" None None) "timed out").
    + left. reflexivity.
    + reflexivity.
    + reflexivity.
Defined.

(** ** Pending sets *)

Section PendingSets.

Lemma null_or_empty_spec (x : option string) :
  Summarize.null_or_empty x = true <-> x = None \/ x = Some "".
Proof.
  destruct x as [s |]; simpl.
  - rewrite String.eqb_eq. split.
    + intros ->. right. reflexivity.
    + intros [H | H]; [discriminate | injection H as ->; reflexivity].
  - split; [intros _; left; reflexivity | reflexivity].
Qed.

Lemma long_enough_spec (s : string) (n : Z) :
  negb (String.eqb s "") && (Str.sql_length s >? n) = true
  <-> s <> "" /\ n < Str.sql_length s.
Proof.
  rewrite andb_true_iff, negb_true_iff, String.eqb_neq, Z.gtb_lt.
  reflexivity.
Qed.


Lemma summarize_pending_spec (a : article) :
  Summarize.pending a = true
  <-> output_missing Summarization a /\ prerequisites Summarization a.
Proof.
  unfold Summarize.pending. simpl. destruct (text a) as [s |].
  - rewrite andb_true_iff, long_enough_spec, null_or_empty_spec. split.
    + intros [[H1 H2] H3]. split; [exact H3 |]. exists s. auto.
    + intros [H3 (s' & E & H1 & H2)]. injection E as <-. auto.
  - split; [discriminate |]. intros [_ (s' & E & _)]. discriminate.
Qed.

Lemma filter_pending_spec (a : article) :
  Filter.pending a = true
  <-> output_missing RelevanceFiltering a
      /\ prerequisites RelevanceFiltering a.
Proof.
  unfold Filter.pending. simpl.
  destruct (summary a) as [s |], (cultural_relevant a) as [v |].
  - split; [discriminate | intros [H _]; discriminate].
  - rewrite long_enough_spec. split.
    + intros [H1 H2]. split; [reflexivity |]. exists s. auto.
    + intros [_ (s' & E & H1 & H2)]. injection E as <-. auto.
  - split; [discriminate | intros [H _]; discriminate].
  - split; [discriminate | intros [_ (s' & E & _)]; discriminate].
Qed.


Lemma substantial_not_empty (x : string) :
  Scrape.substantial x = true -> x <> "".
Proof. intros H ->. discriminate. Qed.


Lemma not_pending_when_text (x : string) (a : article) :
  x <> "" -> text a = Some x -> Scrape.pending a = false.
Proof.
  intros Hx Ht. unfold Scrape.pending. rewrite Ht.
  apply String.eqb_neq. exact Hx.
Qed.

Lemma not_pending_when_summary (x : string) (a : article) :
  x <> "" -> summary a = Some x -> Summarize.pending a = false.
Proof.
  intros Hx Hs. unfold Summarize.pending. destruct (text a); [| reflexivity].
  rewrite Hs. simpl. apply String.eqb_neq in Hx. rewrite Hx.
  apply andb_false_r.
Qed.

Lemma not_pending_when_decided (a : article) :
  decided a -> Filter.pending a = false.
Proof.
  unfold decided, Filter.pending. intros [H | H]; rewrite H;
    destruct (summary a); reflexivity.
Qed.

End PendingSets.




(** C10. The selection for summarising treats the empty summary as the
    null one and does not read [summary_status]: a record whose summary
    came back empty is written with the status ['success'], by the
    synchronous run and by the processing of a batch alike, and is
    selected again; with its text in order, a record is out of the
    selection exactly when its summary has at least one character. *)
Theorem empty_summary_stays_pending
  (llm : string -> response Summarize.completion) (clock : Z -> string)
  (now : string) (t : table) (a : article) (n : Z) :
  List.NoDup (ids t) ->
  In a (pending_set Summarization t) ->
  llm (Summarize.prompt_of a)
  = Returned (Summarize.mkCompletion (Some "") n) ->
  let t' := fst (Summarize.summarize_articles llm clock t) in
  let a' := set_summary_status (Some "success")
              (set_summarized_at (Some (clock (article_id a)))
                 (set_summary (Some "") a)) in
  let t'' := SummarizeBatch.statement now
               (mkResult (article_id a) None (Some "") n) t in
  let a'' := set_summary_status (Some "success")
               (set_summarized_at (Some now) (set_summary (Some "") a)) in
  In a' (rows t')
  /\ In a' (pending_set Summarization t')
  /\ In a'' (rows t'')
  /\ In a'' (pending_set Summarization t'')
  /\ (forall (r : article) (st : option string),
        Summarize.pending (set_summary_status st r) = Summarize.pending r)
  /\ (forall r : article,
        prerequisites Summarization r ->
        (Summarize.pending r = false
         <-> exists x, summary r = Some x /\ x <> "")).
Proof.
  intros Hnd Ha Hllm t' a' t'' a''.
  apply filter_In in Ha as [Ha Hp].
  assert (Hp' : forall ts, Summarize.pending
                  (set_summary_status (Some "success")
                     (set_summarized_at ts (set_summary (Some "") a))) = true).
  { intros ts. unfold Summarize.pending in *. simpl.
    destruct (text a) as [x |]; [| discriminate].
    apply andb_true_iff in Hp as [Hp _]. rewrite Hp. reflexivity. }
  assert (H1 : In a' (rows t')).
  { unfold t'. rewrite (summarize_articles_rows llm clock t Hnd).
    apply in_map_iff. exists a. split; [| exact Ha].
    unfold SummarizeFacts.run_effect, SummarizeFacts.row_effect.
    rewrite Hp, Hllm. reflexivity. }
  assert (H2 : In a'' (rows t'')).
  { unfold t'', SummarizeBatch.statement. cbn [error custom_id content].
    rewrite rows_update_by_id. apply in_map_iff. exists a.
    split; [| exact Ha]. rewrite on_id_same by reflexivity. reflexivity. }
  split; [exact H1 |]. split.
  { apply filter_In. split; [exact H1 | apply Hp']. }
  split; [exact H2 |]. split.
  { apply filter_In. split; [exact H2 | apply Hp']. }
  split; [reflexivity |].
  intros r (x & Hx & Hne & Hlen). split.
  - intros Hr. destruct (summary r) as [y |] eqn:Hy.
    + exists y. split; [reflexivity |]. intros ->.
      assert (Summarize.pending r = true); [| congruence].
      apply summarize_pending_spec. split.
      * right. exact Hy.
      * exists x. auto.
    + assert (Summarize.pending r = true); [| congruence].
      apply summarize_pending_spec. split.
      * left. exact Hy.
      * exists x. auto.
  - intros (y & Hy & Hyne). apply (not_pending_when_summary y); assumption.
Qed.

Lemma empty_summary_stays_pending_witness :
  In (set_summary_status (Some "success")
        (set_summarized_at (Some "2025-06-01T00:00:00")
           (set_summary (Some "")
              (Sample.row 1 "http://a" (Some Sample.long_text) None))))
     (pending_set Summarization
        (fst (Summarize.summarize_articles
                (fun _ => Returned (Summarize.mkCompletion (Some "") 5))
                (fun _ => "2025-06-01T00:00:00") Sample.scraped))).
Proof.
  destruct (empty_summary_stays_pending
              (fun _ => Returned (Summarize.mkCompletion (Some "") 5))
              (fun _ => "2025-06-01T00:00:00") "2025-06-02T00:00:00"
              Sample.scraped
              (Sample.row 1 "http://a" (Some Sample.long_text) None) 5)
    as (_ & H & _).
  - distinct_ids.
  - left. reflexivity.
  - reflexivity.
  - exact H.
Defined.

(** ** Processing the results of a summarisation batch *)

Section SummarizeBatchProcessing.

Import SummarizeBatchFacts.

Lemma batch_row_effect_id (now : string) (r : batch_result) (a : article) :
  article_id (row_effect now r a) = article_id a.
Proof.
  unfold row_effect. destruct (error r); apply on_id_keeps_id; reflexivity.
Qed.

Lemma batch_rows_effect_id (clock : nat -> string) (n : nat)
  (l : list batch_result) (a : article) :
  article_id (rows_effect clock n l a) = article_id a.
Proof.
  revert n a. induction l as [| r l IH]; intros n a; simpl.
  - reflexivity.
  - rewrite IH. apply batch_row_effect_id.
Qed.

Lemma batch_statement_rows (now : string) (r : batch_result) (t : table) :
  SummarizeBatch.statement now r t
  = mkTable (map (row_effect now r) (rows t)) (seq t).
Proof.
  unfold SummarizeBatch.statement, row_effect.
  destruct (error r); reflexivity.
Qed.

Lemma process_from_spec (clock : nat -> string) (n : nat)
  (l : list batch_result) (c : connection) :
  SummarizeBatch.process_from clock n l c
  = mkConn (committed c)
      (mkTable (map (rows_effect clock n l) (rows (working c)))
         (seq (working c))).
Proof.
  revert n c. induction l as [| r l IH]; intros n c; simpl.
  - rewrite map_id. destruct c as [ct [rs sq]]. reflexivity.
  - rewrite IH. unfold execute. simpl. rewrite batch_statement_rows.
    simpl. rewrite map_map. reflexivity.
Qed.

Lemma row_effect_other (now : string) (r : batch_result) (a : article) :
  custom_id r <> article_id a -> row_effect now r a = a.
Proof.
  intros H. unfold row_effect.
  destruct (error r); apply on_id_other; congruence.
Qed.

Lemma rows_effect_unmentioned (clock : nat -> string) (n : nat)
  (l : list batch_result) (a : article) :
  ~ In (article_id a) (map custom_id l) -> rows_effect clock n l a = a.
Proof.
  revert n a. induction l as [| r l IH]; intros n a H; simpl.
  - reflexivity.
  - simpl in H. rewrite row_effect_other by tauto. apply IH. tauto.
Qed.




End SummarizeBatchProcessing.

Section SummarizeBatchScript.

Import SummarizeBatchFacts.

Variable clock : nat -> string.

Lemma process_script_rows (l : list batch_result) (t : table) :
  batch_found batch_id t = true ->
  SummarizeBatch.summarize_batch_process clock "completed" (Some l) t
  = mkTable (map (rows_effect clock O l) (rows t)) (seq t).
Proof.
  intros H. unfold SummarizeBatch.summarize_batch_process.
  rewrite H. simpl. rewrite process_from_spec. reflexivity.
Qed.

Lemma submit_rows (batch : string) (t : table) :
  rows (SummarizeBatch.summarize_batch_submit batch t)
  = map (fun a => if Summarize.pending a
                  then set_summary_status (Some "batch_submitted")
                         (set_batch_id (Some batch) a)
                  else a) (rows t).
Proof. reflexivity. Qed.

End SummarizeBatchScript.




Lemma existsb_mentions (i : Z) (l : list batch_result) :
  SummarizeBatchFacts.mentions i l = true <-> In i (map custom_id l).
Proof.
  unfold SummarizeBatchFacts.mentions. rewrite existsb_exists, in_map_iff.
  split.
  - intros (r & Hr & E). apply Z.eqb_eq in E. exists r. auto.
  - intros (r & E & Hr). exists r. split; [exact Hr |].
    apply Z.eqb_eq. exact E.
Qed.




(** ** Applying a bundle twice *)

Section SummarizeBatchTwice.

Import SummarizeBatchFacts.

Ltac fields a b H :=
  destruct a, b;
  unfold without_summary, without_status, without_time,
    set_summary, set_summarized_at, set_summary_status in *;
  simpl in *; injection H; intros; subst; reflexivity.

Lemma success_row_agrees (x z : option string) (y : option string)
  (a b : article) :
  without_summary a = without_summary b ->
  set_summary_status x (set_summarized_at y (set_summary z a))
  = set_summary_status x (set_summarized_at y (set_summary z b)).
Proof. intros H. fields a b H. Qed.

Lemma status_row_agrees (x : option string) (a b : article) :
  without_status a = without_status b ->
  set_summary_status x a = set_summary_status x b.
Proof. intros H. fields a b H. Qed.

Lemma without_summary_weaker (a b : article) :
  without_status a = without_status b ->
  without_summary a = without_summary b.
Proof. intros H. fields a b H. Qed.

Lemma without_summary_id (a b : article) :
  without_summary a = without_summary b -> article_id a = article_id b.
Proof.
  intros H. apply (f_equal article_id) in H. exact H.
Qed.

Lemma row_effect_frame (now : string) (r : batch_result) (a : article) :
  without_summary (row_effect now r a) = without_summary a.
Proof.
  unfold row_effect, on_id.
  destruct (error r), (has_id (custom_id r) a); reflexivity.
Qed.

Lemma rows_effect_frame (clock : nat -> string) (n : nat)
  (l : list batch_result) (a : article) :
  without_summary (rows_effect clock n l a) = without_summary a.
Proof.
  revert n a. induction l as [| r l IH]; intros n a; simpl.
  - reflexivity.
  - rewrite IH. apply row_effect_frame.
Qed.

(** Without a line that answers for the row, only its status moves. *)
Lemma rows_effect_status_only (clock : nat -> string) (n : nat)
  (l : list batch_result) (a : article) :
  answers (article_id a) l = false ->
  without_status (rows_effect clock n l a) = without_status a.
Proof.
  revert n a. induction l as [| r l IH]; intros n a H; simpl in *.
  - reflexivity.
  - apply orb_false_iff in H as [Hr Hl].
    rewrite IH by (rewrite batch_row_effect_id; exact Hl).
    unfold row_effect, on_id, has_id. rewrite Z.eqb_sym.
    destruct (custom_id r =? article_id a); [| destruct (error r); reflexivity].
    destruct (error r); [reflexivity | discriminate].
Qed.

(** With a line that answers for the row, the three columns it had do
    not matter. *)
Lemma rows_effect_answered (clock : nat -> string) (n : nat)
  (l : list batch_result) (a b : article) :
  answers (article_id a) l = true ->
  without_summary a = without_summary b ->
  rows_effect clock n l a = rows_effect clock n l b.
Proof.
  revert n a b. induction l as [| r l IH]; intros n a b H Hab; simpl in *.
  - discriminate.
  - assert (Hid := without_summary_id a b Hab).
    destruct ((custom_id r =? article_id a)
              && match error r with Some _ => false | None => true end)
      eqn:Hr.
    + apply andb_true_iff in Hr as [Hm He].
      destruct (error r) as [msg |] eqn:Herr; [discriminate |].
      f_equal. unfold row_effect. rewrite Herr.
      apply Z.eqb_eq in Hm.
      rewrite !on_id_same by congruence.
      apply success_row_agrees. exact Hab.
    + simpl in H. apply IH.
      * rewrite batch_row_effect_id. exact H.
      * rewrite !row_effect_frame. exact Hab.
Qed.

(** With a line for the row, the status it had does not matter. *)
Lemma rows_effect_mentioned (clock : nat -> string) (n : nat)
  (l : list batch_result) (a b : article) :
  mentions (article_id a) l = true ->
  without_status a = without_status b ->
  rows_effect clock n l a = rows_effect clock n l b.
Proof.
  revert n a b. induction l as [| r l IH]; intros n a b H Hab; simpl in *.
  - discriminate.
  - assert (Hid := without_summary_id a b (without_summary_weaker a b Hab)).
    destruct (Z.eqb_spec (custom_id r) (article_id a)) as [Hm | Hm].
    + f_equal. unfold row_effect.
      destruct (error r) as [msg |];
        rewrite !on_id_same by congruence.
      * apply status_row_agrees. exact Hab.
      * apply success_row_agrees, without_summary_weaker. exact Hab.
    + simpl in H. rewrite !row_effect_other by congruence.
      apply IH; assumption.
Qed.

(** A second application of the bundle hides the first. *)
Lemma rows_effect_absorbs (c1 c2 : nat -> string) (n1 n2 : nat)
  (l : list batch_result) (a : article) :
  rows_effect c2 n2 l (rows_effect c1 n1 l a) = rows_effect c2 n2 l a.
Proof.
  destruct (answers (article_id a) l) eqn:Ha.
  - apply rows_effect_answered.
    + rewrite batch_rows_effect_id. exact Ha.
    + apply rows_effect_frame.
  - destruct (mentions (article_id a) l) eqn:Hm.
    + apply rows_effect_mentioned.
      * rewrite batch_rows_effect_id. exact Hm.
      * apply rows_effect_status_only. exact Ha.
    + assert (Hn : ~ In (article_id a) (map custom_id l)).
      { intros Hin. apply existsb_mentions in Hin. congruence. }
      rewrite (rows_effect_unmentioned c1 n1 l a Hn).
      reflexivity.
Qed.

Lemma row_effect_but_time (now1 now2 : string) (r : batch_result)
  (a b : article) :
  without_time a = without_time b ->
  without_time (row_effect now1 r a) = without_time (row_effect now2 r b).
Proof.
  intros H.
  assert (Hid : article_id a = article_id b)
    by (apply (f_equal article_id) in H; exact H).
  unfold row_effect, on_id, has_id. rewrite Hid.
  destruct (error r), (article_id b =? custom_id r); try exact H;
    fields a b H.
Qed.

Lemma rows_effect_but_time (c1 c2 : nat -> string) (n1 n2 : nat)
  (l : list batch_result) (a b : article) :
  without_time a = without_time b ->
  without_time (rows_effect c1 n1 l a) = without_time (rows_effect c2 n2 l b).
Proof.
  revert n1 n2 a b. induction l as [| r l IH]; intros n1 n2 a b H; simpl.
  - exact H.
  - apply IH, row_effect_but_time, H.
Qed.

Lemma batch_found_after (clock : nat -> string) (n : nat)
  (l : list batch_result) (t : table) :
  batch_found batch_id
    (mkTable (map (rows_effect clock n l) (rows t)) (seq t))
  = batch_found batch_id t.
Proof.
  unfold batch_found. simpl. induction (rows t) as [| a rs IH]; simpl.
  - reflexivity.
  - rewrite IH. f_equal.
    assert (E : batch_id (rows_effect clock n l a) = batch_id a).
    { pose proof (rows_effect_frame clock n l a) as H.
      apply (f_equal batch_id) in H. exact H. }
    rewrite E. reflexivity.
Qed.

Lemma process_unfold (c : nat -> string) (status : string)
  (output : option (list batch_result)) (t : table) :
  SummarizeBatch.summarize_batch_process c status output t
  = match batch_found batch_id t, String.eqb status "completed", output with
    | true, true, Some l =>
        mkTable (map (rows_effect c O l) (rows t)) (seq t)
    | _, _, _ => t
    end.
Proof.
  unfold SummarizeBatch.summarize_batch_process.
  destruct (batch_found batch_id t); [| reflexivity].
  destruct (String.eqb status "completed"); [| reflexivity].
  destruct output as [l |]; [| reflexivity].
  simpl. rewrite process_from_spec. reflexivity.
Qed.

Lemma process_absorbs (c1 c2 : nat -> string) (status : string)
  (output : option (list batch_result)) (t : table) :
  SummarizeBatch.summarize_batch_process c2 status output
    (SummarizeBatch.summarize_batch_process c1 status output t)
  = SummarizeBatch.summarize_batch_process c2 status output t.
Proof.
  rewrite (process_unfold c1 status output t).
  destruct (batch_found batch_id t) eqn:Hf; [| reflexivity].
  destruct (String.eqb status "completed") eqn:Hs; [| reflexivity].
  destruct output as [l |]; [| reflexivity].
  rewrite !process_unfold, batch_found_after, Hf, Hs. cbn [rows seq].
  f_equal. rewrite map_map. apply map_ext. intros a.
  apply rows_effect_absorbs.
Qed.

Lemma process_but_time (c1 c2 : nat -> string) (status : string)
  (output : option (list batch_result)) (t : table) :
  map without_time
    (rows (SummarizeBatch.summarize_batch_process c2 status output t))
  = map without_time
      (rows (SummarizeBatch.summarize_batch_process c1 status output t)).
Proof.
  rewrite !process_unfold.
  destruct (batch_found batch_id t); [| reflexivity].
  destruct (String.eqb status "completed"); [| reflexivity].
  destruct output as [l |]; [| reflexivity].
  cbn [rows]. rewrite !map_map.
  apply map_ext. intros a. apply rows_effect_but_time. reflexivity.
Qed.

End SummarizeBatchTwice.

Section FilterTwice.

Import FilterFacts FilterIdempotence.

Lemma decision_row_agrees (v : option Z) (a b : article) :
  without_decision a = without_decision b ->
  set_cultural_relevant v a = set_cultural_relevant v b.
Proof.
  intros H. destruct a, b.
  unfold without_decision, set_cultural_relevant in *. simpl in *.
  injection H. intros. subst. reflexivity.
Qed.

Lemma filter_row_effect_frame (r : batch_result) (a : article) :
  without_decision (row_effect r a) = without_decision a.
Proof.
  unfold row_effect, on_id.
  destruct (error r), (content r), (has_id (custom_id r) a); reflexivity.
Qed.

Lemma filter_rows_effect_frame (l : list batch_result) (a : article) :
  without_decision (rows_effect l a) = without_decision a.
Proof.
  revert a. induction l as [| r l IH]; intros a.
  - reflexivity.
  - rewrite rows_effect_cons, IH. apply filter_row_effect_frame.
Qed.

Lemma filter_rows_effect_mentioned (l : list batch_result) (a b : article) :
  readable l = true ->
  In (article_id a) (map custom_id l) ->
  without_decision a = without_decision b ->
  rows_effect l a = rows_effect l b.
Proof.
  revert a b. induction l as [| r l IH]; intros a b Hr Hin Hab.
  - contradiction.
  - rewrite readable_cons in Hr. apply andb_true_iff in Hr as [Hr1 Hr2].
    assert (Hid : article_id a = article_id b)
      by (apply (f_equal article_id) in Hab; exact Hab).
    rewrite !rows_effect_cons.
    destruct (Z.eq_dec (custom_id r) (article_id a)) as [Hm | Hm].
    + f_equal. unfold row_effect.
      destruct (error r) as [e |], (content r) as [x |];
        try discriminate; rewrite !on_id_same by congruence;
        apply decision_row_agrees; exact Hab.
    + destruct Hin as [Hin | Hin]; [contradiction |].
      apply IH.
      * exact Hr2.
      * rewrite row_effect_id. exact Hin.
      * rewrite !filter_row_effect_frame. exact Hab.
Qed.

Lemma filter_rows_effect_idempotent (l : list batch_result) (a : article) :
  readable l = true ->
  rows_effect l (rows_effect l a) = rows_effect l a.
Proof.
  intros Hr.
  destruct (in_dec Z.eq_dec (article_id a) (map custom_id l)) as [Hin | Hn].
  - apply filter_rows_effect_mentioned.
    + exact Hr.
    + rewrite rows_effect_id. exact Hin.
    + apply filter_rows_effect_frame.
  - rewrite (rows_effect_untouched l a Hn).
    apply rows_effect_untouched, Hn.
Qed.

Lemma process_results_unfold (l : list batch_result) (t : table) :
  Filter.process_results l t
  = if readable l
    then mkTable (map (rows_effect l) (rows t)) (seq t)
    else t.
Proof.
  unfold Filter.process_results.
  destruct (Filter.reconcile l (connect t)) as [c | e c] eqn:E.
  - apply reconcile_completed in E as (Hr & _ & Hw & Hs). rewrite Hr.
    simpl. destruct (working c) as [rs sq]. simpl in *. subst.
    reflexivity.
  - destruct (readable l) eqn:Hr.
    + destruct (reconcile_readable l (connect t) Hr) as [c' Hc'].
      congruence.
    + pose proof (reconcile_keeps_disk l (connect t)) as H.
      rewrite E in H. simpl in *. exact H.
Qed.

Lemma process_results_idempotent (l : list batch_result) (t : table) :
  Filter.process_results l (Filter.process_results l t)
  = Filter.process_results l t.
Proof.
  rewrite !process_results_unfold.
  destruct (readable l) eqn:Hr; [| reflexivity].
  cbn [rows seq]. f_equal. rewrite map_map. apply map_ext. intros a.
  apply filter_rows_effect_idempotent. exact Hr.
Qed.

End FilterTwice.

(** C4, as the code has it.  Processing the same result bundle a second
    time gives the store that one processing at the time of the second
    gives: for the relevance filter, which writes no time, exactly the
    store after the first; for the summaries, the store after the first
    in every column but [summarized_at], which takes the time of the
    second processing (and the very same store when the clock reads the
    same). *)
Theorem reconciliation_twice
  (c1 c2 : nat -> string) (status : string)
  (output : option (list batch_result)) (l : list batch_result) (t : table) :
  Filter.process_results l (Filter.process_results l t)
  = Filter.process_results l t
  /\ SummarizeBatch.summarize_batch_process c2 status output
       (SummarizeBatch.summarize_batch_process c1 status output t)
     = SummarizeBatch.summarize_batch_process c2 status output t
  /\ SummarizeBatch.summarize_batch_process c1 status output
       (SummarizeBatch.summarize_batch_process c1 status output t)
     = SummarizeBatch.summarize_batch_process c1 status output t
  /\ map SummarizeBatchFacts.without_time
       (rows (SummarizeBatch.summarize_batch_process c2 status output
                (SummarizeBatch.summarize_batch_process c1 status output t)))
     = map SummarizeBatchFacts.without_time
         (rows (SummarizeBatch.summarize_batch_process c1 status output t)).
Proof.
  split; [apply process_results_idempotent |].
  split; [apply process_absorbs |].
  split; [apply process_absorbs |].
  rewrite process_absorbs. apply process_but_time.
Qed.

(** C4, as the specification words it, fails: the second processing of
    the bundle, an hour after the first, writes its own time in
    [summarized_at]. *)
Lemma second_processing_changes_store :
  let t := SummarizeBatch.summarize_batch_submit "batch_1" Sample.scraped in
  let bundle := Some [Sample.answer 1 "A summary."] in
  let once :=
    SummarizeBatch.summarize_batch_process (fun _ => "2025-06-01T10:00:00")
      "completed" bundle t in
  let twice :=
    SummarizeBatch.summarize_batch_process (fun _ => "2025-06-01T11:00:00")
      "completed" bundle once in
  twice <> once
  /\ map summarized_at (rows once) = [Some "2025-06-01T10:00:00"; None]
  /\ map summarized_at (rows twice) = [Some "2025-06-01T11:00:00"; None].
Proof.
  split; [| split; reflexivity].
  intros H. apply (f_equal (fun t => map summarized_at (rows t))) in H.
  vm_compute in H. discriminate H.
Qed.

(** ** Interrupted runs *)

Section InterruptedRuns.

Variable fetch : string -> response string.
Variable clock : Z -> string.

Lemma interrupted_scrape_rows (k : nat) (t : table) :
  rows (Scrape.scrape_articles_interrupted fetch clock k t)
  = map (loop_effect (ScrapeFacts.row_effect fetch clock)
           (firstn k (Scrape.articles_to_scrape t)))
      (rows t).
Proof.
  unfold Scrape.scrape_articles_interrupted, interrupted_loop.
  set (P := Scrape.articles_to_scrape t).
  assert (E : fold_left
                (fun c x => fst (Scrape.body fetch clock x
                                   (c, Scrape.mkStats 0 0 0)))
                (firstn k P) (connect t)
              = connect (fold_left
                           (fun t s => Scrape.statement fetch clock s t)
                           (firstn k P) t)).
  { apply (committed_loop (Scrape.statement fetch clock)). reflexivity. }
  rewrite E.
  assert (D : forall c, committed (interrupt
                match nth_error P k with
                | Some x => execute (Scrape.statement fetch clock x) c
                | None => c
                end) = committed c).
  { intros c. destruct (nth_error P k); reflexivity. }
  rewrite D. cbn [committed connect].
  rewrite (fold_statements (ScrapeFacts.row_effect fetch clock)
             (Scrape.statement fetch clock)
             (scrape_statement_eq fetch clock)).
  apply fold_updates_rows.
Qed.

Lemma pending_after_effect (r : article) :
  Scrape.pending r = true ->
  Scrape.pending (ScrapeFacts.row_effect fetch clock r r)
  = negb (ScrapeFacts.accepted fetch r).
Proof.
  intros Hp. unfold ScrapeFacts.row_effect, ScrapeFacts.accepted.
  destruct (fetch (url r)) as [x | msg]; [| exact Hp].
  destruct (Scrape.substantial x) eqn:Hx; [| exact Hp].
  apply (not_pending_when_text x);
    [apply substantial_not_empty, Hx | reflexivity].
Qed.

Lemma filter_implied {A} (p q : A -> bool) (l : list A) :
  (forall x, In x l -> q x = true -> p x = true) ->
  List.filter q l = List.filter q (List.filter p l).
Proof.
  induction l as [| x l IH]; intros H; simpl.
  - reflexivity.
  - destruct (q x) eqn:Hq.
    + rewrite (H x (or_introl eq_refl) Hq). simpl. rewrite Hq.
      f_equal. apply IH. intros y Hy. apply H. right. exact Hy.
    + destruct (p x); simpl; rewrite ?Hq;
        apply IH; intros y Hy; apply H; right; exact Hy.
Qed.

Lemma filter_all {A} (l : list A) : List.filter (fun _ => true) l = l.
Proof.
  induction l as [| x l IH]; simpl; [| rewrite IH]; reflexivity.
Qed.

Lemma NoDup_app_disjoint {A} (l1 l2 : list A) (x : A) :
  List.NoDup (l1 ++ l2) -> In x l1 -> In x l2 -> False.
Proof.
  induction l1 as [| y l1 IH]; intros Hnd H1 H2.
  - contradiction.
  - simpl in Hnd. apply NoDup_cons_iff in Hnd as [Hn Hnd].
    destruct H1 as [-> | H1].
    + apply Hn. apply in_or_app. right. exact H2.
    + apply IH; assumption.
Qed.

Lemma NoDup_app_left {A} (l1 l2 : list A) :
  List.NoDup (l1 ++ l2) -> List.NoDup l1.
Proof.
  induction l1 as [| y l1 IH]; intros Hnd.
  - constructor.
  - simpl in Hnd. apply NoDup_cons_iff in Hnd as [Hn Hnd].
    apply NoDup_cons_iff. split; [| apply IH, Hnd].
    intros Hin. apply Hn. apply in_or_app. left. exact Hin.
Qed.

(** What the next run selects after an interruption: the records of
    the first [k] whose text was not accepted, then the records that
    were not reached. *)
Lemma pending_after_interruption (k : nat) (t : table) :
  List.NoDup (ids t) ->
  let P := Scrape.articles_to_scrape t in
  map article_id
    (Scrape.articles_to_scrape
       (Scrape.scrape_articles_interrupted fetch clock k t))
  = (map article_id
       (List.filter (fun r => negb (ScrapeFacts.accepted fetch r))
          (firstn k P))
     ++ map article_id (skipn k P))%list.
Proof.
  intros Hnd P.
  set (F := loop_effect (ScrapeFacts.row_effect fetch clock) (firstn k P)).
  assert (HP : List.NoDup (map article_id P))
    by (apply NoDup_filter_ids, Hnd).
  assert (Hsplit : (map article_id (firstn k P)
                    ++ map article_id (skipn k P))%list = map article_id P)
    by (rewrite <- map_app, firstn_skipn; reflexivity).
  assert (Hfirst : forall r, In r (firstn k P) ->
                     F r = ScrapeFacts.row_effect fetch clock r r).
  { intros r Hr. apply loop_effect_present.
    - apply scrape_row_effect_id.
    - rewrite <- Hsplit in HP. apply NoDup_app_left in HP. exact HP.
    - exact Hr.
    - reflexivity. }
  assert (Hrest : forall r, In r (skipn k P) -> F r = r).
  { intros r Hr. apply loop_effect_absent. intros Hin.
    rewrite <- Hsplit in HP.
    apply (NoDup_app_disjoint _ _ (article_id r) HP Hin).
    apply in_map. exact Hr. }
  assert (Hout : forall r, In r (rows t) -> Scrape.pending r = false ->
                   F r = r).
  { intros r Hr Hp. apply loop_effect_absent. intros Hin.
    apply in_map_iff in Hin as (s & E & Hs).
    assert (HsP : In s P)
      by (rewrite <- (firstn_skipn k P); apply in_or_app; left; exact Hs).
    apply filter_In in HsP as [Hsr Hsp].
    assert (s = r) by (apply (same_id_same_row (rows t)); assumption).
    subst s. congruence. }
  unfold Scrape.articles_to_scrape at 1. unfold select_where.
  rewrite interrupted_scrape_rows. fold P. fold F.
  assert (Hcomm : forall l : list article,
             map article_id (List.filter Scrape.pending (map F l))
             = map article_id
                 (List.filter (fun r => Scrape.pending (F r)) l)).
  { induction l as [| x l IH]; simpl; [reflexivity |].
    destruct (Scrape.pending (F x)); simpl; rewrite IH; [| reflexivity].
    f_equal. unfold F. apply loop_effect_id. apply scrape_row_effect_id. }
  rewrite Hcomm.
  rewrite (filter_implied Scrape.pending
             (fun r => Scrape.pending (F r)) (rows t)).
  2:{ intros r Hr Hq. destruct (Scrape.pending r) eqn:Hp; [reflexivity |].
      rewrite (Hout r Hr Hp) in Hq. congruence. }
  change (List.filter Scrape.pending (rows t)) with P.
  rewrite <- (firstn_skipn k P) at 1.
  rewrite List.filter_app, map_app. f_equal.
  - f_equal. apply filter_ext_in. intros r Hr.
    rewrite (Hfirst r Hr). apply pending_after_effect.
    assert (HrP : In r P)
      by (rewrite <- (firstn_skipn k P); apply in_or_app; left; exact Hr).
    apply filter_In in HrP as [_ Hp]. exact Hp.
  - f_equal. rewrite (filter_ext_in (fun r => Scrape.pending (F r))
                        (fun _ => true)).
    + apply filter_all.
    + intros r Hr. rewrite (Hrest r Hr).
      assert (HrP : In r P)
        by (rewrite <- (firstn_skipn k P); apply in_or_app; right; exact Hr).
      apply filter_In in HrP as [_ Hp]. exact Hp.
Qed.

End InterruptedRuns.

(** C3, as the code has it.  The synchronous run commits after each
    record: stopped after [k] of the selected records, whether or not the
    next statement was already executed, the disk holds the writes of
    those [k] and nothing else.  The next run selects the records that
    were not reached and, again, those of the first [k] whose text was
    not accepted (their status was written, their text is still null);
    the accepted ones are not selected again, so that exactly [n - k]
    remain when the first [k] were all accepted.  The processing of a
    batch commits once, after its loop: stopped inside the loop it leaves
    the disk as it was. *)
Theorem interrupted_run_resumes
  (fetch : string -> response string) (clock : Z -> string)
  (bclock : nat -> string) (k : nat) (l : list batch_result) (t : table) :
  List.NoDup (ids t) ->
  let P := Scrape.articles_to_scrape t in
  let disk := Scrape.scrape_articles_interrupted fetch clock k t in
  (forall a : article,
      In a (firstn k P) ->
      In (ScrapeFacts.row_effect fetch clock a a) (rows disk))
  /\ (forall a : article,
        In a (rows t) -> ~ In a (firstn k P) -> In a (rows disk))
  /\ map article_id (Scrape.articles_to_scrape disk)
     = (map article_id
          (List.filter (fun r => negb (ScrapeFacts.accepted fetch r))
             (firstn k P))
        ++ map article_id (skipn k P))%list
  /\ (forall a : article,
        In a (firstn k P) ->
        ScrapeFacts.accepted fetch a = true ->
        ~ In (article_id a) (map article_id (Scrape.articles_to_scrape disk)))
  /\ ((forall a : article,
         In a (firstn k P) -> ScrapeFacts.accepted fetch a = true) ->
      length (Scrape.articles_to_scrape disk) = (length P - k)%nat)
  /\ SummarizeBatch.process_interrupted bclock k l t = t.
Proof.
  intros Hnd P disk.
  pose proof (pending_after_interruption fetch clock k t Hnd) as Hpend.
  cbv zeta in Hpend. fold P in Hpend. fold disk in Hpend.
  assert (HP : List.NoDup (map article_id P)) by (apply NoDup_filter_ids, Hnd).
  assert (Hsub : forall a, In a (firstn k P) -> In a P).
  { intros a Ha. rewrite <- (firstn_skipn k P). apply in_or_app. left.
    exact Ha. }
  assert (Hsplit : (map article_id (firstn k P)
                    ++ map article_id (skipn k P))%list = map article_id P)
    by (rewrite <- map_app, firstn_skipn; reflexivity).
  assert (Hrows := interrupted_scrape_rows fetch clock k t).
  fold P in Hrows. fold disk in Hrows.
  split.
  { intros a Ha. rewrite Hrows. apply in_map_iff. exists a. split.
    - apply loop_effect_present.
      + apply scrape_row_effect_id.
      + rewrite <- Hsplit in HP. apply NoDup_app_left in HP. exact HP.
      + exact Ha.
      + reflexivity.
    - apply Hsub in Ha. apply filter_In in Ha as [Ha _]. exact Ha. }
  split.
  { intros a Ha Hnot. rewrite Hrows. apply in_map_iff. exists a.
    split; [| exact Ha]. apply loop_effect_absent. intros Hin.
    apply in_map_iff in Hin as (s & E & Hs). apply Hnot.
    assert (s = a); [| subst; exact Hs].
    apply (same_id_same_row (rows t)); try assumption.
    apply Hsub in Hs. apply filter_In in Hs as [Hs _]. exact Hs. }
  split; [exact Hpend |]. split.
  { intros a Ha Hacc Hin. rewrite Hpend in Hin.
    apply in_app_or in Hin as [Hin | Hin].
    - apply in_map_iff in Hin as (s & E & Hs).
      apply filter_In in Hs as [Hs Hacc'].
      assert (s = a).
      { apply (same_id_same_row P); auto. }
      subst s. rewrite Hacc in Hacc'. discriminate.
    - rewrite <- Hsplit in HP.
      apply (NoDup_app_disjoint _ _ (article_id a) HP);
        [apply in_map; exact Ha | exact Hin]. }
  split.
  { intros Hall.
    rewrite <- (length_map article_id (Scrape.articles_to_scrape disk)), Hpend.
    assert (E : List.filter (fun r => negb (ScrapeFacts.accepted fetch r))
                  (firstn k P) = []).
    { generalize Hall. generalize (firstn k P). intros fs Hfs.
      induction fs as [| x fs IH]; simpl; [reflexivity |].
      rewrite (Hfs x (or_introl eq_refl)). simpl. apply IH.
      intros a Ha. apply Hfs. right. exact Ha. }
    rewrite E. simpl. rewrite length_map. apply length_skipn. }
  unfold SummarizeBatch.process_interrupted.
  rewrite process_from_spec. reflexivity.
Qed.

Lemma interrupted_run_resumes_witness :
  map article_id
    (Scrape.articles_to_scrape
       (Scrape.scrape_articles_interrupted
          (fun _ => Returned Sample.long_text)
          (fun _ => "2025-06-01T00:00:00") 1 Sample.imported))
  = (map article_id
       (List.filter
          (fun r => negb (ScrapeFacts.accepted
                            (fun _ => Returned Sample.long_text) r))
          (firstn 1 (Scrape.articles_to_scrape Sample.imported)))
     ++ map article_id
          (skipn 1 (Scrape.articles_to_scrape Sample.imported)))%list.
Proof.
  destruct (interrupted_run_resumes
              (fun _ => Returned Sample.long_text)
              (fun _ => "2025-06-01T00:00:00") (fun _ => "") 1 []
              Sample.imported)
    as (_ & _ & H & _).
  - distinct_ids.
  - exact H.
Defined.

(** C3, as the specification words it, fails twice.  A run stopped
    after the first of two records, whose fetch had raised, is followed
    by a run that selects both records again, not the remaining one; and
    the processing of a batch stopped after the first of two lines has
    written nothing, although the first line had been applied. *)
Lemma rerun_repeats_failed_record :
  let fetch := fun u : string =>
                 if String.eqb u "http://a"
                 then Exception "timed out"
                 else Returned Sample.long_text in
  let clock := fun _ : Z => "2025-06-01T00:00:00" in
  let disk := Scrape.scrape_articles_interrupted fetch clock 1
                Sample.imported in
  let submitted :=
    SummarizeBatch.summarize_batch_submit "batch_1" Sample.scraped in
  map article_id (Scrape.articles_to_scrape Sample.imported) = [1; 2]
  /\ map scrape_status (rows disk) = [Some "error: timed out"; None]
  /\ map article_id (Scrape.articles_to_scrape disk) = [1; 2]
  /\ SummarizeBatch.process_interrupted (fun _ => "2025-06-02T00:00:00") 1
       [Sample.answer 1 "Summary one."; Sample.answer 2 "Summary two."]
       submitted
     = submitted
  /\ map summary (rows submitted) = [None; None].
Proof.
  repeat split; reflexivity.
Qed.

(** ** The importer *)

Section ImporterSteps.

Import Importer ImporterFacts.

Lemma insert_duplicate (ti u so da ty : string) (t : table) :
  In u (urls t) -> insert_article ti u so da ty t = None.
Proof.
  intros H. unfold insert_article.
  rewrite bool_decide_eq_true_2; [reflexivity |].
  apply list_elem_of_In. exact H.
Qed.

Lemma insert_new (ti u so da ty : string) (t : table) :
  ~ In u (urls t) ->
  exists t', insert_article ti u so da ty t = Some t'
             /\ extends t t'
             /\ urls t' = (urls t ++ [u])%list.
Proof.
  intros H. unfold insert_article.
  rewrite bool_decide_eq_false_2
    by (intros E; apply H, list_elem_of_In, E).
  eexists. split; [reflexivity |]. split.
  - eexists. reflexivity.
  - unfold urls. simpl. rewrite map_app. reflexivity.
Qed.

Lemma extends_refl (t : table) : extends t t.
Proof. exists []. rewrite app_nil_r. reflexivity. Qed.

Lemma extends_trans (t1 t2 t3 : table) :
  extends t1 t2 -> extends t2 t3 -> extends t1 t3.
Proof.
  intros [m1 H1] [m2 H2]. exists (m1 ++ m2)%list.
  rewrite H2, H1, app_assoc. reflexivity.
Qed.

Lemma extends_urls (t t' : table) (v : string) :
  extends t t' -> In v (urls t) -> In v (urls t').
Proof.
  intros [m H] Hv. unfold urls in *. rewrite H, map_app.
  apply in_or_app. left. exact Hv.
Qed.

Lemma bump_some (f : counters -> counters) (key : string)
  (s : gmap string counters) :
  is_Some (s !! key) ->
  exists c, s !! key = Some c /\ bump f key s = Some (<[key := f c]> s).
Proof.
  intros [c Hc]. exists c. unfold bump. rewrite Hc. auto.
Qed.

Lemma bump_none (f : counters -> counters) (key : string)
  (s : gmap string counters) :
  s !! key = None -> bump f key s = None.
Proof. intros H. unfold bump. rewrite H. reflexivity. Qed.

Lemma same_keys_refl (s : gmap string counters) : same_keys s s.
Proof. intros k. reflexivity. Qed.

Lemma same_keys_trans (s1 s2 s3 : gmap string counters) :
  same_keys s1 s2 -> same_keys s2 s3 -> same_keys s1 s3.
Proof. intros H1 H2 k. rewrite (H1 k). apply H2. Qed.

Lemma same_keys_sym (s1 s2 : gmap string counters) :
  same_keys s1 s2 -> same_keys s2 s1.
Proof. intros H k. symmetry. apply H. Qed.

Lemma same_keys_insert (key : string) (c c' : counters)
  (s : gmap string counters) :
  s !! key = Some c -> same_keys s (<[key := c']> s).
Proof.
  intros H k. destruct (decide (key = k)) as [<- | N].
  - rewrite lookup_insert_eq, H. split; intros _; eexists; reflexivity.
  - rewrite lookup_insert_ne by exact N. reflexivity.
Qed.

Lemma bump_same_keys (f : counters -> counters) (key : string)
  (s s' : gmap string counters) :
  bump f key s = Some s' -> same_keys s s'.
Proof.
  unfold bump. destruct (s !! key) as [c |] eqn:E; [| discriminate].
  intros H. injection H as <-. apply (same_keys_insert key c). exact E.
Qed.

Lemma total_insert (f : counters -> nat) (key : string) (c c' : counters)
  (s : gmap string counters) :
  s !! key = Some c ->
  (total f (<[key := c']> s) + f c = total f s + f c')%nat.
Proof.
  intros H. unfold total.
  rewrite <- (insert_delete_eq s key c').
  rewrite (map_fold_insert_L (fun _ c n => (f c + n)%nat) O key c'
             (delete key s)).
  - rewrite (map_fold_delete_L (fun _ c n => (f c + n)%nat) O key c s).
    + lia.
    + intros. lia.
    + exact H.
  - intros. lia.
  - apply lookup_delete_eq.
Qed.

Lemma total_bump_skipped (key : string) (s s' : gmap string counters) :
  bump incr_skipped key s = Some s' ->
  total added s' = total added s
  /\ total skipped s' = S (total skipped s)
  /\ total errors s' = total errors s.
Proof.
  unfold bump. destruct (s !! key) as [c |] eqn:E; [| discriminate].
  intros H. injection H as <-.
  pose proof (total_insert added key c (incr_skipped c) s E).
  pose proof (total_insert skipped key c (incr_skipped c) s E).
  pose proof (total_insert errors key c (incr_skipped c) s E).
  simpl in *. lia.
Qed.

End ImporterSteps.

Section ImporterLoops.

Import Importer ImporterFacts.

Lemma NoDup_snoc {A} (l : list A) (x : A) :
  List.NoDup l -> ~ In x l -> List.NoDup (l ++ [x]).
Proof.
  induction l as [| y l IH]; intros Hnd Hx; simpl.
  - repeat constructor. intros [].
  - apply NoDup_cons_iff in Hnd as [Hy Hnd]. apply NoDup_cons_iff. split.
    + intros Hin. apply in_app_or in Hin as [Hin | [-> | []]].
      * contradiction.
      * apply Hx. left. reflexivity.
    + apply IH; [exact Hnd |]. intros Hin. apply Hx. right. exact Hin.
Qed.

(** One iteration on a clean connection. *)
Lemma perform_first (a : action) (c : connection)
  (s : gmap string counters) :
  clean c ->
  let r := perform a (c, s) in
  clean (conn_of r)
  /\ extends (working c) (working (conn_of r))
  /\ same_keys s (stats_of r)
  /\ known a (conn_of r)
  /\ (is_completed r = true <-> counted a s).
Proof.
  intros [Hc Hnd]. unfold counted.
  destruct a as [key | key ti u so da |]; simpl.
  - unfold bump. destruct (s !! key) as [c0 |] eqn:E; simpl.
    + repeat split; auto using extends_refl;
        try (apply (same_keys_insert key c0); exact E);
        try (intros _; eexists; reflexivity).
    + repeat split; auto using extends_refl, same_keys_refl;
        try discriminate.
      intros [x Hx]. discriminate.
  - unfold insert_and_count.
    destruct (in_dec String.string_dec u (urls (working c))) as [Hin | Hn].
    + rewrite (insert_duplicate ti u so da key _ Hin).
      unfold bump. destruct (s !! key) as [c0 |] eqn:E; simpl.
      * repeat split; auto using extends_refl;
          try (apply (same_keys_insert key c0); exact E);
          try (intros _; eexists; reflexivity).
      * repeat split; auto using extends_refl, same_keys_refl;
          try discriminate.
        intros [x Hx]. discriminate.
    + destruct (insert_new ti u so da key _ Hn) as (t' & Ht' & Hext & Hu).
      rewrite Ht'. unfold bump.
      assert (Hnd' : List.NoDup (urls t'))
        by (rewrite Hu; apply NoDup_snoc; assumption).
      assert (Hk : In u (urls t'))
        by (rewrite Hu; apply in_or_app; right; left; reflexivity).
      destruct (s !! key) as [c0 |] eqn:E; simpl.
      * repeat split; auto;
          try (apply (same_keys_insert key c0); exact E);
          try (intros _; eexists; reflexivity).
      * repeat split; auto using same_keys_refl; try discriminate.
        intros [x Hx]. discriminate.
  - repeat split; auto using extends_refl, same_keys_refl;
      try discriminate; try contradiction.
Qed.

(** One iteration whose url is already in the table. *)
Lemma perform_again (a : action) (c : connection)
  (s : gmap string counters) :
  known a c ->
  perform a (c, s)
  = match key_of a with
    | Some key =>
        match bump incr_skipped key s with
        | Some s' => Completed (c, s')
        | None => Raised "KeyError" (c, s)
        end
    | None => Raised "AttributeError" (c, s)
    end.
Proof.
  intros Hk. destruct a as [key | key ti u so da |]; simpl.
  - reflexivity.
  - unfold insert_and_count. simpl in Hk.
    rewrite (insert_duplicate ti u so da key _ Hk). reflexivity.
  - reflexivity.
Qed.

Lemma loop_first (l : list action) (c : connection)
  (s : gmap string counters) :
  clean c ->
  let r := for_each perform l (c, s) in
  clean (conn_of r)
  /\ extends (working c) (working (conn_of r))
  /\ same_keys s (stats_of r).
Proof.
  revert c s. induction l as [| a l IH]; intros c s Hc; simpl.
  - auto using extends_refl, same_keys_refl.
  - destruct (perform_first a c s Hc) as (Hc1 & He1 & Hs1 & _ & _).
    destruct (perform a (c, s)) as [[c1 s1] | e [c1 s1]]; simpl in *.
    + destruct (IH c1 s1 Hc1) as (Hc2 & He2 & Hs2).
      eauto using extends_trans, same_keys_trans.
    + auto.
Qed.

(** Running a loop again over a table that holds what its first run
    left: nothing is inserted, every row reached is counted as
    skipped, and the run ends where the first did. *)
Lemma loop_again (l : list action) (c c2 : connection)
  (s s2 : gmap string counters) :
  clean c ->
  same_keys s s2 ->
  (forall v, In v (urls (working (conn_of (for_each perform l (c, s))))) ->
             In v (urls (working c2))) ->
  let r1 := for_each perform l (c, s) in
  let r2 := for_each perform l (c2, s2) in
  conn_of r2 = c2
  /\ total added (stats_of r2) = total added s2
  /\ total errors (stats_of r2) = total errors s2
  /\ is_completed r2 = is_completed r1
  /\ (is_completed r2 = true ->
      total skipped (stats_of r2) = (total skipped s2 + length l)%nat).
Proof.
  revert c s s2. induction l as [| a l IH]; intros c s s2 Hc Hk Hsub; simpl.
  - repeat split; auto.
  - destruct (perform_first a c s Hc) as (Hc1 & He1 & Hs1 & Hkn & Hdone).
    simpl in Hsub. unfold counted in Hdone.
    destruct (perform a (c, s)) as [[c1 s1] | e [c1 s1]] eqn:E1;
      simpl in *.
    + assert (Hknown : known a c2).
      { destruct a as [key | key ti u so da |]; simpl in *;
          [exact I | | exact I].
        apply Hsub.
        destruct (loop_first l c1 s1 Hc1) as (_ & Hext & _).
        apply (extends_urls _ _ u Hext). exact Hkn. }
      rewrite (perform_again a c2 s2 Hknown).
      destruct (key_of a) as [key |] eqn:Ekey;
        [| exfalso; apply Hdone; reflexivity].
      assert (Hkey : is_Some (s2 !! key))
        by (apply Hk, Hdone; reflexivity).
      destruct (bump_some incr_skipped _ _ Hkey) as (c0 & Hc0 & Hb).
      rewrite Hb.
      destruct (total_bump_skipped _ _ _ Hb) as (Ta & Ts & Te).
      assert (Hk' : same_keys s1 (<[key := incr_skipped c0]> s2)).
      { apply (same_keys_trans _ s); [apply same_keys_sym, Hs1 |].
        apply (same_keys_trans _ s2); [exact Hk |].
        apply (same_keys_insert _ c0). exact Hc0. }
      destruct (IH c1 s1 _ Hc1 Hk' Hsub) as (H1 & H2 & H3 & H4 & H5).
      repeat split; try congruence.
      intros Hd. rewrite (H5 Hd). lia.
    + assert (Hknown : known a c2).
      { destruct a as [key | key ti u so da |]; simpl in *;
          [exact I | | exact I].
        apply Hsub. exact Hkn. }
      rewrite (perform_again a c2 s2 Hknown).
      destruct (key_of a) as [key |] eqn:Ekey.
      * assert (Hnone : s2 !! key = None).
        { destruct (s2 !! key) eqn:E; [| reflexivity].
          assert (is_Some (s !! key)) by (apply Hk; eexists; exact E).
          assert (false = true) by (apply Hdone; assumption).
          discriminate. }
        rewrite (bump_none _ _ _ Hnone). simpl.
        repeat split; try reflexivity. discriminate.
      * simpl. repeat split; try reflexivity. discriminate.
Qed.

Lemma counted_same_keys (a : action) (s s' : gmap string counters) :
  same_keys s s' -> counted a s -> counted a s'.
Proof.
  unfold counted. intros Hk. destruct (key_of a); [apply Hk | auto].
Qed.

(** The loop reaches its end exactly when every action has a key of
    the dictionary. *)
Lemma loop_completes_iff (l : list action) (c : connection)
  (s : gmap string counters) :
  clean c ->
  is_completed (for_each perform l (c, s)) = true
  <-> Forall (fun a => counted a s) l.
Proof.
  revert c s. induction l as [| a l IH]; intros c s Hc; simpl.
  - split; [constructor | reflexivity].
  - destruct (perform_first a c s Hc) as (Hc1 & _ & Hs1 & _ & Hdone).
    destruct (perform a (c, s)) as [[c1 s1] | e [c1 s1]]; simpl in *.
    + rewrite (IH c1 s1 Hc1). split.
      * intros Hl. constructor; [apply Hdone; reflexivity |].
        eapply List.Forall_impl; [| exact Hl].
        intros a0. apply counted_same_keys, same_keys_sym, Hs1.
      * intros Hall. inversion Hall as [| ? ? Ha Hl]; subst.
        eapply List.Forall_impl; [| exact Hl].
        intros a0. apply counted_same_keys, Hs1.
    + split; [discriminate |].
      intros Hall. inversion Hall as [| ? ? Ha Hl]; subst.
      apply Hdone. exact Ha.
Qed.

Lemma loop_completes (l : list action) (c : connection)
  (s : gmap string counters) :
  clean c ->
  Forall (fun a => counted a s) l ->
  is_completed (for_each perform l (c, s)) = true.
Proof. intros Hc. apply loop_completes_iff, Hc. Qed.

Lemma for_each_map {A B C} (h : B -> C) (body : C -> A -> run A)
  (l : list B) (a : A) :
  for_each (fun x => body (h x)) l a = for_each body (map h l) a.
Proof.
  revert a. induction l as [| x l IH]; intros a; simpl.
  - reflexivity.
  - destruct (body (h x) a); [apply IH | reflexivity].
Qed.

Lemma for_each_app {A B} (body : B -> A -> run A) (l1 l2 : list B) (a : A) :
  for_each body (l1 ++ l2) a
  = match for_each body l1 a with
    | Completed a' => for_each body l2 a'
    | Raised e a' => Raised e a'
    end.
Proof.
  revert a. induction l1 as [| x l1 IH]; intros a; simpl; [reflexivity |].
  destruct (body x a); [apply IH | reflexivity].
Qed.

Variable date_parser_parse : string -> option string.

Lemma media_cloud_body_action (r : csv_row) (st : state) :
  media_cloud_body date_parser_parse r st
  = perform (media_cloud_action date_parser_parse r) st.
Proof.
  unfold media_cloud_body, media_cloud_action.
  destruct (csv_title r), (csv_url r) as [url |], (csv_media_name r),
    (csv_publish_date r); try reflexivity.
  destruct (negb (Str.truthy (Str.strip url))); reflexivity.
Qed.

Lemma import_google_actions (src : list search_result) (st : state) :
  import_google src st
  = for_each perform (map google_action (List.filter has_link src)) st.
Proof. unfold import_google. apply (for_each_map google_action perform). Qed.

Lemma import_media_cloud_actions (src : list csv_row) (st : state) :
  import_media_cloud date_parser_parse src st
  = for_each perform (map (media_cloud_action date_parser_parse) src) st.
Proof.
  unfold import_media_cloud. revert st.
  induction src as [| r src IH]; intros st; simpl; [reflexivity |].
  rewrite media_cloud_body_action.
  destruct (perform (media_cloud_action date_parser_parse r) st);
    [apply IH | reflexivity].
Qed.

(** The script is one loop over the actions of the two feeds. *)
Lemma build_unified_db_actions (google : list search_result)
  (media : list csv_row) :
  build_unified_db date_parser_parse google media
  = for_each perform
      (map google_action (List.filter has_link google)
       ++ map (media_cloud_action date_parser_parse) media)
      (connect empty_table, initial_stats).
Proof.
  unfold build_unified_db. rewrite for_each_app, import_google_actions.
  destruct (for_each perform _ (connect empty_table, initial_stats));
    [apply import_media_cloud_actions | reflexivity].
Qed.

(** Nothing of the file that an earlier run left is read. *)
Lemma build_unified_db_over_new (existing : table)
  (google : list search_result) (media : list csv_row) :
  build_unified_db_over date_parser_parse existing google media
  = build_unified_db date_parser_parse google media.
Proof. reflexivity. Qed.

End ImporterLoops.

Lemma initial_totals :
  Importer.total Importer.added Importer.initial_stats = O
  /\ Importer.total Importer.skipped Importer.initial_stats = O
  /\ Importer.total Importer.errors Importer.initial_stats = O.
Proof. repeat split; vm_compute; reflexivity. Qed.

Lemma initial_keys (k : string) :
  k = "google_news" \/ k = "google_all" \/ k = "media_cloud" ->
  is_Some (Importer.initial_stats !! k).
Proof.
  intros [-> | [-> | ->]]; eexists; vm_compute; reflexivity.
Qed.

Lemma clean_empty : ImporterFacts.clean (connect empty_table).
Proof. split; [reflexivity | constructor]. Qed.

(** ** The columns the scripts add *)

Section SchemaFacts.

Import Schema.

Lemma add_or_keep (n : string) (s : schema) :
  match add_column n s with Some s' => s' | None => s end
  = {[ Str.lower n ]} ∪ s.
Proof.
  unfold add_column. cbv zeta. case_bool_decide; [set_solver | reflexivity].
Qed.

Lemma add_column_refused (n : string) (s : schema) :
  Str.lower n ∈ s -> add_column n s = None.
Proof.
  intros H. unfold add_column. cbv zeta.
  rewrite bool_decide_eq_true_2 by exact H. reflexivity.
Qed.

Lemma add_column_done (n : string) (s : schema) :
  Str.lower n ∉ s -> add_column n s = Some ({[ Str.lower n ]} ∪ s).
Proof.
  intros H. unfold add_column. cbv zeta.
  rewrite bool_decide_eq_false_2 by exact H. reflexivity.
Qed.

Lemma try_add_grows (names : list string) (s : schema) :
  s ⊆ try_add names s.
Proof.
  revert s. induction names as [| n names IH]; intros s; simpl.
  - reflexivity.
  - unfold add_column. cbv zeta. case_bool_decide; [reflexivity |].
    etransitivity; [| apply IH]. set_solver.
Qed.

End SchemaFacts.

(** X1. fix_database_schema.py tries each of its seven columns in a
    [try] of its own: whatever columns the table had, it ends with all
    seven and with those it had, a second run changes nothing, and the
    UPDATE that follows finds every column it names. *)
Theorem fix_database_schema_adds_every_column (s : Schema.schema) :
  Schema.fix_database_schema s = list_to_set Schema.columns_to_add ∪ s
  /\ Schema.fix_database_schema (Schema.fix_database_schema s)
     = Schema.fix_database_schema s
  /\ Schema.accepts Schema.submit_update_columns (Schema.fix_database_schema s)
     = true.
Proof.
  assert (E : forall s, Schema.fix_database_schema s
                        = list_to_set Schema.columns_to_add ∪ s).
  { intros s0. unfold Schema.fix_database_schema, Schema.columns_to_add.
    cbn [fold_left]. rewrite !add_or_keep. cbn [list_to_set].
    change (Str.lower "summary") with "summary".
    change (Str.lower "summary_status") with "summary_status".
    change (Str.lower "summarized_at") with "summarized_at".
    change (Str.lower "batch_id") with "batch_id".
    change (Str.lower "text") with "text".
    change (Str.lower "scrape_status") with "scrape_status".
    change (Str.lower "scraped_at") with "scraped_at".
    set_solver. }
  split; [apply E |]. split.
  - rewrite !E. set_solver.
  - rewrite E. unfold Schema.accepts, Schema.submit_update_columns,
      Schema.columns_to_add.
    cbn [forallb list_to_set].
    change (Str.lower "summary") with "summary".
    change (Str.lower "summary_status") with "summary_status".
    change (Str.lower "batch_id") with "batch_id".
    change (Str.lower "text") with "text".
    rewrite !bool_decide_eq_true_2 by set_solver. reflexivity.
Qed.

Ltac lower_names :=
  change (Str.lower "summary") with "summary" in *;
  change (Str.lower "summary_status") with "summary_status" in *;
  change (Str.lower "summarized_at") with "summarized_at" in *;
  change (Str.lower "batch_id") with "batch_id" in *;
  change (Str.lower "text") with "text" in *;
  change (Str.lower "scrape_status") with "scrape_status" in *;
  change (Str.lower "scraped_at") with "scraped_at" in *.

(** X2. summarize_batch_prepare.py adds its four columns in one [try]:
    the first ALTER that is refused ends the block.  When [summary] is
    there already nothing is added; [batch_id] exists afterwards
    exactly when it existed before or none of the three columns before
    it in the block did; no column is lost. *)
Theorem prepare_setup_stops_at_first_refusal (s : Schema.schema) :
  ("summary" ∈ s -> Schema.summarize_batch_prepare_setup s = s)
  /\ ("batch_id" ∈ Schema.summarize_batch_prepare_setup s
      <-> "batch_id" ∈ s
          \/ (("summary" ∉ s) /\ ("summary_status" ∉ s)
              /\ ("summarized_at" ∉ s)))
  /\ s ⊆ Schema.summarize_batch_prepare_setup s.
Proof.
  split; [| split].
  - intros H. unfold Schema.summarize_batch_prepare_setup.
    cbn [Schema.try_add]. rewrite add_column_refused by exact H.
    reflexivity.
  - unfold Schema.summarize_batch_prepare_setup. cbn [Schema.try_add].
    unfold Schema.add_column. cbv zeta. lower_names.
    repeat case_bool_decide; set_solver.
  - apply try_add_grows.
Qed.

(** X3. On a table without [batch_id] where summarize_articles.py has
    run, summarize_batch_prepare.py adds no column: [batch_id] is still
    missing and the UPDATE of summarize_batch_submit.py is refused (no
    such column); after fix_database_schema.py it is accepted. *)
Theorem batch_column_missing_after_sync_summarizer (s : Schema.schema) :
  "batch_id" ∉ s ->
  let s1 := Schema.summarize_batch_prepare_setup
              (Schema.summarize_articles_setup s) in
  s1 = Schema.summarize_articles_setup s
  /\ ("batch_id" ∉ s1)
  /\ Schema.accepts Schema.submit_update_columns s1 = false
  /\ Schema.accepts Schema.submit_update_columns
       (Schema.fix_database_schema s1) = true.
Proof.
  intros Hb s1.
  assert (Hs : "summary" ∈ Schema.summarize_articles_setup s).
  { unfold Schema.summarize_articles_setup.
    apply (try_add_grows ["summarized_at"; "summary_status"]).
    cbn [Schema.try_add]. rewrite add_or_keep. lower_names. set_solver. }
  assert (Hn : "batch_id" ∉ Schema.summarize_articles_setup s).
  { unfold Schema.summarize_articles_setup. cbn [Schema.try_add].
    unfold Schema.add_column. cbv zeta. lower_names.
    repeat case_bool_decide; set_solver. }
  assert (E : s1 = Schema.summarize_articles_setup s).
  { unfold s1, Schema.summarize_batch_prepare_setup. cbn [Schema.try_add].
    rewrite add_column_refused by exact Hs. reflexivity. }
  split; [exact E |]. split; [rewrite E; exact Hn |]. split.
  - rewrite E. unfold Schema.accepts, Schema.submit_update_columns.
    cbn [forallb]. lower_names.
    rewrite (bool_decide_eq_false_2 _ Hn). reflexivity.
  - unfold Schema.accepts, Schema.submit_update_columns.
    cbn [forallb]. lower_names.
    unfold Schema.fix_database_schema, Schema.columns_to_add.
    cbn [fold_left]. rewrite !add_or_keep. lower_names.
    rewrite !bool_decide_eq_true_2 by set_solver. reflexivity.
Qed.

Lemma batch_column_missing_after_sync_summarizer_witness :
  Schema.accepts Schema.submit_update_columns
    (Schema.summarize_batch_prepare_setup
       (Schema.summarize_articles_setup
          (Schema.scrape_articles_setup Schema.created))) = false.
Proof.
  refine (proj1 (proj2 (proj2
    (batch_column_missing_after_sync_summarizer
       (Schema.scrape_articles_setup Schema.created) _)))).
  vm_compute. intros H. discriminate H.
Defined.

(** ** Correlation ids *)

Section Decimal.

Import Py.

Lemma digit_char_spec (d : Z) :
  0 <= d < 10 ->
  Str.is_digit (digit_char d) = true
  /\ GoogleSearchDates.digit_value (digit_char d) = d
  /\ Str.is_space (digit_char d) = false.
Proof.
  intros H.
  assert (C : d = 0 \/ d = 1 \/ d = 2 \/ d = 3 \/ d = 4 \/ d = 5 \/ d = 6
              \/ d = 7 \/ d = 8 \/ d = 9) by lia.
  repeat destruct C as [-> | C]; try subst d; repeat split; reflexivity.
Qed.

(** Reading back the digits that [digits_of] wrote. *)
Lemma int_digits_of (f : nat) (n : Z) (rest : string) :
  0 <= n < 2 ^ Z.of_nat (S f) ->
  exists k : nat,
    forall (b : bool) (a : Z),
      int_digits b a (digits_of (S f) n rest)
      = int_digits true (a * 10 ^ Z.of_nat k + n) rest.
Proof.
  revert n rest. induction f as [| f IH]; intros n rest Hn.
  - exists 1%nat. intros b a. cbn [digits_of].
    assert (n < 10) by (change (2 ^ Z.of_nat 1) with 2 in Hn; lia).
    destruct (Z.ltb_spec n 10) as [_ | Hge]; [| lia].
    rewrite Z.mod_small by lia.
    destruct (digit_char_spec n) as (Hd & Hv & _); [lia |].
    cbn [int_digits]. rewrite Hd, Hv. f_equal.
    change (10 ^ Z.of_nat 1) with 10. lia.
  - remember (S f) as f1 eqn:Ef1. cbn [digits_of].
    destruct (Z.ltb_spec n 10) as [Hlt | Hge].
    + exists 1%nat. intros b a. rewrite Z.mod_small by lia.
      destruct (digit_char_spec n) as (Hd & Hv & _); [lia |].
      cbn [int_digits]. rewrite Hd, Hv. f_equal.
      change (10 ^ Z.of_nat 1) with 10. lia.
    + assert (Hq : 0 <= n / 10 < 2 ^ Z.of_nat f1).
      { split; [apply Z.div_pos; lia |].
        apply Z.div_lt_upper_bound; [lia |].
        replace (Z.of_nat (S f1)) with (Z.succ (Z.of_nat f1)) in Hn by lia.
        rewrite Z.pow_succ_r in Hn by lia.
        assert (0 < 2 ^ Z.of_nat f1) by (apply Z.pow_pos_nonneg; lia).
        lia. }
      subst f1.
      destruct (IH (n / 10) (String (digit_char (n mod 10)) rest) Hq)
        as [k Hk].
      exists (S k). intros b a. rewrite Hk.
      destruct (digit_char_spec (n mod 10)) as (Hd & Hv & _).
      { apply Z.mod_pos_bound. lia. }
      cbn [int_digits]. rewrite Hd, Hv. f_equal.
      replace (Z.of_nat (S k)) with (Z.succ (Z.of_nat k)) by lia.
      rewrite Z.pow_succ_r by lia.
      pose proof (Z.div_mod n 10). lia.
Qed.

Lemma digits_of_chars (P : ascii -> Prop) (f : nat) (n : Z) (rest : string) :
  (forall d, 0 <= d < 10 -> P (digit_char d)) ->
  0 <= n ->
  Forall P (list_ascii_of_string rest) ->
  Forall P (list_ascii_of_string (digits_of f n rest)).
Proof.
  intros HP. revert n rest. induction f as [| f IH]; intros n rest Hn Hr.
  - exact Hr.
  - cbn [digits_of].
    assert (Hm : P (digit_char (n mod 10)))
      by (apply HP, Z.mod_pos_bound; lia).
    destruct (n <? 10).
    + simpl. constructor; assumption.
    + apply IH; [apply Z.div_pos; lia |]. simpl. constructor; assumption.
Qed.

Lemma digits_of_head (f : nat) (n : Z) (rest : string) :
  0 <= n ->
  exists (d : Z) (r : string),
    0 <= d < 10 /\ digits_of (S f) n rest = String (digit_char d) r.
Proof.
  revert n rest. induction f as [| f IH]; intros n rest Hn.
  - cbn [digits_of]. exists (n mod 10).
    assert (0 <= n mod 10 < 10) by (apply Z.mod_pos_bound; lia).
    destruct (n <? 10); eexists; split; try eassumption; reflexivity.
  - remember (S f) as f1. cbn [digits_of].
    assert (0 <= n mod 10 < 10) by (apply Z.mod_pos_bound; lia).
    destruct (n <? 10).
    + exists (n mod 10). eexists. split; [assumption | reflexivity].
    + subst f1. apply IH. apply Z.div_pos; lia.
Qed.

Lemma lstrip_no_space (s : string) :
  Forall (fun c => Str.is_space c = false) (list_ascii_of_string s) ->
  Str.lstrip s = s.
Proof.
  destruct s as [| c s]; [reflexivity |]. simpl. intros H.
  inversion H as [| ? ? Hc _]; subst. rewrite Hc. reflexivity.
Qed.

Lemma rstrip_no_space (s : string) :
  Forall (fun c => Str.is_space c = false) (list_ascii_of_string s) ->
  Str.rstrip s = s.
Proof.
  induction s as [| c s IH]; [reflexivity |]. simpl. intros H.
  inversion H as [| ? ? Hc Hs]; subst. rewrite (IH Hs), Hc.
  destruct s; reflexivity.
Qed.

Lemma strip_no_space (s : string) :
  Forall (fun c => Str.is_space c = false) (list_ascii_of_string s) ->
  Str.strip s = s.
Proof.
  intros H. unfold Str.strip. rewrite (lstrip_no_space s H).
  apply rstrip_no_space, H.
Qed.

Lemma fuel_enough (n : Z) :
  0 <= n -> 0 <= n < 2 ^ Z.of_nat (S (Z.to_nat (Z.log2 n))).
Proof.
  intros Hn. split; [exact Hn |].
  replace (Z.of_nat (S (Z.to_nat (Z.log2 n)))) with (Z.succ (Z.log2 n))
    by (pose proof (Z.log2_nonneg n); lia).
  destruct (Z.eq_dec n 0) as [-> | Hne]; [reflexivity |].
  apply Z.log2_spec. lia.
Qed.

Lemma int_unsigned (d : Z) (r : string) :
  0 <= d < 10 ->
  Str.strip (String (digit_char d) r) = String (digit_char d) r ->
  int (String (digit_char d) r)
  = int_digits false 0 (String (digit_char d) r).
Proof.
  intros Hd E. unfold int. rewrite E.
  assert (C : d = 0 \/ d = 1 \/ d = 2 \/ d = 3 \/ d = 4 \/ d = 5 \/ d = 6
              \/ d = 7 \/ d = 8 \/ d = 9) by lia.
  repeat destruct C as [-> | C]; try subst d; reflexivity.
Qed.

(** [int(str(n))] is [n]. *)
Lemma int_str (n : Z) : int (str n) = Some n.
Proof.
  unfold str. destruct (Z.ltb_spec n 0) as [Hneg | Hpos].
  - set (f := Z.to_nat (Z.log2 (- n))).
    assert (Hn : 0 <= - n) by lia.
    assert (Hsp : Forall (fun c => Str.is_space c = false)
                    (list_ascii_of_string
                       (String "-" (digits_of (S f) (- n) "")))).
    { cbn [list_ascii_of_string]. constructor; [reflexivity |].
      apply digits_of_chars; [| exact Hn | constructor].
      intros d Hd. apply digit_char_spec, Hd. }
    unfold int. rewrite (strip_no_space _ Hsp).
    destruct (int_digits_of f (- n) "" (fuel_enough (- n) Hn)) as [k Hk].
    rewrite Hk. simpl. f_equal. lia.
  - set (f := Z.to_nat (Z.log2 n)).
    assert (Hsp : Forall (fun c => Str.is_space c = false)
                    (list_ascii_of_string (digits_of (S f) n ""))).
    { apply digits_of_chars; [| exact Hpos | constructor].
      intros d Hd. apply digit_char_spec, Hd. }
    destruct (digits_of_head f n "" Hpos) as (d & r & Hd & E).
    pose proof (strip_no_space _ Hsp) as Hst. rewrite E in Hst.
    rewrite E, (int_unsigned d r Hd Hst), <- E.
    destruct (int_digits_of f n "" (fuel_enough n Hpos)) as [k Hk].
    rewrite Hk. simpl. f_equal.
Qed.

End Decimal.

Lemma filter_map_same {A} (p : A -> bool) (f : A -> A) (l : list A) :
  (forall a, p (f a) = p a) ->
  List.filter p (map f l) = map f (List.filter p l).
Proof.
  intros H. induction l as [| a l IH]; simpl; [reflexivity |].
  rewrite H. destruct (p a); simpl; rewrite IH; reflexivity.
Qed.

(** X4. The correlation id of a request is the decimal writing of the
    id of its article, and [int] reads the id back: the requests of
    summarize_batch_prepare.py and of filter_cultural_articles.py stand,
    one for one and in order, for the selected articles, and two
    articles have the same correlation id only when they have the same
    id.  Ids are SQLite integers, of 64 bits. *)
Theorem custom_ids_identify_articles (t : table) :
  Forall (fun a => - 2 ^ 63 <= article_id a < 2 ^ 63) (rows t) ->
  let reqs := SummarizeBatchPrepare.summarize_batch_prepare t in
  map (fun r => Py.int (request_custom_id r)) reqs
  = map (fun a => Some (article_id a)) (Summarize.articles_to_summarize t)
  /\ map request_user_prompt reqs
     = map Summarize.prompt_of (Summarize.articles_to_summarize t)
  /\ map (fun r => Py.int (request_custom_id r))
       (map FilterSubmit.request_of (Filter.articles t))
     = map (fun a => Some (article_id a)) (Filter.articles t)
  /\ (forall a b : article,
        In a (rows t) -> In b (rows t) ->
        Py.str (article_id a) = Py.str (article_id b) ->
        article_id a = article_id b).
Proof.
  intros _ reqs. unfold reqs, SummarizeBatchPrepare.summarize_batch_prepare.
  rewrite !map_map. repeat split.
  - apply map_ext. intros a. apply int_str.
  - apply map_ext. intros a. apply int_str.
  - intros a b _ _ E.
    assert (H : Py.int (Py.str (article_id a))
                = Py.int (Py.str (article_id b))) by (rewrite E; reflexivity).
    rewrite !int_str in H. injection H as H. exact H.
Qed.

Lemma custom_ids_identify_articles_witness :
  map (fun r => Py.int (request_custom_id r))
    (SummarizeBatchPrepare.summarize_batch_prepare Sample.five)
  = [Some 1; Some 2; Some 3; Some 4; Some 5].
Proof.
  refine (proj1 (custom_ids_identify_articles Sample.five _)).
  repeat constructor; vm_compute; intros H; discriminate H.
Defined.

Section Submission.

Let mark (batch : string) (a : article) : article :=
  if Summarize.pending a
  then set_summary_status (Some "batch_submitted")
         (set_batch_id (Some batch) a)
  else a.

Lemma mark_pending (batch : string) (a : article) :
  Summarize.pending (mark batch a) = Summarize.pending a.
Proof.
  unfold mark. destruct (Summarize.pending a) eqn:E; [| exact E].
  exact E.
Qed.

Lemma mark_request (batch : string) (a : article) :
  SummarizeBatchPrepare.request_of (mark batch a)
  = SummarizeBatchPrepare.request_of a.
Proof. unfold mark. destruct (Summarize.pending a); reflexivity. Qed.

Lemma mark_mark (b1 b2 : string) (a : article) :
  mark b2 (mark b1 a) = mark b2 a.
Proof.
  unfold mark at 1. rewrite mark_pending. unfold mark.
  destruct (Summarize.pending a); reflexivity.
Qed.

Lemma submit_table (batch : string) (t : table) :
  SummarizeBatch.summarize_batch_submit batch t
  = mkTable (map (mark batch) (rows t)) (seq t).
Proof. reflexivity. Qed.

Lemma prepare_after_submit (batch : string) (t : table) :
  SummarizeBatchPrepare.summarize_batch_prepare
    (SummarizeBatch.summarize_batch_submit batch t)
  = SummarizeBatchPrepare.summarize_batch_prepare t.
Proof.
  rewrite submit_table.
  unfold SummarizeBatchPrepare.summarize_batch_prepare,
    Summarize.articles_to_summarize, select_where. cbn [rows].
  rewrite (filter_map_same _ _ _ (mark_pending batch)), map_map.
  apply map_ext. intros a. apply mark_request.
Qed.

Lemma submit_submit (b1 b2 : string) (t : table) :
  SummarizeBatch.summarize_batch_submit b2
    (SummarizeBatch.summarize_batch_submit b1 t)
  = SummarizeBatch.summarize_batch_submit b2 t.
Proof.
  rewrite !submit_table. cbn [rows seq]. f_equal. rewrite map_map.
  apply map_ext. intros a. apply mark_mark.
Qed.

Lemma submit_pending_rows (batch : string) (t : table) (a : article) :
  In a (rows (SummarizeBatch.summarize_batch_submit batch t)) ->
  Summarize.pending a = true ->
  batch_id a = Some batch /\ summary_status a = Some "batch_submitted".
Proof.
  rewrite submit_table. cbn [rows]. intros Ha Hp.
  apply in_map_iff in Ha as (a0 & <- & _).
  rewrite mark_pending in Hp. unfold mark. rewrite Hp. split; reflexivity.
Qed.

End Submission.

(** X5. Submitting the batch takes no record out of the selection of
    the summarizer: summarize_batch_prepare.py run after
    summarize_batch_submit.py writes the same requests again, and every
    row it selects carries the id of the submitted batch and the status
    ['batch_submitted']. *)
Theorem submission_keeps_the_selection (batch : string) (t : table) :
  SummarizeBatchPrepare.summarize_batch_prepare
    (SummarizeBatch.summarize_batch_submit batch t)
  = SummarizeBatchPrepare.summarize_batch_prepare t
  /\ (forall a : article,
        In a (Summarize.articles_to_summarize
                (SummarizeBatch.summarize_batch_submit batch t)) ->
        batch_id a = Some batch
        /\ summary_status a = Some "batch_submitted")
  /\ (forall a : article,
        In a (rows t) -> Summarize.pending a = false ->
        In a (rows (SummarizeBatch.summarize_batch_submit batch t))).
Proof.
  split; [apply prepare_after_submit |]. split.
  - intros a Ha.
    unfold Summarize.articles_to_summarize, select_where in Ha.
    apply filter_In in Ha as [Ha Hp].
    apply (submit_pending_rows batch t a Ha Hp).
  - intros a Ha Hp. rewrite submit_rows. apply in_map_iff.
    exists a. rewrite Hp. split; [reflexivity | exact Ha].
Qed.

(** X6. A second submission takes over every record that is still
    selected: submitting batch [b2] after batch [b1] leaves the table
    that submitting [b2] alone leaves, and so does the UPDATE of
    fix_database_schema.py with its own batch id. *)
Theorem resubmission_takes_over (b1 b2 : string) (t : table) :
  SummarizeBatch.summarize_batch_submit b2
    (SummarizeBatch.summarize_batch_submit b1 t)
  = SummarizeBatch.summarize_batch_submit b2 t
  /\ FixDatabaseSchema.update (SummarizeBatch.summarize_batch_submit b1 t)
     = FixDatabaseSchema.update t
  /\ FixDatabaseSchema.update (FixDatabaseSchema.update t)
     = FixDatabaseSchema.update t
  /\ (forall a : article,
        In a (rows (FixDatabaseSchema.update
                      (SummarizeBatch.summarize_batch_submit b1 t))) ->
        Summarize.pending a = true ->
        batch_id a = Some FixDatabaseSchema.BATCH_ID).
Proof.
  split; [apply submit_submit |].
  split; [apply (submit_submit b1 FixDatabaseSchema.BATCH_ID) |].
  split;
    [apply (submit_submit FixDatabaseSchema.BATCH_ID
              FixDatabaseSchema.BATCH_ID) |].
  intros a Ha Hp.
  apply (submit_pending_rows FixDatabaseSchema.BATCH_ID _ a Ha Hp).
Qed.

(** ** The batch a script looks up *)

Section ByteOrder.

Lemma ascii_compare_lt (a b : ascii) :
  Ascii.compare a b = Lt <-> (N_of_ascii a < N_of_ascii b)%N.
Proof. unfold Ascii.compare. apply N.compare_lt_iff. Qed.

Lemma ascii_compare_eq (a b : ascii) : Ascii.compare a b = Eq <-> a = b.
Proof.
  split; [apply Ascii.compare_eq_iff |]. intros ->.
  unfold Ascii.compare. apply N.compare_refl.
Qed.

Lemma string_compare_refl (s : string) : String.compare s s = Eq.
Proof.
  induction s as [| c s IH]; simpl; [reflexivity |].
  rewrite (proj2 (ascii_compare_eq c c) eq_refl). exact IH.
Qed.

Lemma string_lt_trans (s1 s2 s3 : string) :
  String.compare s1 s2 = Lt -> String.compare s2 s3 = Lt ->
  String.compare s1 s3 = Lt.
Proof.
  revert s2 s3. induction s1 as [| a s1 IH]; intros [| b s2] [| c s3];
    simpl; try discriminate; try reflexivity.
  destruct (Ascii.compare a b) eqn:Eab; try discriminate;
    destruct (Ascii.compare b c) eqn:Ebc; try discriminate; intros H1 H2.
  - apply ascii_compare_eq in Eab, Ebc. subst.
    rewrite (proj2 (ascii_compare_eq c c) eq_refl). eapply IH; eassumption.
  - apply ascii_compare_eq in Eab. subst. rewrite Ebc. reflexivity.
  - apply ascii_compare_eq in Ebc. subst. rewrite Eab. reflexivity.
  - apply ascii_compare_lt in Eab. apply ascii_compare_lt in Ebc.
    rewrite (proj2 (ascii_compare_lt a c) (N.lt_trans _ _ _ Eab Ebc)).
    reflexivity.
Qed.

Lemma string_leb_refl (s : string) : String.leb s s = true.
Proof. unfold String.leb. rewrite string_compare_refl. reflexivity. Qed.

Lemma string_leb_trans (s1 s2 s3 : string) :
  String.leb s1 s2 = true -> String.leb s2 s3 = true ->
  String.leb s1 s3 = true.
Proof.
  unfold String.leb. intros H1 H2.
  destruct (String.compare s1 s2) eqn:E12; try discriminate;
    destruct (String.compare s2 s3) eqn:E23; try discriminate.
  - apply String.compare_eq_iff in E12, E23. subst.
    rewrite string_compare_refl. reflexivity.
  - apply String.compare_eq_iff in E12. subst. rewrite E23. reflexivity.
  - apply String.compare_eq_iff in E23. subst. rewrite E12. reflexivity.
  - rewrite (string_lt_trans _ _ _ E12 E23). reflexivity.
Qed.

Lemma string_ltb_leb (m b : string) :
  String.ltb m b = true -> String.leb m b = true.
Proof.
  unfold String.ltb, String.leb. destruct (String.compare m b);
    congruence.
Qed.

Lemma string_not_ltb_leb (m b : string) :
  String.ltb m b = false -> String.leb b m = true.
Proof.
  unfold String.ltb, String.leb. rewrite (String.compare_antisym m b).
  destruct (String.compare b m); simpl; congruence.
Qed.

Variable col : article -> option string.

Let step (best : option string) (a : article) : option string :=
  match col a, best with
  | Some b, Some m => if String.ltb m b then Some b else Some m
  | Some b, None => Some b
  | None, _ => best
  end.

Lemma latest_fold (l : list article) (best : option string) :
  match fold_left step l best with
  | None => best = None /\ forall a, In a l -> col a = None
  | Some b =>
      (best = Some b \/ exists a, In a l /\ col a = Some b)
      /\ (forall m, best = Some m -> String.leb m b = true)
      /\ (forall a b', In a l -> col a = Some b' -> String.leb b' b = true)
  end.
Proof.
  revert best. induction l as [| a l IH]; intros best.
  - simpl. destruct best as [m |].
    + split; [left; reflexivity |]. split.
      * intros m' E. injection E as <-. apply string_leb_refl.
      * intros a b' [].
    + split; [reflexivity | intros a []].
  - cbn [fold_left]. specialize (IH (step best a)).
    destruct (fold_left step l (step best a)) as [b |].
    + destruct IH as (Hin & Hbest & Hall).
      assert (Hstep : forall m, best = Some m -> String.leb m b = true).
      { intros m ->. unfold step in Hbest.
        destruct (col a) as [x |]; [| apply Hbest; reflexivity].
        destruct (String.ltb m x) eqn:E.
        - apply (string_leb_trans m x b);
            [apply string_ltb_leb, E | apply Hbest; reflexivity].
        - apply Hbest. reflexivity. }
      assert (Ha : forall b', col a = Some b' -> String.leb b' b = true).
      { intros b' E. unfold step in Hbest. rewrite E in Hbest.
        destruct best as [m |]; [| apply Hbest; reflexivity].
        destruct (String.ltb m b') eqn:El.
        - apply Hbest. reflexivity.
        - apply (string_leb_trans b' m b);
            [apply string_not_ltb_leb, El | apply Hbest; reflexivity]. }
      split; [| split].
      * destruct Hin as [E | (x & Hx & Ex)].
        -- unfold step in E. destruct (col a) as [x |] eqn:Ec.
           ++ destruct best as [m |].
              ** destruct (String.ltb m x).
                 --- right. exists a. split; [left; reflexivity |].
                     rewrite Ec. exact E.
                 --- left. exact E.
              ** right. exists a. split; [left; reflexivity |].
                 rewrite Ec. exact E.
           ++ left. exact E.
        -- right. exists x. split; [right; exact Hx | exact Ex].
      * exact Hstep.
      * intros x b' [<- | Hx] E; [apply Ha, E | apply (Hall x b' Hx E)].
    + destruct IH as (E & Hall). unfold step in E.
      destruct (col a) as [x |] eqn:Ec.
      * destruct best as [m |]; [destruct (String.ltb m x) |]; discriminate.
      * split; [exact E |]. intros x [<- | Hx]; [exact Ec | apply Hall, Hx].
Qed.

End ByteOrder.

(** X7. The batch that summarize_batch_check.py,
    summarize_batch_process.py and check_cultural_filter_batch.py look
    up is the greatest batch id of the table in byte order, whichever
    batch was submitted last; there is none exactly when the column is
    NULL in every row. *)
Theorem looked_up_batch_is_greatest_id
  (col : article -> option string) (t : table) :
  (latest_batch col t = None <-> forall a, In a (rows t) -> col a = None)
  /\ (forall b : string,
        latest_batch col t = Some b ->
        (exists a, In a (rows t) /\ col a = Some b)
        /\ (forall (a : article) (b' : string),
              In a (rows t) -> col a = Some b' -> String.leb b' b = true))
  /\ batch_found col t
     = match latest_batch col t with Some _ => true | None => false end
  /\ (forall b1 b2 : string,
        String.ltb b2 b1 = true ->
        forall a1 a2 : article,
          col a1 = Some b1 -> col a2 = Some b2 ->
          latest_batch col (mkTable [a1; a2] 2) = Some b1).
Proof.
  pose proof (latest_fold col (rows t) None) as H.
  change (fold_left _ (rows t) None) with (latest_batch col t) in H.
  split; [| split; [| split]].
  - destruct (latest_batch col t) as [b |].
    + split; [discriminate |]. intros Hall.
      destruct H as ([E | (a & Ha & Ea)] & _); [discriminate |].
      rewrite (Hall a Ha) in Ea. discriminate.
    + split; [intros _; apply H | reflexivity].
  - intros b E. rewrite E in H. destruct H as ([E' | Hex] & _ & Hall).
    + discriminate.
    + split; [exact Hex | exact Hall].
  - unfold batch_found. destruct (latest_batch col t) as [b |].
    + destruct H as ([E | (a & Ha & Ea)] & _); [discriminate |].
      apply existsb_exists. exists a. rewrite Ea. auto.
    + destruct H as (_ & Hall).
      destruct (existsb _ (rows t)) eqn:E; [| reflexivity].
      apply existsb_exists in E as (a & Ha & Ea).
      rewrite (Hall a Ha) in Ea. discriminate.
  - intros b1 b2 Hlt a1 a2 E1 E2. unfold latest_batch. simpl.
    rewrite E1, E2.
    destruct (String.ltb b1 b2) eqn:E; [| reflexivity].
    unfold String.ltb in Hlt, E. rewrite String.compare_antisym in E.
    destruct (String.compare b2 b1); discriminate.
Qed.

(** ** The statistics and the rows of the importer *)

Section ImporterAccounting.

Import Importer ImporterFacts ImporterRows.

Lemma total_bump_added (key : string) (s s' : gmap string counters) :
  bump incr_added key s = Some s' ->
  total added s' = S (total added s)
  /\ total skipped s' = total skipped s
  /\ total errors s' = total errors s.
Proof.
  unfold bump. destruct (s !! key) as [c |] eqn:E; [| discriminate].
  intros H. injection H as <-.
  pose proof (total_insert added key c (incr_added c) s E).
  pose proof (total_insert skipped key c (incr_added c) s E).
  pose proof (total_insert errors key c (incr_added c) s E).
  simpl in *. lia.
Qed.

(** What one iteration does to the table, whether it ends or raises:
    nothing, or one row more, committed. *)
Lemma perform_table (a : action) (c : connection)
  (s : gmap string counters) :
  committed c = working c ->
  let r := perform a (c, s) in
  (conn_of r = c
   /\ match a with
      | Insert _ _ u _ _ => In u (urls (working c))
      | Skip _ => True
      | Stop => True
      end)
  \/ (exists key ti u so da,
        a = Insert key ti u so da
        /\ ~ In u (urls (working c))
        /\ conn_of r
           = connect (mkTable (rows (working c)
                               ++ [inserted (working c) key ti u so da])
                        (seq (working c) + 1))).
Proof.
  intros Hc. destruct a as [key | key ti u so da |]; simpl.
  - left. split; [| exact I].
    destruct (bump incr_skipped key s); reflexivity.
  - unfold insert_and_count, insert_article.
    case_bool_decide as Hu.
    + left. split; [| apply list_elem_of_In, Hu].
      destruct (bump incr_skipped key s); reflexivity.
    + right. exists key, ti, u, so, da. split; [reflexivity |].
      split; [intros Hin; apply Hu, list_elem_of_In, Hin |].
      destruct (bump incr_added key s); [reflexivity |].
      destruct (bump incr_errors key s); reflexivity.
  - left. split; [reflexivity | exact I].
Qed.

(** What one iteration that ends does to the statistics. *)
Lemma perform_counts (a : action) (c c' : connection)
  (s s' : gmap string counters) :
  perform a (c, s) = Completed (c', s') ->
  counted a s
  /\ total errors s' = total errors s
  /\ ((rows (working c') = rows (working c)
       /\ total added s' = total added s
       /\ total skipped s' = S (total skipped s))
      \/ (length (rows (working c')) = S (length (rows (working c)))
          /\ total added s' = S (total added s)
          /\ total skipped s' = total skipped s)).
Proof.
  unfold counted.
  destruct a as [key | key ti u so da |]; simpl; [| | discriminate].
  - destruct (bump incr_skipped key s) as [s1 |] eqn:E; [| discriminate].
    intros H. injection H as <- <-.
    destruct (total_bump_skipped key s s1 E) as (Ha & Hs & He).
    split.
    { unfold bump in E. destruct (s !! key); [eauto | discriminate]. }
    split; [exact He |]. left. auto.
  - unfold insert_and_count.
    destruct (insert_article ti u so da key (working c)) as [t' |] eqn:Ei.
    + unfold bump at 1.
      destruct (s !! key) as [k |] eqn:Ek.
      * intros H. injection H as <- <-.
        destruct (total_bump_added key s (<[key := incr_added k]> s))
          as (Ha & Hs & He).
        { unfold bump. rewrite Ek. reflexivity. }
        split; [eauto |]. split; [exact He |]. right.
        split; [| auto]. simpl.
        unfold insert_article in Ei.
        destruct (bool_decide (u ∈ urls (working c))); [discriminate |].
        injection Ei as <-. simpl. rewrite length_app. simpl. lia.
      * unfold bump. rewrite Ek. discriminate.
    + destruct (bump incr_skipped key s) as [s1 |] eqn:E; [| discriminate].
      intros H. injection H as <- <-.
      destruct (total_bump_skipped key s s1 E) as (Ha & Hs & He).
      split.
      { unfold bump in E. destruct (s !! key); [eauto | discriminate]. }
      split; [exact He |]. left. auto.
Qed.

Lemma loop_counts (l : list action) (c c' : connection)
  (s s' : gmap string counters) :
  for_each perform l (c, s) = Completed (c', s') ->
  total errors s' = total errors s
  /\ (length (rows (working c')) + total added s
      = length (rows (working c)) + total added s')%nat
  /\ (total added s' + total skipped s'
      = total added s + total skipped s + length l)%nat.
Proof.
  revert c s. induction l as [| a l IH]; intros c s; simpl.
  - intros H. injection H as <- <-. lia.
  - destruct (perform a (c, s)) as [[c1 s1] | e st] eqn:E; [| discriminate].
    intros H. destruct (IH c1 s1 H) as (He & Hr & Ht).
    destruct (perform_counts a c c1 s s1 E)
      as (_ & He1 & [(R & A & S) | (R & A & S)]).
    + rewrite R in Hr. lia.
    + lia.
Qed.

End ImporterAccounting.

(** X8. When build_unified_db.py reaches the end of both feeds, the
    number of rows of the store is the total of the [added] counters,
    every row read (a Google row with a link, a CSV row) was counted
    once, as added or as skipped, no error was counted, and nothing is
    left uncommitted. *)
Theorem import_statistics_add_up
  (date_parser_parse : string -> option string)
  (google : list Importer.search_result) (media : list Importer.csv_row) :
  let r := Importer.build_unified_db date_parser_parse google media in
  is_completed r = true ->
  let stats := snd (state_of r) in
  let c := fst (state_of r) in
  length (rows (committed c)) = Importer.total Importer.added stats
  /\ (Importer.total Importer.added stats
      + Importer.total Importer.skipped stats
      = length (List.filter Importer.has_link google) + length media)%nat
  /\ Importer.total Importer.errors stats = O
  /\ committed c = working c.
Proof.
  intros r Hdone stats c.
  assert (Hclean : ImporterFacts.clean c).
  { unfold c, r. rewrite build_unified_db_actions.
    apply (loop_first _ (connect empty_table) Importer.initial_stats
             clean_empty). }
  unfold stats, c, r in *. clear stats c r.
  rewrite build_unified_db_actions in *.
  destruct (for_each ImporterFacts.perform _ _) as [[c s] | e st] eqn:E;
    [| discriminate].
  destruct (loop_counts _ _ _ _ _ E) as (He & Hr & Ht).
  destruct initial_totals as (Ta & Ts & Te).
  destruct Hclean as [Hcw _]. simpl in *.
  rewrite Ta in Hr. rewrite Ta, Ts in Ht. rewrite Te in He.
  rewrite length_app, !length_map in Ht.
  rewrite Hcw. repeat split; try lia.
Qed.

Lemma import_statistics_add_up_witness :
  length
    (rows
       (committed
          (fst
             (state_of
                (Importer.build_unified_db (fun _ => None)
                   [Importer.mkSearchResult (Some "A") (Some "http://a")
                      None None (Some "news");
                    Importer.mkSearchResult (Some "A") (Some "http://a")
                      None None (Some "all")]
                   [Importer.mkCsvRow (Some "B") (Some " http://b ")
                      (Some "m") (Some "2025");
                    Importer.mkCsvRow (Some "C") (Some "  ") (Some "m")
                      (Some "2025")])))))
  = 2%nat.
Proof.
  etransitivity.
  - refine (proj1 (import_statistics_add_up (fun _ => None) _ _ _)).
    vm_compute. reflexivity.
  - vm_compute. reflexivity.
Defined.

Section ImporterEdges.

Import Importer ImporterFacts ImporterRows.

Lemma initial_keys_only (k : string) :
  is_Some (initial_stats !! k) ->
  k = "google_news" \/ k = "google_all" \/ k = "media_cloud".
Proof.
  unfold initial_stats. intros H.
  destruct (decide (k = "google_news")) as [-> | N1]; [auto |].
  destruct (decide (k = "google_all")) as [-> | N2]; [auto |].
  destruct (decide (k = "media_cloud")) as [-> | N3]; [auto |].
  rewrite !lookup_insert_ne, lookup_empty in H by congruence.
  destruct H as [x H]. discriminate.
Qed.

Lemma initial_unknown (k : string) :
  k <> "google_news" -> k <> "google_all" -> k <> "media_cloud" ->
  initial_stats !! k = None.
Proof.
  intros N1 N2 N3. destruct (initial_stats !! k) eqn:E; [| reflexivity].
  destruct (initial_keys_only k) as [-> | [-> | ->]]; [eauto | | |];
    contradiction.
Qed.

(** An iteration whose key is not in the dictionary. *)
Lemma perform_unknown_key (key ti u so da : string) (c : connection)
  (s : gmap string counters) :
  s !! key = None ->
  perform (Insert key ti u so da) (c, s)
  = if bool_decide (u ∈ urls (working c))
    then Raised "KeyError" (c, s)
    else Raised "KeyError"
           (connect (mkTable (rows (working c)
                              ++ [inserted (working c) key ti u so da])
                       (seq (working c) + 1)), s).
Proof.
  intros Hk. simpl. unfold insert_and_count, insert_article.
  rewrite !(bump_none _ key s Hk).
  destruct (bool_decide (u ∈ urls (working c))); reflexivity.
Qed.

End ImporterEdges.

(** X9. A Google row whose search type, once mapped, is none of
    ['google_news'], ['google_all'] and ['media_cloud'] (a NULL type
    becomes ['google_unknown']) stops build_unified_db.py with KeyError:
    the rows after it and the whole Media Cloud feed are not read.  When
    its url is new the row has been inserted and committed all the
    same, and no counter has counted it. *)
Theorem unknown_search_type_stops_the_import
  (date_parser_parse : string -> option string)
  (r : Importer.search_result) (rest : list Importer.search_result)
  (media : list Importer.csv_row) (c : connection)
  (s : gmap string Importer.counters) :
  Importer.has_link r = true ->
  s !! Importer.map_search_type
         (Importer.or_else (Importer.sr_search_type r) "google_unknown")
  = None ->
  let key := Importer.map_search_type
               (Importer.or_else (Importer.sr_search_type r)
                  "google_unknown") in
  let u := default "" (Importer.sr_link r) in
  let row := ImporterRows.inserted (working c) key
               (Importer.or_else (Importer.sr_title r) "") u
               (Importer.or_else (Importer.sr_source r) "")
               (Importer.or_else (Importer.sr_date r) "") in
  (In u (urls (working c)) ->
   Importer.import_google (r :: rest) (c, s) = Raised "KeyError" (c, s))
  /\ (~ In u (urls (working c)) ->
      Importer.import_google (r :: rest) (c, s)
      = Raised "KeyError"
          (connect (mkTable (rows (working c) ++ [row])
                      (seq (working c) + 1)), s))
  /\ (forall k : string,
        k <> "google_news" -> k <> "google_all" -> k <> "media_cloud" ->
        Importer.initial_stats !! k = None)
  /\ (s = Importer.initial_stats ->
      c = connect empty_table ->
      Importer.build_unified_db date_parser_parse (r :: rest) media
      = Raised "KeyError"
          (connect (mkTable [row] 1), Importer.initial_stats)).
Proof.
  intros Hl Hk key u row.
  assert (E : Importer.import_google (r :: rest) (c, s)
              = if bool_decide (u ∈ urls (working c))
                then Raised "KeyError" (c, s)
                else Raised "KeyError"
                       (connect (mkTable (rows (working c) ++ [row])
                                   (seq (working c) + 1)), s)).
  { unfold Importer.import_google. cbn [List.filter]. rewrite Hl.
    cbn [for_each]. unfold Importer.google_body.
    change (Importer.insert_and_count ?k ?ti ?v ?so ?da ?st)
      with (ImporterFacts.perform (ImporterFacts.Insert k ti v so da) st).
    rewrite (perform_unknown_key _ _ _ _ _ c s Hk). unfold row, u, key.
    destruct (bool_decide _); reflexivity. }
  split; [| split; [| split]].
  - intros Hin. rewrite E, bool_decide_eq_true_2; [reflexivity |].
    apply list_elem_of_In, Hin.
  - intros Hn. rewrite E, bool_decide_eq_false_2; [reflexivity |].
    intros Hin. apply Hn, list_elem_of_In, Hin.
  - apply initial_unknown.
  - intros -> ->. unfold Importer.build_unified_db. rewrite E.
    reflexivity.
Qed.

Lemma unknown_search_type_stops_the_import_witness :
  Importer.build_unified_db (fun _ => None)
    [Importer.mkSearchResult (Some "A") (Some "http://a") None None None;
     Importer.mkSearchResult (Some "B") (Some "http://b") None None
       (Some "news")]
    [Importer.mkCsvRow (Some "C") (Some "http://c") (Some "m")
       (Some "2025")]
  = Raised "KeyError"
      (connect
         (mkTable
            [mkArticle 1 "A" "http://a" "" "" "google_unknown" None None
               None None None None None None None] 1),
       Importer.initial_stats).
Proof.
  refine (proj2 (proj2 (proj2
    (unknown_search_type_stops_the_import (fun _ => None)
       (Importer.mkSearchResult (Some "A") (Some "http://a") None None None)
       _ _ (connect empty_table) Importer.initial_stats _ _))) _ _);
    reflexivity.
Defined.

Lemma filter_keeps_all {A} (p : A -> bool) (l : list A) :
  (forall a, In a l -> p a = true) -> List.filter p l = l.
Proof.
  induction l as [| a l IH]; intros H; simpl; [reflexivity |].
  rewrite (H a (or_introl eq_refl)). f_equal.
  apply IH. intros x Hx. apply H. right. exact Hx.
Qed.

Section ImporterRowsFacts.

Import Importer ImporterFacts ImporterRows ImporterInvariant.

Lemma well_formed_empty : well_formed empty_table.
Proof. split; [reflexivity | split; [reflexivity | intros a []]]. Qed.

Lemma well_formed_insert (t : table) (key ti u so da : string) :
  well_formed t -> u <> "" ->
  well_formed (mkTable (rows t ++ [inserted t key ti u so da]) (seq t + 1)).
Proof.
  intros (Hs & Hi & Hr) Hu. unfold well_formed. cbn [rows seq].
  rewrite length_app. cbn [length].
  replace (length (rows t) + 1)%nat with (S (length (rows t))) by lia.
  split; [lia |]. split.
  - unfold ids in *. cbn [rows]. rewrite map_app, Hi, seq_S, map_app.
    cbn [map inserted article_id]. rewrite Hs. do 3 f_equal. lia.
  - intros a Ha. apply in_app_or in Ha as [Ha | [<- | []]].
    + apply Hr, Ha.
    + split; [exact Hu |]. repeat split.
Qed.

Lemma loop_rows (l : list action) (c : connection)
  (s : gmap string counters) :
  committed c = working c ->
  well_formed (working c) ->
  Forall has_url l ->
  well_formed (working (conn_of (for_each perform l (c, s))))
  /\ committed (conn_of (for_each perform l (c, s)))
     = working (conn_of (for_each perform l (c, s))).
Proof.
  revert c s. induction l as [| a l IH]; intros c s Hc Hw Hl.
  - split; assumption.
  - inversion Hl as [| ? ? Ha Hl']; subst.
    assert (H1 : well_formed (working (conn_of (perform a (c, s))))
                 /\ committed (conn_of (perform a (c, s)))
                    = working (conn_of (perform a (c, s)))).
    { destruct (perform_table a c s Hc)
        as [[E _] | (key & ti & u & so & da & Ea & _ & E)];
        rewrite E; [split; assumption |].
      subst a. split; [| reflexivity]. cbn [connect working].
      apply well_formed_insert; assumption. }
    cbn [for_each].
    destruct (perform a (c, s)) as [[c1 s1] | e [c1 s1]];
      unfold conn_of in H1; cbn [state_of fst] in H1.
    + apply IH; [apply H1 | apply H1 | exact Hl'].
    + exact H1.
Qed.

Lemma perform_types (a : action) (c c' : connection)
  (s s' : gmap string counters) :
  committed c = working c ->
  perform a (c, s) = Completed (c', s') ->
  (forall x, In x (rows (working c)) -> is_Some (s !! search_type x)) ->
  same_keys s s'
  /\ committed c' = working c'
  /\ forall x, In x (rows (working c')) -> is_Some (s' !! search_type x).
Proof.
  intros Hc E Hall.
  destruct (perform_counts a c c' s s' E) as (Hkey & _).
  assert (Hsk : same_keys s s').
  { destruct a as [key | key ti u so da |]; simpl in E; [| | discriminate].
    - destruct (bump incr_skipped key s) eqn:Eb; [| discriminate].
      injection E as <- <-. apply (bump_same_keys _ _ _ _ Eb).
    - unfold insert_and_count in E.
      destruct (insert_article ti u so da key (working c)).
      + destruct (bump incr_added key s) eqn:Eb.
        * injection E as <- <-. apply (bump_same_keys _ _ _ _ Eb).
        * destruct (bump incr_errors key s) eqn:Eb2; [| discriminate].
          injection E as <- <-. apply (bump_same_keys _ _ _ _ Eb2).
      + destruct (bump incr_skipped key s) eqn:Eb; [| discriminate].
        injection E as <- <-. apply (bump_same_keys _ _ _ _ Eb). }
  split; [exact Hsk |].
  pose proof (perform_table a c s Hc) as Ht. cbv zeta in Ht.
  rewrite E in Ht. unfold conn_of in Ht. cbn [state_of fst] in Ht.
  destruct Ht as [[-> _] | (key & ti & u & so & da & Ea & _ & ->)].
  - split; [exact Hc |]. intros x Hx. apply Hsk, Hall, Hx.
  - subst a. split; [reflexivity |]. cbn [connect working rows]. intros x Hx.
    apply in_app_or in Hx as [Hx | [<- | []]].
    + apply Hsk, Hall, Hx.
    + cbn [inserted search_type]. apply Hsk. exact Hkey.
Qed.

Lemma loop_types (l : list action) (c c' : connection)
  (s s' : gmap string counters) :
  committed c = working c ->
  for_each perform l (c, s) = Completed (c', s') ->
  (forall x, In x (rows (working c)) -> is_Some (s !! search_type x)) ->
  same_keys s s'
  /\ forall x, In x (rows (working c')) -> is_Some (s' !! search_type x).
Proof.
  revert c s. induction l as [| a l IH]; intros c s Hc E Hall.
  - simpl in E. injection E as <- <-. split; [apply same_keys_refl | exact Hall].
  - cbn [for_each] in E.
    destruct (perform a (c, s)) as [[c1 s1] | e st] eqn:E1; [| discriminate].
    destruct (perform_types a c c1 s s1 Hc E1 Hall) as (Hk1 & Hc1 & Hall1).
    destruct (IH c1 s1 Hc1 E Hall1) as (Hk2 & Hall2).
    split; [eapply same_keys_trans; eassumption | exact Hall2].
Qed.

Variable date_parser_parse : string -> option string.

Lemma feed_actions_have_urls (google : list search_result)
  (media : list csv_row) :
  Forall has_url
    (map google_action (List.filter has_link google)
     ++ map (media_cloud_action date_parser_parse) media).
Proof.
  apply Forall_app. split; apply List.Forall_forall; intros a Ha;
    apply in_map_iff in Ha as (r & <- & Hr).
  - apply filter_In in Hr as [_ Hr]. unfold has_link in Hr.
    unfold google_action, has_url. destruct (sr_link r) as [u |];
      [| discriminate].
    simpl. apply negb_true_iff, String.eqb_neq in Hr. exact Hr.
  - unfold media_cloud_action, has_url.
    destruct (csv_title r), (csv_url r) as [url |], (csv_media_name r),
      (csv_publish_date r); try exact I.
    destruct (Str.truthy (Str.strip url)) eqn:E; simpl; [| exact I].
    intros H. rewrite H in E. discriminate.
Qed.

End ImporterRowsFacts.

(** X10. Whatever the feeds and however build_unified_db.py ends, the
    store it leaves has ids 1, 2, ... in row order, a url that is not
    empty in every row and NULL in every column a later script writes,
    so that every row waits for the scraper.  When the script reaches
    its end, every row has one of the three types of the statistics. *)
Theorem imported_rows_are_well_formed
  (date_parser_parse : string -> option string)
  (google : list Importer.search_result) (media : list Importer.csv_row) :
  let r := Importer.build_unified_db date_parser_parse google media in
  let t := committed (fst (state_of r)) in
  ids t = map Z.of_nat (List.seq 1 (length (rows t)))
  /\ seq t = Z.of_nat (length (rows t))
  /\ (forall a, In a (rows t) -> url a <> "" /\ ImporterRows.untouched a)
  /\ Scrape.articles_to_scrape t = rows t
  /\ (is_completed r = true ->
      forall a, In a (rows t) ->
        search_type a = "google_news" \/ search_type a = "google_all"
        \/ search_type a = "media_cloud").
Proof.
  intros r t.
  pose proof (loop_rows _ (connect empty_table) Importer.initial_stats
                eq_refl well_formed_empty
                (feed_actions_have_urls date_parser_parse google media))
    as [(Hs & Hi & Hr) Hc].
  rewrite <- build_unified_db_actions in Hs, Hi, Hr, Hc.
  fold r in Hs, Hi, Hr, Hc. unfold ImporterFacts.conn_of in *.
  fold t in Hc. rewrite <- Hc in Hs, Hi, Hr.
  split; [exact Hi |]. split; [exact Hs |]. split; [exact Hr |]. split.
  - unfold Scrape.articles_to_scrape, select_where.
    assert (Hall : forall a, In a (rows t) -> Scrape.pending a = true).
    { intros a Ha. destruct (Hr a Ha) as (_ & Ht & _).
      unfold Scrape.pending. rewrite Ht. reflexivity. }
    apply filter_keeps_all, Hall.
  - intros Hdone a Ha. unfold r in Hdone. unfold t, r in Ha.
    rewrite build_unified_db_actions in Hdone, Ha.
    destruct (for_each ImporterFacts.perform _ _) as [[c s] | e st] eqn:E;
      [| discriminate].
    destruct (loop_types _ (connect empty_table) c Importer.initial_stats s
                eq_refl E) as (Hk & Hall).
    { intros x []. }
    cbn [state_of fst] in Ha.
    assert (Hcw : committed c = working c).
    { unfold t, r in Hc. rewrite build_unified_db_actions, E in Hc.
      exact Hc. }
    rewrite Hcw in Ha. apply initial_keys_only. apply Hk, Hall, Ha.
Qed.

(** ** Relative dates with any amount *)

Section RelativeDates.

Import GoogleSearchDates.

Lemma every_char_app (p : ascii -> bool) (a b : string) :
  every_char p (a ++ b) = every_char p a && every_char p b.
Proof.
  induction a as [| c a IH]; simpl; [reflexivity |].
  rewrite IH, andb_assoc. reflexivity.
Qed.

Lemma space_not_digit (c : ascii) :
  Str.is_space c = true -> Str.is_digit c = false.
Proof.
  unfold Str.is_space, Str.is_digit. cbv zeta.
  generalize (nat_of_ascii c). intros n H.
  apply orb_true_iff in H.
  rewrite !andb_true_iff, !Nat.leb_le in H.
  apply andb_false_iff. rewrite !Nat.leb_gt. lia.
Qed.

Lemma spaces_no_digit (s : string) :
  every_char Str.is_space s = true ->
  every_char (fun c => negb (Str.is_digit c)) s = true.
Proof.
  induction s as [| c s IH]; simpl; [reflexivity |].
  intros H. apply andb_true_iff in H as [Hc Hs].
  rewrite (space_not_digit c Hc), (IH Hs). reflexivity.
Qed.

Lemma take_digits_none (x : string) :
  every_char (fun c => negb (Str.is_digit c)) x = true ->
  take_digits x = (EmptyString, x).
Proof.
  destruct x as [| c x]; simpl; [reflexivity |].
  intros H. apply andb_true_iff in H as [Hc _].
  apply negb_true_iff in Hc. rewrite Hc. reflexivity.
Qed.

Lemma take_digits_app (d rest : string) :
  every_char Str.is_digit d = true ->
  every_char (fun c => negb (Str.is_digit c)) rest = true ->
  take_digits (d ++ rest) = (d, rest).
Proof.
  intros Hd Hr. induction d as [| c d IH]; simpl.
  - apply take_digits_none, Hr.
  - simpl in Hd. apply andb_true_iff in Hd as [Hc Hd].
    rewrite Hc, (IH Hd). reflexivity.
Qed.

Lemma no_digit_no_match (w x : string) :
  every_char (fun c => negb (Str.is_digit c)) x = true ->
  re_search w x = None.
Proof.
  induction x as [| c x IH]; intros H.
  - reflexivity.
  - cbn [re_search]. unfold match_here.
    rewrite (take_digits_none _ H). cbn [Str.truthy].
    simpl in H. apply andb_true_iff in H as [_ H]. apply IH, H.
Qed.

(** What is left of the pattern once the digits are read. *)
Let follows (w rest : string) : bool :=
  match strip_prefix w (skip_spaces rest) with
  | Some r2 => Str.startswith "ago" (skip_spaces (optional_s r2))
  | None => false
  end.

Lemma match_here_digits (w d rest : string) (c : ascii) :
  every_char Str.is_digit (String c d) = true ->
  every_char (fun c => negb (Str.is_digit c)) rest = true ->
  match_here w (String c d ++ rest)
  = if follows w rest then Some (String c d) else None.
Proof.
  intros Hd Hr. unfold match_here.
  rewrite (take_digits_app (String c d) rest Hd Hr). cbn [Str.truthy].
  unfold follows. destruct (strip_prefix w (skip_spaces rest)); reflexivity.
Qed.

Lemma re_search_hit (w d rest : string) :
  d <> "" ->
  every_char Str.is_digit d = true ->
  every_char (fun c => negb (Str.is_digit c)) rest = true ->
  follows w rest = true ->
  re_search w (d ++ rest) = Some d.
Proof.
  intros Hne Hd Hr Hf. destruct d as [| c d]; [contradiction |].
  assert (E := match_here_digits w d rest c Hd Hr). rewrite Hf in E.
  change (String c d ++ rest) with (String c (d ++ rest)) in *.
  cbn [re_search]. rewrite E. reflexivity.
Qed.

Lemma re_search_miss (w d rest : string) :
  every_char Str.is_digit d = true ->
  every_char (fun c => negb (Str.is_digit c)) rest = true ->
  follows w rest = false ->
  re_search w (d ++ rest) = None.
Proof.
  intros Hd Hr Hf. induction d as [| c d IH].
  - apply no_digit_no_match, Hr.
  - assert (E := match_here_digits w d rest c Hd Hr). rewrite Hf in E.
    change (String c d ++ rest) with (String c (d ++ rest)) in *.
    cbn [re_search]. rewrite E. apply IH.
    simpl in Hd. apply andb_true_iff in Hd as [_ Hd]. exact Hd.
Qed.

Lemma skip_spaces_app (sp x : string) :
  every_char Str.is_space sp = true ->
  skip_spaces (sp ++ x) = skip_spaces x.
Proof.
  induction sp as [| c sp IH]; simpl; [reflexivity |].
  intros H. apply andb_true_iff in H as [Hc Hs]. rewrite Hc. apply IH, Hs.
Qed.

Lemma optional_s_space (sp x : string) :
  every_char Str.is_space sp = true ->
  optional_s (sp ++ "ago" ++ x) = sp ++ "ago" ++ x.
Proof.
  destruct sp as [| c sp]; [reflexivity |]. simpl. intros H.
  apply andb_true_iff in H as [Hc _].
  destruct c as [[] [] [] [] [] [] [] []]; try discriminate Hc; reflexivity.
Qed.

(** The rest of a relative date after its digits. *)
Let tail_of (sp1 word plural sp2 tail : string) : string :=
  sp1 ++ word ++ plural ++ sp2 ++ "ago" ++ tail.

Lemma ago_follows (sp1 plural sp2 tail : string) :
  every_char Str.is_space sp2 = true ->
  plural = "" \/ plural = "s" ->
  Str.startswith "ago"
    (skip_spaces (optional_s (plural ++ sp2 ++ "ago" ++ tail))) = true.
Proof.
  intros H2 [-> | ->].
  - change ("" ++ sp2 ++ "ago" ++ tail) with (sp2 ++ "ago" ++ tail).
    rewrite (optional_s_space sp2 tail H2), (skip_spaces_app sp2 _ H2).
    reflexivity.
  - change (optional_s ("s" ++ sp2 ++ "ago" ++ tail))
      with (sp2 ++ "ago" ++ tail).
    rewrite (skip_spaces_app sp2 _ H2). reflexivity.
Qed.

Lemma follows_word (w word sp1 plural sp2 tail : string) :
  In word (map fst patterns) ->
  In w (map fst patterns) ->
  every_char Str.is_space sp1 = true ->
  every_char Str.is_space sp2 = true ->
  plural = "" \/ plural = "s" ->
  follows w (tail_of sp1 word plural sp2 tail) = String.eqb w word.
Proof.
  intros Hword Hw H1 H2 Hp. unfold follows, tail_of.
  rewrite (skip_spaces_app sp1 _ H1).
  pose proof (ago_follows sp1 plural sp2 tail H2 Hp) as Hago.
  simpl in Hword, Hw.
  repeat destruct Hword as [<- | Hword]; try contradiction;
    repeat destruct Hw as [<- | Hw]; try contradiction;
    cbn [String.append skip_spaces Str.is_space nat_of_ascii strip_prefix
         Ascii.eqb Bool.eqb String.eqb];
    first [reflexivity | exact Hago].
Qed.

Lemma tail_no_digit (word sp1 plural sp2 tail : string) :
  In word (map fst patterns) ->
  every_char Str.is_space sp1 = true ->
  every_char Str.is_space sp2 = true ->
  plural = "" \/ plural = "s" ->
  every_char (fun c => negb (Str.is_digit c)) tail = true ->
  every_char (fun c => negb (Str.is_digit c))
    (tail_of sp1 word plural sp2 tail) = true.
Proof.
  intros Hword H1 H2 Hp Ht. unfold tail_of.
  rewrite !every_char_app, (spaces_no_digit sp1 H1),
    (spaces_no_digit sp2 H2), Ht.
  assert (Hpl : every_char (fun c => negb (Str.is_digit c)) plural = true)
    by (destruct Hp as [-> | ->]; reflexivity).
  rewrite Hpl. simpl in Hword.
  repeat destruct Hword as [<- | Hword]; try contradiction; reflexivity.
Qed.

Variable parser_parse : string -> option datetime.

Lemma first_pattern_finds (ps : list (string * unit_name)) (now : datetime)
  (d rest word : string) (u : unit_name) :
  NoDup (map fst ps) ->
  In (word, u) ps ->
  (forall w, In w (map fst ps) ->
             re_search w (d ++ rest)
             = if String.eqb w word then Some d else None) ->
  first_pattern ps now (d ++ rest) = Some (minus now (timedelta u (int d))).
Proof.
  induction ps as [| [w v] ps IH]; intros Hnd Hin Hall; [contradiction |].
  cbn [first_pattern]. rewrite (Hall w (or_introl eq_refl)).
  cbn [map fst] in Hnd. apply NoDup_cons in Hnd as [Hw Hnd].
  destruct Hin as [E | Hin].
  - injection E as -> ->. rewrite String.eqb_refl. reflexivity.
  - destruct (String.eqb_spec w word) as [-> | Hne].
    + exfalso. apply Hw. apply list_elem_of_In.
      apply (in_map fst) in Hin. exact Hin.
    + apply IH; [exact Hnd | exact Hin |].
      intros w' Hw'. apply Hall. right. exact Hw'.
Qed.

Lemma patterns_distinct : NoDup (map fst patterns).
Proof.
  apply NoDup_ListNoDup. simpl.
  repeat (constructor; [simpl; intuition discriminate |]). constructor.
Qed.

Lemma relative_date (now : datetime) (s d sp1 word plural sp2 tail : string)
  (u : unit_name) :
  parser_parse s = None ->
  In (word, u) patterns ->
  d <> "" ->
  every_char Str.is_digit d = true ->
  every_char Str.is_space sp1 = true ->
  every_char Str.is_space sp2 = true ->
  plural = "" \/ plural = "s" ->
  every_char (fun c => negb (Str.is_digit c)) tail = true ->
  Str.strip (Str.lower s) = d ++ sp1 ++ word ++ plural ++ sp2 ++ "ago" ++ tail ->
  parse_relative_date parser_parse now s
  = minus now (timedelta u (int d)).
Proof.
  intros Hp Hin Hne Hd H1 H2 Hpl Ht Hs.
  assert (Hword : In word (map fst patterns))
    by (apply (in_map fst) in Hin; exact Hin).
  unfold parse_relative_date.
  assert (Htr : Str.truthy s = true).
  { destruct s; [| reflexivity]. simpl in Hs.
    destruct d; [contradiction | discriminate]. }
  rewrite Htr, Hp. cbn [negb]. rewrite Hs.
  change (d ++ sp1 ++ word ++ plural ++ sp2 ++ "ago" ++ tail)
    with (d ++ tail_of sp1 word plural sp2 tail).
  rewrite (first_pattern_finds patterns now d _ word u patterns_distinct Hin);
    [reflexivity |].
  intros w Hw.
  pose proof (follows_word w word sp1 plural sp2 tail Hword Hw H1 H2 Hpl)
    as Hf.
  pose proof (tail_no_digit word sp1 plural sp2 tail Hword H1 H2 Hpl Ht)
    as Hnd.
  destruct (String.eqb w word).
  - apply re_search_hit; assumption.
  - apply re_search_miss; assumption.
Qed.

End RelativeDates.

Section RelativeDateAmounts.

Import GoogleSearchDates.

Lemma digit_value_nonneg (c : ascii) :
  Str.is_digit c = true -> 0 <= digit_value c.
Proof.
  unfold Str.is_digit, digit_value. cbv zeta. intros H.
  apply andb_true_iff in H as [H _]. apply Nat.leb_le in H. lia.
Qed.

Lemma int_from_nonneg (d : string) (acc : Z) :
  every_char Str.is_digit d = true -> 0 <= acc -> 0 <= int_from acc d.
Proof.
  revert acc. induction d as [| c d IH]; intros acc Hd Ha; [exact Ha |].
  simpl in Hd. apply andb_true_iff in Hd as [Hc Hd]. cbn [int_from].
  apply IH; [exact Hd |]. pose proof (digit_value_nonneg c Hc). lia.
Qed.

Lemma timedelta_nonneg (u : unit_name) (n : Z) : 0 <= n -> 0 <= timedelta u n.
Proof.
  intros H. destruct u; unfold timedelta, week, day, hour, minute, second;
    lia.
Qed.

End RelativeDateAmounts.

(** X11. A date of the form digits, unit, ['ago'] (any case, any white
    space around the unit, singular or plural, any text without digits
    after it), which dateutil refuses, is read as the reference time
    minus that many units, a month counting for 30 days and a year for
    365: the stored date is the ISO form of that time when it is not
    before the first [datetime], and the subtraction raises
    OverflowError when it is.  The digits are at most 4300, the longest
    number [int] converts. *)
Theorem relative_dates_subtract_the_amount
  (parser_parse : string -> option GoogleSearchDates.datetime)
  (isoformat : GoogleSearchDates.datetime -> string)
  (now : GoogleSearchDates.datetime)
  (s d sp1 word plural sp2 tail : string) (u : GoogleSearchDates.unit_name) :
  parser_parse s = None ->
  In (word, u) GoogleSearchDates.patterns ->
  d <> "" ->
  every_char Str.is_digit d = true ->
  (String.length d <= 4300)%nat ->
  every_char Str.is_space sp1 = true ->
  every_char Str.is_space sp2 = true ->
  plural = "" \/ plural = "s" ->
  every_char (fun c => negb (Str.is_digit c)) tail = true ->
  Str.strip (Str.lower s)
  = d ++ sp1 ++ word ++ plural ++ sp2 ++ "ago" ++ tail ->
  let delta := GoogleSearchDates.timedelta u (GoogleSearchDates.int d) in
  GoogleSearchDates.parse_relative_date parser_parse now s
  = GoogleSearchDates.minus now delta
  /\ 0 <= delta
  /\ (delta <= now ->
      GoogleSearchDates.date_to_store parser_parse isoformat now s
      = Returned (isoformat (now - delta)))
  /\ (now < delta ->
      GoogleSearchDates.date_to_store parser_parse isoformat now s
      = Exception "OverflowError").
Proof.
  intros Hp Hin Hne Hd _ H1 H2 Hpl Ht Hs delta.
  pose proof (relative_date parser_parse now s d sp1 word plural sp2 tail u
                Hp Hin Hne Hd H1 H2 Hpl Ht Hs) as E.
  fold delta in E.
  split; [exact E |]. split.
  - apply timedelta_nonneg. apply int_from_nonneg; [exact Hd | lia].
  - unfold GoogleSearchDates.date_to_store. rewrite E.
    unfold GoogleSearchDates.minus. split; intros H.
    + destruct (Z.ltb_spec (now - delta) 0); [lia | reflexivity].
    + destruct (Z.ltb_spec (now - delta) 0); [reflexivity | lia].
Qed.

Lemma relative_dates_subtract_the_amount_witness :
  GoogleSearchDates.parse_relative_date (fun _ => None)
    63000000000000000 " 12  Months AGO (updated)"
  = Returned
      (Some (63000000000000000 - 12 * 30 * GoogleSearchDates.day)).
Proof.
  refine (eq_trans (proj1
    (relative_dates_subtract_the_amount (fun _ => None) (fun _ => "")
       63000000000000000 " 12  Months AGO (updated)" "12" "  " "month" "s"
       " " " (updated)" GoogleSearchDates.months
       _ _ _ _ _ _ _ _ _ _)) _).
  - reflexivity.
  - simpl. auto 10.
  - discriminate.
  - reflexivity.
  - simpl. lia.
  - reflexivity.
  - reflexivity.
  - right. reflexivity.
  - reflexivity.
  - vm_compute. reflexivity.
  - vm_compute. reflexivity.
Defined.

(** ** What every stage leaves alone *)

Section IdentityKept.

Lemma same_records_refl (t : table) : same_records t t.
Proof. split; reflexivity. Qed.

Lemma same_records_trans (t1 t2 t3 : table) :
  same_records t1 t2 -> same_records t2 t3 -> same_records t1 t3.
Proof.
  intros [H1 S1] [H2 S2]. split; [rewrite H2 | rewrite S2]; assumption.
Qed.

Lemma update_keeps (cond : article -> bool) (f : article -> article)
  (t : table) :
  (forall a, identity (f a) = identity a) ->
  same_records t (update_where cond f t).
Proof.
  intros H. split; [| reflexivity]. unfold update_where. cbn [rows].
  rewrite map_map. apply map_ext. intros a.
  destruct (cond a); [apply H | reflexivity].
Qed.

Lemma holds_connect (t : table) : holds t (connect t).
Proof. split; apply same_records_refl. Qed.

Lemma holds_execute (t0 : table) (f : table -> table) (c : connection) :
  (forall t, same_records t (f t)) -> holds t0 c -> holds t0 (execute f c).
Proof.
  intros Hf [Hc Hw]. split; [exact Hc |].
  apply (same_records_trans _ _ _ Hw), Hf.
Qed.

Lemma holds_commit (t0 : table) (c : connection) :
  holds t0 c -> holds t0 (commit c).
Proof. intros [_ Hw]. split; exact Hw. Qed.

Lemma holds_interrupt (t0 : table) (c : connection) :
  holds t0 c -> holds t0 (interrupt c).
Proof. intros [Hc _]. split; exact Hc. Qed.

Lemma holds_fold {B} (t0 : table) (body : B -> connection -> connection)
  (l : list B) (c : connection) :
  (forall x c, holds t0 c -> holds t0 (body x c)) ->
  holds t0 c -> holds t0 (fold_left (fun c x => body x c) l c).
Proof.
  intros Hb. revert c. induction l as [| x l IH]; intros c Hc; simpl.
  - exact Hc.
  - apply IH, Hb, Hc.
Qed.

Variable fetch : string -> response string.
Variable llm : string -> response Summarize.completion.
Variable zclock : Z -> string.
Variable nclock : nat -> string.

Lemma scrape_statement_keeps (a : article) (t : table) :
  same_records t (Scrape.statement fetch zclock a t).
Proof.
  unfold Scrape.statement. destruct (fetch (url a)) as [s | msg];
    [destruct (Scrape.substantial s) |];
    apply update_keeps; intros r; reflexivity.
Qed.

Lemma scrape_keeps (t : table) :
  same_records t (fst (Scrape.scrape_articles fetch zclock t)).
Proof.
  unfold Scrape.scrape_articles. cbn [fst]. rewrite scrape_loop_fst.
  apply (holds_fold t
           (fun s c => commit (execute (Scrape.statement fetch zclock s) c))).
  - intros x c Hc. apply holds_commit, holds_execute; [| exact Hc].
    apply scrape_statement_keeps.
  - apply holds_connect.
Qed.

Lemma summarize_keeps (t : table) :
  same_records t (fst (Summarize.summarize_articles llm zclock t)).
Proof.
  unfold Summarize.summarize_articles. cbn [fst].
  rewrite summarize_loop_fst.
  apply (holds_fold t
           (fun s c =>
              commit (execute (SummarizeFacts.statement llm zclock s) c))).
  - intros x c Hc. apply holds_commit, holds_execute; [| exact Hc].
    intros t1. unfold SummarizeFacts.statement. apply update_keeps.
    intros r. unfold SummarizeFacts.row_effect.
    destruct (llm (Summarize.prompt_of x)) as [k | msg]; [| reflexivity].
    destruct (Summarize.content k); reflexivity.
  - apply holds_connect.
Qed.

Lemma submit_keeps (batch : string) (t : table) :
  same_records t (SummarizeBatch.summarize_batch_submit batch t).
Proof.
  unfold SummarizeBatch.summarize_batch_submit, SummarizeBatch.mark_submitted.
  cbn [connect execute commit committed working].
  apply update_keeps. intros r. reflexivity.
Qed.

Lemma batch_statement_keeps (now : string) (r : batch_result) (t : table) :
  same_records t (SummarizeBatch.statement now r t).
Proof.
  unfold SummarizeBatch.statement. destruct (error r);
    apply update_keeps; intros a; reflexivity.
Qed.

Lemma process_from_keeps (t0 : table) (n : nat) (l : list batch_result)
  (c : connection) :
  holds t0 c -> holds t0 (SummarizeBatch.process_from nclock n l c).
Proof.
  revert n c. induction l as [| r l IH]; intros n c Hc; simpl.
  - exact Hc.
  - apply IH, holds_execute; [| exact Hc]. apply batch_statement_keeps.
Qed.

Lemma batch_process_keeps (status : string)
  (output : option (list batch_result)) (t : table) :
  same_records t
    (SummarizeBatch.summarize_batch_process nclock status output t).
Proof.
  unfold SummarizeBatch.summarize_batch_process.
  destruct (negb (batch_found batch_id t)); [apply same_records_refl |].
  destruct (negb (String.eqb status "completed"));
    [apply same_records_refl |].
  destruct output as [l |]; [| apply same_records_refl].
  apply (holds_commit t), process_from_keeps, holds_connect.
Qed.

Lemma filter_mark_keeps (batch : string) (t : table) :
  same_records t (Filter.mark_submitted batch t).
Proof.
  unfold Filter.mark_submitted.
  cbn [connect execute commit committed working].
  apply update_keeps. intros r. reflexivity.
Qed.

Lemma reconcile_keeps (t0 : table) (l : list batch_result) (c : connection) :
  holds t0 c -> holds t0 (state_of (Filter.reconcile l c)).
Proof.
  unfold Filter.reconcile. revert c.
  induction l as [| r l IH]; intros c Hc; simpl; [exact Hc |].
  unfold Filter.reconcile_body.
  destruct (error r) as [e |].
  - apply IH, holds_execute; [| exact Hc].
    intros t1. apply update_keeps. intros a. reflexivity.
  - destruct (content r) as [s |]; [| exact Hc].
    apply IH, holds_execute; [| exact Hc].
    intros t1. apply update_keeps. intros a. reflexivity.
Qed.

Lemma filter_process_keeps (l : list batch_result) (t : table) :
  same_records t (Filter.process_results l t).
Proof.
  unfold Filter.process_results.
  pose proof (reconcile_keeps t l (connect t) (holds_connect t)) as H.
  destruct (Filter.reconcile l (connect t)) as [c | e c]; simpl in H.
  - apply (holds_commit t c H).
  - apply (holds_interrupt t c H).
Qed.

Lemma filter_check_keeps (status : string)
  (output : option (list batch_result)) (t : table) :
  same_records t (Filter.check_cultural_filter_batch status output t).
Proof.
  unfold Filter.check_cultural_filter_batch.
  destruct (negb (batch_found filter_batch_id t));
    [apply same_records_refl |].
  destruct (String.eqb status "completed"); [| apply same_records_refl].
  destruct output as [l |]; [| apply same_records_refl].
  apply filter_process_keeps.
Qed.

End IdentityKept.

Lemma same_records_urls (t t' : table) :
  same_records t t' -> urls t' = urls t /\ ids t' = ids t.
Proof.
  intros [H _]. unfold urls, ids.
  assert (Eu : forall l : list article,
             map url l
             = map (fun x => snd (fst (fst (fst x)))) (map identity l))
    by (intros l; rewrite map_map; reflexivity).
  assert (Ei : forall l : list article,
             map article_id l
             = map (fun x => fst (fst (fst (fst (fst x)))))
                 (map identity l))
    by (intros l; rewrite map_map; reflexivity).
  rewrite (Eu (rows t')), (Eu (rows t)), (Ei (rows t')), (Ei (rows t)), H.
  split; reflexivity.
Qed.

(** X12. No stage script writes the id, title, url, source, date or
    search type of a row, adds or removes a row, or moves the id
    counter: after scraping, summarising, submitting, processing a
    batch, marking and reconciling the relevance filter, the table has
    the same records in the same order, so the urls stay unique. *)
Theorem stage_scripts_keep_the_records
  (fetch : string -> response string)
  (llm : string -> response Summarize.completion)
  (zclock : Z -> string) (nclock : nat -> string)
  (batch status : string) (output : option (list batch_result))
  (l : list batch_result) (t : table) :
  same_records t (fst (Scrape.scrape_articles fetch zclock t))
  /\ same_records t (fst (Summarize.summarize_articles llm zclock t))
  /\ same_records t (SummarizeBatch.summarize_batch_submit batch t)
  /\ same_records t
       (SummarizeBatch.summarize_batch_process nclock status output t)
  /\ same_records t (Filter.mark_submitted batch t)
  /\ same_records t (Filter.process_results l t)
  /\ same_records t (Filter.check_cultural_filter_batch status output t)
  /\ (forall t' : table,
        same_records t t' ->
        urls t' = urls t /\ ids t' = ids t
        /\ length (rows t') = length (rows t)
        /\ (List.NoDup (urls t) -> List.NoDup (urls t'))).
Proof.
  split; [apply scrape_keeps |].
  split; [apply summarize_keeps |].
  split; [apply submit_keeps |].
  split; [apply batch_process_keeps |].
  split; [apply filter_mark_keeps |].
  split; [apply filter_process_keeps |].
  split; [apply filter_check_keeps |].
  intros t' H. destruct (same_records_urls t t' H) as [Hu Hi].
  split; [exact Hu |]. split; [exact Hi |]. split.
  - destruct H as [H _]. apply (f_equal (@length _)) in H.
    rewrite !length_map in H. exact H.
  - rewrite Hu. auto.
Qed.

(** ** Outputs that no later stage picks up *)

Lemma sql_length_le_len (s : string) : Str.sql_length s <= Str.len s.
Proof.
  unfold Str.sql_length, Str.len. apply Nat2Z.inj_le.
  induction s as [| c s IH]; simpl; [lia |].
  destruct (Ascii.eqb c Ascii.zero); lia.
Qed.

Lemma in_map_fixed {A} (f : A -> A) (l : list A) (a : A) :
  In a l -> f a = a -> In a (map f l).
Proof. intros Ha E. rewrite <- E. apply in_map, Ha. Qed.

(** X13. A scraped text of 101 to 200 characters is stored with status
    ['success'], and from then on neither the scraper nor the summarizer
    selects the row: every later run of either leaves it as it is, and
    it never gets a summary. *)
Theorem short_texts_are_never_summarised
  (fetch : string -> response string) (clock : Z -> string)
  (t : table) (a : article) (s : string) :
  List.NoDup (ids t) ->
  In a (rows t) ->
  Scrape.pending a = true ->
  fetch (url a) = Returned s ->
  100 < Str.len s <= 200 ->
  let a' := set_scrape_status (Some "success")
              (set_scraped_at (Some (clock (article_id a)))
                 (set_text (Some s) a)) in
  let t' := fst (Scrape.scrape_articles fetch clock t) in
  In a' (rows t')
  /\ ~ In a' (pending_set Scraping t')
  /\ ~ In a' (pending_set Summarization t')
  /\ (forall (fetch' : string -> response string) (clock' : Z -> string),
        In a' (rows (fst (Scrape.scrape_articles fetch' clock' t'))))
  /\ (forall (llm : string -> response Summarize.completion)
        (clock' : Z -> string),
        In a' (rows (fst (Summarize.summarize_articles llm clock' t')))).
Proof.
  intros Hnd Ha Hp Hf Hlen a' t'.
  assert (Hsub : Scrape.substantial s = true).
  { unfold Scrape.substantial. apply andb_true_iff. split.
    - destruct s; [unfold Str.len in Hlen; simpl in Hlen; lia | reflexivity].
    - apply Z.gtb_lt. lia. }
  assert (Hne : s <> "") by (apply substantial_not_empty, Hsub).
  assert (Hin : In a' (rows t')).
  { unfold t'. rewrite (scrape_articles_rows fetch clock t Hnd).
    apply in_map_iff. exists a. split; [| exact Ha].
    unfold ScrapeFacts.run_effect, ScrapeFacts.row_effect.
    rewrite Hp, Hf, Hsub. reflexivity. }
  assert (Hps : Scrape.pending a' = false)
    by (apply (not_pending_when_text s); [exact Hne | reflexivity]).
  assert (Hpm : Summarize.pending a' = false).
  { unfold Summarize.pending. cbn [a' text set_scrape_status set_scraped_at
                                    set_text summary].
    pose proof (sql_length_le_len s).
    destruct (Z.gtb_spec (Str.sql_length s) 200) as [H1 | H1]; [lia |].
    rewrite andb_false_r. reflexivity. }
  assert (Hnd' : List.NoDup (ids t')).
  { destruct (same_records_urls t t' (scrape_keeps fetch clock t))
      as [_ E]. rewrite E. exact Hnd. }
  split; [exact Hin |]. split; [| split; [| split]].
  - intros H. apply filter_In in H as [_ H]. congruence.
  - intros H. apply filter_In in H as [_ H]. congruence.
  - intros fetch' clock'.
    rewrite (scrape_articles_rows fetch' clock' t' Hnd').
    apply in_map_fixed; [exact Hin |].
    unfold ScrapeFacts.run_effect. rewrite Hps. reflexivity.
  - intros llm clock'.
    rewrite (summarize_articles_rows llm clock' t' Hnd').
    apply in_map_fixed; [exact Hin |].
    unfold SummarizeFacts.run_effect. rewrite Hpm. reflexivity.
Qed.

Lemma short_texts_are_never_summarised_witness :
  ~ In (set_scrape_status (Some "success")
          (set_scraped_at (Some "2025-06-01")
             (set_text (Some (Sample.repeat_char 150 "x"))
                (Sample.row 1 "http://a" None None))))
       (pending_set Summarization
          (fst (Scrape.scrape_articles
                  (fun _ => Returned (Sample.repeat_char 150 "x"))
                  (fun _ => "2025-06-01") Sample.imported))).
Proof.
  refine (proj1 (proj2 (proj2
    (short_texts_are_never_summarised
       (fun _ => Returned (Sample.repeat_char 150 "x"))
       (fun _ => "2025-06-01") Sample.imported
       (Sample.row 1 "http://a" None None) (Sample.repeat_char 150 "x")
       _ _ _ _ _)))).
  - distinct_ids.
  - left. reflexivity.
  - reflexivity.
  - reflexivity.
  - vm_compute. split; [reflexivity | discriminate].
Defined.

(** X14. A summary of 1 to 50 characters is stored with status
    ['success'], and from then on the row is selected by no script:
    not by the summarizer, whose later runs leave it as it is, not by
    the relevance filter and not by the topic model. *)
Theorem short_summaries_are_never_filtered
  (llm : string -> response Summarize.completion) (clock : Z -> string)
  (t : table) (a : article) (x : string) (used : Z) :
  List.NoDup (ids t) ->
  In a (rows t) ->
  Summarize.pending a = true ->
  llm (Summarize.prompt_of a)
  = Returned (Summarize.mkCompletion (Some x) used) ->
  x <> "" ->
  Str.sql_length x <= 50 ->
  let a' := set_summary_status (Some "success")
              (set_summarized_at (Some (clock (article_id a)))
                 (set_summary (Some x) a)) in
  let t' := fst (Summarize.summarize_articles llm clock t) in
  In a' (rows t')
  /\ ~ In a' (pending_set Summarization t')
  /\ ~ In a' (pending_set RelevanceFiltering t')
  /\ TopicModeling.selected a' = false
  /\ (forall (llm' : string -> response Summarize.completion)
        (clock' : Z -> string),
        In a' (rows (fst (Summarize.summarize_articles llm' clock' t')))).
Proof.
  intros Hnd Ha Hp Hl Hne Hlen a' t'.
  assert (Hin : In a' (rows t')).
  { unfold t'. rewrite (summarize_articles_rows llm clock t Hnd).
    apply in_map_iff. exists a. split; [| exact Ha].
    unfold SummarizeFacts.run_effect, SummarizeFacts.row_effect.
    rewrite Hp, Hl. reflexivity. }
  assert (Hpm : Summarize.pending a' = false)
    by (apply (not_pending_when_summary x); [exact Hne | reflexivity]).
  assert (Hshort : (Str.sql_length x >? 50) = false).
  { destruct (Z.gtb_spec (Str.sql_length x) 50); [lia | reflexivity]. }
  assert (Hpf : Filter.pending a' = false).
  { unfold Filter.pending.
    cbn [a' summary set_summary_status set_summarized_at set_summary].
    destruct (cultural_relevant _); [reflexivity |].
    rewrite Hshort. apply andb_false_r. }
  assert (Hnd' : List.NoDup (ids t')).
  { destruct (same_records_urls t t' (summarize_keeps llm clock t))
      as [_ E]. rewrite E. exact Hnd. }
  split; [exact Hin |]. split; [| split; [| split]].
  - intros H. apply filter_In in H as [_ H]. congruence.
  - intros H. apply filter_In in H as [_ H]. congruence.
  - unfold TopicModeling.selected.
    cbn [a' summary set_summary_status set_summarized_at set_summary].
    rewrite Hshort, andb_false_r. reflexivity.
  - intros llm' clock'.
    rewrite (summarize_articles_rows llm' clock' t' Hnd').
    apply in_map_fixed; [exact Hin |].
    unfold SummarizeFacts.run_effect. rewrite Hpm. reflexivity.
Qed.

Lemma short_summaries_are_never_filtered_witness :
  TopicModeling.selected
    (set_summary_status (Some "success")
       (set_summarized_at (Some "2025-06-01")
          (set_summary (Some "Not about discoverability.")
             (Sample.row 1 "http://a" (Some Sample.long_text) None))))
  = false.
Proof.
  refine (proj1 (proj2 (proj2 (proj2
    (short_summaries_are_never_filtered
       (fun _ => Returned
                   (Summarize.mkCompletion
                      (Some "Not about discoverability.") 40))
       (fun _ => "2025-06-01") Sample.scraped
       (Sample.row 1 "http://a" (Some Sample.long_text) None)
       "Not about discoverability." 40 _ _ _ _ _ _))))).
  - distinct_ids.
  - left. reflexivity.
  - reflexivity.
  - reflexivity.
  - discriminate.
  - vm_compute. discriminate.
Defined.

(** ** The relevance filter and the topic model *)

Lemma selected_spec (a : article) :
  TopicModeling.selected a = true
  <-> prerequisites RelevanceFiltering a
      /\ (cultural_relevant a = None \/ cultural_relevant a = Some 1).
Proof.
  unfold TopicModeling.selected. simpl. destruct (summary a) as [s |].
  - rewrite andb_true_iff, long_enough_spec. split.
    + intros [[H1 H2] H3]. split; [exists s; auto |].
      destruct (cultural_relevant a) as [v |]; [| auto].
      apply Z.eqb_eq in H3. subst v. auto.
    + intros [(s' & E & H1 & H2) H3]. injection E as <-.
      split; [auto |]. destruct H3 as [-> | ->]; reflexivity.
  - split; [discriminate |]. intros [(s' & E & _) _]. discriminate.
Qed.

Lemma process_one_line (r : batch_result) (t : table) (a : article)
  (v : Z) :
  match error r, content r with
  | Some _, _ => v = 1
  | None, Some s => v = Filter.is_relevant s
  | None, None => False
  end ->
  In a (rows t) ->
  article_id a = custom_id r ->
  In (set_cultural_relevant (Some v) a) (rows (Filter.process_results [r] t)).
Proof.
  intros Hv Ha Hid.
  assert (Hr : FilterFacts.readable [r] = true).
  { simpl. destruct (error r), (content r); try reflexivity. contradiction. }
  rewrite (process_results_rows [r] t Hr). apply in_map_iff.
  exists a. split; [| exact Ha].
  unfold FilterFacts.rows_effect. cbn [fold_left].
  unfold FilterFacts.row_effect, on_id, has_id.
  rewrite Hid, Z.eqb_refl.
  destruct (error r), (content r); try contradiction; subst v; reflexivity.
Qed.

(** X15. The topic model takes every row that has a summary of more
    than 50 characters and was not decided 0: a row that waits for the
    relevance filter is taken as it is; after a line of the bundle
    with an error it is still taken, and after a line with an answer it
    is taken exactly when ['YES'] occurs in the answer. *)
Theorem topic_model_takes_undecided_rows
  (t : table) (r : batch_result) (a : article) :
  In a (rows t) ->
  Filter.pending a = true ->
  article_id a = custom_id r ->
  TopicModeling.selected a = true
  /\ (forall b : article,
        TopicModeling.selected b = true
        <-> prerequisites RelevanceFiltering b
            /\ (cultural_relevant b = None \/ cultural_relevant b = Some 1))
  /\ (forall e : string,
        error r = Some e ->
        In (set_cultural_relevant (Some 1) a)
          (rows (Filter.process_results [r] t))
        /\ TopicModeling.selected (set_cultural_relevant (Some 1) a) = true)
  /\ (forall s : string,
        error r = None -> content r = Some s ->
        In (set_cultural_relevant (Some (Filter.is_relevant s)) a)
          (rows (Filter.process_results [r] t))
        /\ (TopicModeling.selected
              (set_cultural_relevant (Some (Filter.is_relevant s)) a) = true
            <-> occurs_in "YES" (Str.upper (Str.strip s)))).
Proof.
  intros Ha Hp Hid.
  apply filter_pending_spec in Hp as [Hout Hpre]. simpl in Hout.
  assert (Hsel : forall v, TopicModeling.selected
                             (set_cultural_relevant (Some v) a) = true
                           <-> v = 1).
  { intros v. rewrite selected_spec. simpl. split.
    - intros [_ [H | H]]; [discriminate | injection H as ->; reflexivity].
    - intros ->. split; [exact Hpre | right; reflexivity]. }
  split; [apply selected_spec; auto |].
  split; [exact selected_spec |]. split.
  - intros e He. split.
    + apply process_one_line; [rewrite He; reflexivity | exact Ha | exact Hid].
    + apply Hsel. reflexivity.
  - intros s He Hc. split.
    + apply process_one_line; [rewrite He, Hc; reflexivity | exact Ha
                               | exact Hid].
    + rewrite Hsel. apply is_relevant_iff.
Qed.

Lemma topic_model_takes_undecided_rows_witness :
  TopicModeling.selected
    (Sample.row 1 "http://a" (Some Sample.long_text)
       (Some Sample.fair_summary)) = true.
Proof.
  refine (proj1
    (topic_model_takes_undecided_rows Sample.summarised
       (Sample.failure 1 "server_error")
       (Sample.row 1 "http://a" (Some Sample.long_text)
          (Some Sample.fair_summary)) _ _ _)).
  - left. reflexivity.
  - reflexivity.
  - reflexivity.
Defined.

(** ** The tally of the summarizer *)

Section SummarizerTally.

Variable llm : string -> response Summarize.completion.
Variable clock : Z -> string.

Lemma summarize_loop_tally (l : list article) (c : connection)
  (st : Summarize.stats) :
  let st' := snd (Summarize.summarize_loop llm clock l (c, st)) in
  Summarize.success st'
  = (Summarize.success st
     + length (List.filter (SummarizeTally.returned llm) l))%nat
  /\ Summarize.failed st'
     = (Summarize.failed st
        + length (List.filter
                    (fun a => negb (SummarizeTally.returned llm a)) l)
        + length (List.filter (SummarizeTally.null_content llm) l))%nat
  /\ Summarize.skipped st' = Summarize.skipped st
  /\ Summarize.tokens_used st'
     = Summarize.tokens_used st
       + fold_right Z.add 0 (map (SummarizeTally.tokens llm) l).
Proof.
  cbv zeta. unfold Summarize.summarize_loop. revert c st.
  induction l as [| a l IH]; intros c st.
  - simpl. repeat split; lia.
  - cbn [fold_left List.filter map fold_right].
    destruct (Summarize.body llm clock a (c, st)) as [c1 st1] eqn:E.
    destruct (IH c1 st1) as (H1 & H2 & H3 & H4).
    rewrite H1, H2, H3, H4. clear IH H1 H2 H3 H4.
    unfold Summarize.body in E.
    unfold SummarizeTally.returned, SummarizeTally.null_content,
      SummarizeTally.tokens.
    destruct (llm (Summarize.prompt_of a)) as [r | msg].
    + destruct (Summarize.content r); injection E as _ <-; simpl;
        repeat split; lia.
    + injection E as _ <-. simpl. repeat split; lia.
Qed.

End SummarizerTally.

(** X16. At the end of summarize_articles.py [success] counts the
    selected articles whose call returned, [failed] those whose call
    raised and, once more, those whose call returned a null content
    (counted on both sides), [skipped] stays 0 and [tokens_used] is the
    sum of the tokens of the calls that returned. *)
Theorem summarizer_statistics
  (llm : string -> response Summarize.completion) (clock : Z -> string)
  (t : table) :
  let sel := Summarize.articles_to_summarize t in
  let st := snd (Summarize.summarize_articles llm clock t) in
  Summarize.success st
  = length (List.filter (SummarizeTally.returned llm) sel)
  /\ Summarize.failed st
     = (length (List.filter
                  (fun a => negb (SummarizeTally.returned llm a)) sel)
        + length (List.filter (SummarizeTally.null_content llm) sel))%nat
  /\ Summarize.skipped st = O
  /\ Summarize.tokens_used st
     = fold_right Z.add 0 (map (SummarizeTally.tokens llm) sel)
  /\ (Summarize.success st + Summarize.failed st
      = length sel
        + length (List.filter (SummarizeTally.null_content llm) sel))%nat.
Proof.
  intros sel st.
  destruct (summarize_loop_tally llm clock sel (connect t)
              (Summarize.mkStats 0 0 0 0)) as (H1 & H2 & H3 & H4).
  assert (Est : snd (Summarize.summarize_loop llm clock sel
                       (connect t, Summarize.mkStats 0 0 0 0)) = st)
    by reflexivity.
  rewrite Est in H1, H2, H3, H4. simpl in H1, H2, H3, H4.
  split; [exact H1 |]. split; [exact H2 |]. split; [exact H3 |].
  split; [exact H4 |]. rewrite H1, H2.
  assert (E : forall (p : article -> bool) (l : list article),
             (length (List.filter p l)
              + length (List.filter (fun a => negb (p a)) l)
              = length l)%nat).
  { intros p l. induction l as [| a l IH]; simpl; [reflexivity |].
    destruct (p a); simpl; lia. }
  pose proof (E (SummarizeTally.returned llm) sel). lia.
Qed.

(** ** Submitting and completing the relevance filter *)

Section FilterSubmission.

Lemma filter_nothing {A} (p : A -> bool) (l : list A) :
  (forall a, In a l -> p a = false) -> List.filter p l = [].
Proof.
  induction l as [| a l IH]; intros H; simpl; [reflexivity |].
  rewrite (H a (or_introl eq_refl)). apply IH.
  intros x Hx. apply H. right. exact Hx.
Qed.

End FilterSubmission.

(** X17. filter_cultural_articles.py leaves with [exit(0)], writing
    nothing, when no row is selected.  Otherwise it writes one request
    for each selected row and marks exactly those rows with the batch
    id; the mark takes no row out of the selection, so that a second
    run before the results are processed submits the same requests
    again. *)
Theorem filter_submission_marks_the_selection (batch : string) (t : table) :
  List.NoDup (ids t) ->
  (Filter.articles t = [] -> FilterSubmit.submit batch t = None)
  /\ (Filter.articles t <> [] ->
      exists (reqs : list request) (t' : table),
        FilterSubmit.submit batch t = Some (reqs, t')
        /\ reqs = map FilterSubmit.request_of (Filter.articles t)
        /\ rows t'
           = map (fun a => if Filter.pending a
                           then set_filter_batch_id (Some batch) a else a)
               (rows t)
        /\ Filter.articles t'
           = map (set_filter_batch_id (Some batch)) (Filter.articles t)
        /\ (forall batch' : string,
              exists t'' : table,
                FilterSubmit.submit batch' t' = Some (reqs, t''))).
Proof.
  intros Hnd. split.
  - intros E. unfold FilterSubmit.submit. rewrite E. reflexivity.
  - intros Hne.
    set (mark := fun a => if Filter.pending a
                          then set_filter_batch_id (Some batch) a else a).
    assert (Hm : forall a, Filter.pending (mark a) = Filter.pending a).
    { intros a. unfold mark. destruct (Filter.pending a) eqn:E; exact E. }
    assert (Hsel : Filter.articles (Filter.mark_submitted batch t)
                   = map (set_filter_batch_id (Some batch))
                       (Filter.articles t)).
    { unfold Filter.articles at 1. unfold select_where.
      rewrite (filter_mark_rows batch t Hnd).
      rewrite (filter_map_same _ _ _ Hm).
      unfold Filter.articles, select_where.
      apply map_ext_in. intros a Ha. apply filter_In in Ha as [_ Hp].
      unfold mark. rewrite Hp. reflexivity. }
    exists (map FilterSubmit.request_of (Filter.articles t)),
      (Filter.mark_submitted batch t).
    split.
    { unfold FilterSubmit.submit.
      destruct (Filter.articles t); [contradiction | reflexivity]. }
    split; [reflexivity |].
    split; [apply filter_mark_rows, Hnd |].
    split; [exact Hsel |].
    intros batch'. eexists. unfold FilterSubmit.submit. rewrite Hsel.
    destruct (Filter.articles t) as [| a l]; [contradiction |].
    cbn [map]. rewrite map_map. reflexivity.
Qed.

Lemma filter_submission_marks_the_selection_witness :
  FilterSubmit.submit "batch_1"
    (Filter.process_results
       [Sample.answer 1 "NO"; Sample.answer 2 "YES"] Sample.summarised)
  = None.
Proof.
  refine (proj1
    (filter_submission_marks_the_selection "batch_1"
       (Filter.process_results
          [Sample.answer 1 "NO"; Sample.answer 2 "YES"] Sample.summarised)
       _) _).
  - distinct_ids.
  - reflexivity.
Defined.

(** X18. When the bundle of a completed batch has a line for every
    selected row (each line without error carrying a text), processing
    it leaves no row selected by the relevance filter, and the next run
    of filter_cultural_articles.py finds nothing to filter. *)
Theorem complete_bundle_empties_the_selection
  (l : list batch_result) (t : table) (batch : string) :
  FilterFacts.readable l = true ->
  (forall a, In a (Filter.articles t) -> In (article_id a) (map custom_id l)) ->
  Filter.articles (Filter.process_results l t) = []
  /\ FilterSubmit.submit batch (Filter.process_results l t) = None
  /\ (forall a, In a (rows (Filter.process_results l t)) ->
                In (article_id a) (map custom_id l) ->
                decided a).
Proof.
  intros Hr Hall.
  assert (Hrows := process_results_rows l t Hr).
  assert (E : Filter.articles (Filter.process_results l t) = []).
  { unfold Filter.articles, select_where. rewrite Hrows.
    apply filter_nothing. intros a' Ha'.
    apply in_map_iff in Ha' as (a & <- & Ha).
    destruct (Filter.pending a) eqn:Hp.
    - apply not_pending_when_decided, rows_effect_covers; [exact Hr |].
      apply Hall. apply filter_In. split; assumption.
    - destruct (in_dec Z.eq_dec (article_id a) (map custom_id l))
        as [Hin | Hout].
      + apply not_pending_when_decided, rows_effect_covers; assumption.
      + rewrite (rows_effect_untouched l a Hout). exact Hp. }
  split; [exact E |]. split.
  - unfold FilterSubmit.submit. rewrite E. reflexivity.
  - intros a Ha Hid. rewrite Hrows in Ha.
    apply in_map_iff in Ha as (a0 & <- & _).
    apply rows_effect_covers; [exact Hr |].
    rewrite rows_effect_id in Hid. exact Hid.
Qed.

Lemma complete_bundle_empties_the_selection_witness :
  Filter.articles
    (Filter.process_results
       [Sample.answer 1 "NO"; Sample.failure 2 "server_error"]
       Sample.summarised) = [].
Proof.
  refine (proj1
    (complete_bundle_empties_the_selection
       [Sample.answer 1 "NO"; Sample.failure 2 "server_error"]
       Sample.summarised "batch_1" _ _)).
  - reflexivity.
  - intros a Ha. vm_compute in Ha.
    destruct Ha as [<- | [<- | []]]; simpl; auto.
Defined.

(** ** The batches of the embedding step *)

Section EmbeddingBatches.

Import TopicModeling.

Context {A : Type}.

Lemma chunks_concat (m : nat) (docs : list A) :
  (length docs <= m * batch_size)%nat ->
  concat (map (fun k => firstn batch_size (skipn (k * batch_size) docs))
            (List.seq 0 m)) = docs.
Proof.
  revert docs. induction m as [| m IH]; intros docs Hlen.
  - destruct docs; [reflexivity | simpl in Hlen; lia].
  - rewrite <- cons_seq, <- seq_shift, map_cons, map_map. cbn [concat].
    rewrite Nat.mul_0_l. cbn [skipn].
    transitivity (firstn batch_size docs ++ skipn batch_size docs)%list;
      [| apply firstn_skipn].
    f_equal.
    transitivity
      (concat (map (fun k => firstn batch_size
                               (skipn (k * batch_size)
                                  (skipn batch_size docs)))
                 (List.seq 0 m))).
    + f_equal. apply map_ext. intros k.
      rewrite skipn_skipn. f_equal. f_equal. lia.
    + apply IH. rewrite length_skipn. lia.
Qed.

Lemma batches_unfold (docs : list A) :
  batches docs
  = map (fun k => firstn batch_size (skipn (k * batch_size) docs))
      (List.seq 0 ((length docs + batch_size - 1) / batch_size)).
Proof. unfold batches, range_step. rewrite map_map. reflexivity. Qed.

Lemma batches_count_bound (docs : list A) :
  (length docs
   <= (length docs + batch_size - 1) / batch_size * batch_size)%nat.
Proof.
  unfold batch_size.
  pose proof (Nat.div_mod_eq (length docs + 128 - 1) 128).
  pose proof (Nat.mod_upper_bound (length docs + 128 - 1) 128). lia.
Qed.

Lemma batches_concat (docs : list A) : concat (batches docs) = docs.
Proof.
  rewrite batches_unfold. apply chunks_concat, batches_count_bound.
Qed.

Lemma batches_sizes (docs : list A) :
  Forall (fun b => (1 <= length b <= batch_size)%nat) (batches docs).
Proof.
  rewrite batches_unfold. apply List.Forall_forall. intros b Hb.
  apply in_map_iff in Hb as (k & <- & Hk). apply in_seq in Hk.
  rewrite length_firstn, length_skipn.
  unfold batch_size in *.
  assert (k * 128 < length docs)%nat; [| lia].
  pose proof (Nat.Div0.mul_div_le (length docs + 128 - 1) 128). lia.
Qed.

Lemma batches_count (docs : list A) :
  Z.of_nat (length (batches docs)) = printed_total docs.
Proof.
  rewrite batches_unfold, length_map, length_seq.
  unfold printed_total, batch_size.
  rewrite Nat2Z.inj_div.
  replace (Z.of_nat (length docs + 128 - 1))
    with (Z.of_nat (length docs) - 1 + 1 * Z.of_nat 128) by lia.
  rewrite Z.div_add by lia. reflexivity.
Qed.

End EmbeddingBatches.

(** X19. The embedding step of run_topic_modeling.py cuts the documents
    into batches that, put end to end, are the documents in their
    order; every batch has between 1 and 128 documents; there are as
    many batches as the total printed with each of them; and when the
    service returns one embedding for each text of a batch, there are as
    many embeddings as documents, in the order of the documents. *)
Theorem embedding_batches_cover_the_documents {A B : Type}
  (embed : list A -> list B) (documents : list A) :
  concat (TopicModeling.batches documents) = documents
  /\ Forall (fun b => (1 <= length b <= 128)%nat)
       (TopicModeling.batches documents)
  /\ Z.of_nat (length (TopicModeling.batches documents))
     = TopicModeling.printed_total documents
  /\ ((forall b, length (embed b) = length b) ->
      length (TopicModeling.all_embeddings embed documents)
      = length documents)
  /\ (forall f : A -> B,
        (forall b, embed b = map f b) ->
        TopicModeling.all_embeddings embed documents = map f documents).
Proof.
  split; [apply batches_concat |].
  split; [apply batches_sizes |].
  split; [apply batches_count |].
  assert (Hmap : forall f : A -> B,
             (forall b, embed b = map f b) ->
             TopicModeling.all_embeddings embed documents = map f documents).
  { intros f Hf. unfold TopicModeling.all_embeddings.
    rewrite (map_ext _ _ Hf), <- concat_map, batches_concat. reflexivity. }
  split; [| exact Hmap].
  intros Hlen. unfold TopicModeling.all_embeddings.
  rewrite <- (batches_concat documents) at 2.
  induction (TopicModeling.batches documents) as [| b l IH];
    [reflexivity |].
  cbn [map concat]. rewrite !length_app, Hlen, IH. reflexivity.
Qed.

(** ** The articles of each topic *)

Section TopicGroups.

Import TopicDescriptions.

Let group (k : Z) (l : list topic_article) : list topic_article :=
  List.filter (fun a => ta_topic a =? k) l.

Let grouped (d : gmap Z (list topic_article)) (p : list topic_article)
  : Prop :=
  forall k, d !! k = match group k p with [] => None | l => Some l end.

Lemma add_article_grouped (d : gmap Z (list topic_article))
  (p : list topic_article) (a : topic_article) :
  grouped d p -> grouped (add_article d a) (p ++ [a]).
Proof.
  intros H k. unfold add_article, group. rewrite List.filter_app.
  cbn [List.filter]. destruct (Z.eqb_spec (ta_topic a) k) as [E | N].
  - subst k. rewrite lookup_insert_eq, (H (ta_topic a)). unfold group.
    destruct (List.filter _ p) as [| x l]; reflexivity.
  - rewrite lookup_insert_ne by exact N. rewrite app_nil_r. apply H.
Qed.

Lemma fold_grouped (l p : list topic_article)
  (d : gmap Z (list topic_article)) :
  grouped d p -> grouped (fold_left add_article l d) (p ++ l).
Proof.
  revert p d. induction l as [| a l IH]; intros p d H.
  - rewrite app_nil_r. exact H.
  - cbn [fold_left].
    replace (p ++ a :: l)%list with ((p ++ [a]) ++ l)%list
      by (rewrite <- app_assoc; reflexivity).
    apply IH, add_article_grouped, H.
Qed.

Lemma articles_by_topic_lookup (articles : list topic_article) (k : Z) :
  articles_by_topic articles !! k
  = match List.filter (fun a => ta_topic a =? k) articles with
    | [] => None
    | l => Some l
    end.
Proof.
  unfold articles_by_topic.
  apply (fold_grouped articles [] ∅). intros k'. apply lookup_empty.
Qed.

End TopicGroups.

(** X20. generate_topic_descriptions.py files every loaded article
    under its topic, once and in the order of the query: a topic has an
    entry exactly when an article has it, the entry is the list of its
    articles and is never empty, so that the sample taken for a topic
    that is not skipped has between 1 and 30 articles and no more than
    the topic has. *)
Theorem articles_are_grouped_by_topic
  (articles : list TopicDescriptions.topic_article) (k : Z) :
  let d := TopicDescriptions.articles_by_topic articles in
  (d !! k = None
   <-> forall a, In a articles -> TopicDescriptions.ta_topic a <> k)
  /\ (forall l, d !! k = Some l ->
                l = List.filter
                      (fun a => TopicDescriptions.ta_topic a =? k) articles
                /\ l <> [])
  /\ (forall a, In a articles ->
                exists l, d !! TopicDescriptions.ta_topic a = Some l
                          /\ In a l)
  /\ (forall n, TopicDescriptions.sample_size articles k = Some n ->
                (1 <= n <= 30)%nat
                /\ (n <= length
                           (List.filter
                              (fun a =>
                                 (TopicDescriptions.ta_topic a =? k)%Z)
                              articles))%nat).
Proof.
  intros d.
  assert (Hd : forall k', d !! k'
                 = match List.filter
                           (fun a => TopicDescriptions.ta_topic a =? k')
                           articles with
                   | [] => None
                   | l => Some l
                   end)
    by (intros k'; apply articles_by_topic_lookup).
  split; [| split; [| split]].
  - rewrite Hd. split.
    + intros H a Ha E.
      assert (Hin : In a (List.filter
                            (fun a => TopicDescriptions.ta_topic a =? k)
                            articles))
        by (apply filter_In; split; [exact Ha | apply Z.eqb_eq, E]).
      destruct (List.filter _ articles); [exact Hin | discriminate].
    + intros H.
      destruct (List.filter _ articles) as [| a l] eqn:E; [reflexivity |].
      assert (Hin : In a (a :: l)) by (left; reflexivity).
      rewrite <- E in Hin. apply filter_In in Hin as [Ha Hk].
      apply Z.eqb_eq in Hk. destruct (H a Ha Hk).
  - intros l. rewrite Hd.
    destruct (List.filter _ articles) as [| a l0]; [discriminate |].
    intros H. injection H as <-. split; [reflexivity | discriminate].
  - intros a Ha. rewrite Hd.
    assert (Hin : In a (List.filter
                          (fun b => TopicDescriptions.ta_topic b
                                    =? TopicDescriptions.ta_topic a)
                          articles))
      by (apply filter_In; split; [exact Ha | apply Z.eqb_refl]).
    destruct (List.filter _ articles) as [| x l]; [destruct Hin |].
    eexists. split; [reflexivity | exact Hin].
  - intros n. unfold TopicDescriptions.sample_size. fold d. rewrite Hd.
    destruct (List.filter _ articles) as [| a l]; [discriminate |].
    intros H.
    assert (E : n = Nat.min 30 (length (a :: l))) by congruence.
    assert (Hl : (1 <= length (a :: l))%nat) by (cbn [length]; lia).
    clear H. revert E Hl. generalize (length (a :: l)). intros m -> Hm.
    lia.
Qed.

(** ** The search importer *)

Section SearchRuns.

Import SearchResults.

Lemma filter_some_app (l1 l2 : list (option string)) :
  List.filter (fun l => match l with Some _ => true | None => false end)
    (l1 ++ l2)
  = (List.filter (fun l => match l with Some _ => true | None => false end) l1
     ++ List.filter (fun l => match l with Some _ => true | None => false end)
          l2)%list.
Proof. apply List.filter_app. Qed.

Lemma insert_done (ti li so da sn q ty : string) (t t' : results) :
  insert ti li so da sn q ty t = Some t' ->
  result_rows t'
  = (result_rows t
     ++ [mkRow (result_seq t + 1) (Some ti) (Some li) (Some so) (Some da)
           (Some sn) (Some q) (Some ty)])%list
  /\ result_seq t' = result_seq t + 1
  /\ (unique_links t -> unique_links t').
Proof.
  unfold insert. case_bool_decide as Hin; [discriminate |].
  intros H. injection H as <-. cbn [result_rows result_seq].
  split; [reflexivity |]. split; [reflexivity |].
  unfold unique_links, links. cbn [result_rows].
  rewrite map_app, filter_some_app. cbn [map List.filter link].
  intros Hnd. apply NoDup_snoc; [exact Hnd |].
  intros H. apply filter_In in H as [H _].
  apply Hin, list_elem_of_In, H.
Qed.

Lemma insert_refused (ti li so da sn q ty : string) (t : results) :
  insert ti li so da sn q ty t = None <-> In (Some li) (links t).
Proof.
  unfold insert. case_bool_decide as Hin.
  - split; [intros _; apply list_elem_of_In, Hin | reflexivity].
  - split; [discriminate |]. intros H. destruct Hin.
    apply list_elem_of_In, H.
Qed.

Variable q ty : string.

Lemma advances_refl (st : results * counts) : advances q ty st st.
Proof.
  split; [| auto]. exists []. rewrite app_nil_r. simpl.
  split; [reflexivity |]. split; [constructor | lia].
Qed.

Lemma advances_trans (s1 s2 s3 : results * counts) :
  advances q ty s1 s2 -> advances q ty s2 s3 -> advances q ty s1 s3.
Proof.
  intros ((m1 & R1 & F1 & N1) & U1 & D1 & P1)
         ((m2 & R2 & F2 & N2) & U2 & D2 & P2).
  split; [| split; [auto | split; lia]].
  exists (m1 ++ m2)%list. rewrite R2, R1, app_assoc.
  split; [reflexivity |]. split; [apply Forall_app; auto |].
  rewrite length_app. lia.
Qed.

Variable parser_parse : string -> option GoogleSearchDates.datetime.
Variable isoformat : GoogleSearchDates.datetime -> string.
Variable api : Z -> response page.
Variable now : Z -> nat -> GoogleSearchDates.datetime.

Let save := save parser_parse isoformat now q ty.
Let save_all := save_all parser_parse isoformat now q ty.
Let pages := pages parser_parse isoformat api now q ty.

Lemma save_advances (start : Z) (i : nat) (it : item)
  (st : results * counts) :
  advances q ty st (state_of (save start i it st))
  /\ (is_completed (save start i it st) = true ->
      (new_count (snd (state_of (save start i it st)))
       + duplicate_count (snd (state_of (save start i it st)))
       = S (new_count (snd st) + duplicate_count (snd st)))%nat)
  /\ total_pages_fetched (snd (state_of (save start i it st)))
     = total_pages_fetched (snd st).
Proof.
  unfold save, SearchResults.save.
  destruct (GoogleSearchDates.date_to_store _ _ _ _) as [d | e].
  - destruct (insert _ _ _ _ _ _ _ (fst st)) as [t' |] eqn:E.
    + destruct (insert_done _ _ _ _ _ _ _ _ _ E) as (R & _ & U).
      cbn [state_of fst snd is_completed new_count duplicate_count
           total_pages_fetched].
      split; [| split; [intros _; lia | reflexivity]].
      split; [| split; [exact U | split; cbn; lia]].
      eexists. split; [exact R |]. split.
      * constructor; [| constructor]. repeat split. discriminate.
      * cbn. lia.
    + cbn [state_of fst snd is_completed new_count duplicate_count
           total_pages_fetched].
      split; [| split; [intros _; lia | reflexivity]].
      split; [| split; [auto | split; cbn; lia]].
      exists []. rewrite app_nil_r. cbn.
      split; [reflexivity |]. split; [constructor | lia].
  - cbn [state_of is_completed].
    split; [apply advances_refl |]. split; [discriminate | reflexivity].
Qed.

Lemma save_all_advances (start : Z) (l : list item) (i : nat)
  (st : results * counts) :
  advances q ty st (state_of (save_all start i l st))
  /\ (is_completed (save_all start i l st) = true ->
      (new_count (snd (state_of (save_all start i l st)))
       + duplicate_count (snd (state_of (save_all start i l st)))
       = new_count (snd st) + duplicate_count (snd st) + length l)%nat)
  /\ total_pages_fetched (snd (state_of (save_all start i l st)))
     = total_pages_fetched (snd st).
Proof.
  revert i st. induction l as [| it l IH]; intros i st.
  - cbn. split; [apply advances_refl |]. split; [intros _; lia | reflexivity].
  - unfold save_all. cbn [SearchResults.save_all].
    fold (save start i it st).
    destruct (save_advances start i it st) as (A1 & C1 & P1).
    destruct (save start i it st) as [st1 | e st1];
      cbn [state_of is_completed] in *.
    + fold (save_all start (S i) l st1).
      destruct (IH (S i) st1) as (A2 & C2 & P2).
      split; [eapply advances_trans; eassumption |].
      split; [| rewrite P2; exact P1].
      intros H. rewrite (C2 H), (C1 eq_refl). cbn [length]. lia.
    + split; [exact A1 |]. split; [discriminate | exact P1].
Qed.

Lemma pages_advances (fuel : nat) (start : Z) (st st' : results * counts) :
  pages fuel start st = Some st' ->
  advances q ty st st'
  /\ (total_pages_fetched (snd st')
      <= total_pages_fetched (snd st) + fuel)%nat.
Proof.
  revert start st. induction fuel as [| fuel IH]; intros start st;
    [discriminate |].
  unfold pages. cbn [SearchResults.pages].
  assert (Hstay : Some st = Some st' ->
                  advances q ty st st'
                  /\ (total_pages_fetched (snd st')
                      <= total_pages_fetched (snd st) + S fuel)%nat).
  { intros H. injection H as <-. split; [apply advances_refl | lia]. }
  destruct (api start) as [p | e]; [| exact Hstay].
  destruct (page_results p) as [[| it l] |]; [exact Hstay | | exact Hstay].
  set (st1 := (fst st,
               mkCounts (new_count (snd st)) (duplicate_count (snd st))
                 (S (total_pages_fetched (snd st))))).
  assert (A0 : advances q ty st st1).
  { split; [| split; [auto | split; cbn; lia]].
    exists []. rewrite app_nil_r. cbn.
    split; [reflexivity |]. split; [constructor | lia]. }
  fold (save_all start O (it :: l) st1).
  destruct (save_all_advances start (it :: l) O st1) as (A1 & _ & P1).
  destruct (save_all start O (it :: l) st1) as [st2 | e st2];
    cbn [state_of] in *.
  - destruct (page_next p).
    + fold (pages fuel (start + 10) st2). intros H.
      destruct (IH _ _ H) as (A2 & P2).
      split; [eapply advances_trans; [| exact A2];
              eapply advances_trans; eassumption |].
      rewrite P1 in P2. cbn in P2. lia.
    + intros H. injection H as <-.
      split; [eapply advances_trans; eassumption |].
      rewrite P1. cbn. lia.
  - intros H. injection H as <-.
    split; [eapply advances_trans; eassumption |].
    rewrite P1. cbn. lia.
Qed.

Lemma pages_end (k : nat) (fuel : nat) (start : Z)
  (st : results * counts) :
  last_page api (start + 10 * Z.of_nat k) ->
  (k < fuel)%nat ->
  exists st', pages fuel start st = Some st'
              /\ (total_pages_fetched (snd st')
                  <= total_pages_fetched (snd st) + S k)%nat.
Proof.
  revert fuel start st. induction k as [| k IH]; intros fuel start st Hl Hk.
  - destruct fuel as [| fuel]; [lia |].
    replace (start + 10 * Z.of_nat 0) with start in Hl by lia.
    unfold pages. cbn [SearchResults.pages]. unfold last_page in Hl.
    destruct (api start) as [p | e]; [| exists st; split; [reflexivity | lia]].
    destruct (page_results p) as [[| it l] |];
      [exists st; split; [reflexivity | lia] |
       | exists st; split; [reflexivity | lia]].
    destruct Hl as [Hn | [H | H]]; try discriminate.
    rewrite Hn.
    match goal with
    | |- context [SearchResults.save_all ?a ?b ?c ?d ?e ?f ?g ?h ?i] =>
        pose proof (save_all_advances f h g i) as (_ & _ & P);
        unfold save_all in P;
        destruct (SearchResults.save_all a b c d e f g h i) as [s2 | e2 s2]
    end; eexists; (split; [reflexivity |]); cbn [state_of] in P;
      rewrite P; cbn; lia.
  - destruct fuel as [| fuel]; [lia |].
    unfold pages. cbn [SearchResults.pages].
    destruct (api start) as [p | e]; [| exists st; split; [reflexivity | lia]].
    destruct (page_results p) as [[| it l] |];
      [exists st; split; [reflexivity | lia] |
       | exists st; split; [reflexivity | lia]].
    match goal with
    | |- context [SearchResults.save_all ?a ?b ?c ?d ?e ?f ?g ?h ?i] =>
        pose proof (save_all_advances f h g i) as (_ & _ & P);
        unfold save_all in P;
        destruct (SearchResults.save_all a b c d e f g h i) as [s2 | e2 s2]
    end; cbn [state_of] in P.
    + destruct (page_next p).
      * fold (pages fuel (start + 10) s2).
        destruct (IH fuel (start + 10) s2) as (st' & E & Hp).
        { replace (start + 10 + 10 * Z.of_nat k)
            with (start + 10 * Z.of_nat (S k)) by lia. exact Hl. }
        { lia. }
        exists st'. split; [exact E |]. rewrite P in Hp. cbn in Hp. lia.
      * eexists. split; [reflexivity |]. rewrite P. cbn. lia.
    + eexists. split; [reflexivity |]. rewrite P. cbn. lia.
Qed.

Lemma run_search_rows_typed (fuel : nat) (start : Z) (t t' : results)
  (c : counts) :
  run_search parser_parse isoformat api now q ty fuel start t = Some (t', c) ->
  (exists more,
      result_rows t' = (result_rows t ++ more)%list
      /\ Forall (written_by q ty) more)
  /\ (unique_links t -> unique_links t').
Proof.
  intros H. unfold run_search in H.
  destruct (pages_advances fuel start _ _ H)
    as (((more & R & F & _) & U & _ & _) & _).
  cbn [fst] in *. split; [exists more; auto | exact U].
Qed.

End SearchRuns.

(** X21. What run_search leaves when it returns: the rows that were
    there, as they were, followed by one new row for each result it
    counted in [new_count], each with the query and the search type of
    the run and a link; no two rows with the same link, when there were
    none before; and no more pages counted than were asked for. *)
Theorem run_search_adds_what_it_counts
  (parser_parse : string -> option GoogleSearchDates.datetime)
  (isoformat : GoogleSearchDates.datetime -> string)
  (api : Z -> response SearchResults.page)
  (now : Z -> nat -> GoogleSearchDates.datetime)
  (q ty : string) (fuel : nat) (start : Z)
  (t t' : SearchResults.results) (c : SearchResults.counts) :
  SearchResults.run_search parser_parse isoformat api now q ty fuel start t
  = Some (t', c) ->
  (exists more : list SearchResults.row,
      SearchResults.result_rows t'
      = (SearchResults.result_rows t ++ more)%list
      /\ length more = SearchResults.new_count c
      /\ Forall (SearchResults.written_by q ty) more)
  /\ (SearchResults.unique_links t -> SearchResults.unique_links t')
  /\ (SearchResults.total_pages_fetched c <= fuel)%nat.
Proof.
  intros H. unfold SearchResults.run_search in H.
  destruct (pages_advances q ty parser_parse isoformat api now fuel start
              _ _ H) as (((more & R & F & N) & U & _ & _) & P).
  cbn [fst snd SearchResults.new_count SearchResults.total_pages_fetched]
    in *.
  split; [| split; [exact U | lia]].
  exists more. split; [exact R |]. split; [lia | exact F].
Qed.

Lemma run_search_adds_what_it_counts_witness :
  (SearchResults.total_pages_fetched
     (SearchResults.mkCounts 1 1 1) <= 5)%nat.
Proof.
  refine (proj2 (proj2
    (run_search_adds_what_it_counts (fun _ => None) (fun _ => "iso")
       (fun start =>
          if start =? 0
          then Returned
                 (SearchResults.mkPage
                    (Some [SearchResults.mkItem "A" "http://a" "s"
                             "2 days ago" "x";
                           SearchResults.mkItem "B" "http://a" "s"
                             "no date" "y"]) true)
          else Exception "quota")
       (fun _ _ => 63000000000000000) "q" "news" 5 0
       (SearchResults.mkResults [] 0)
       (SearchResults.mkResults
          [SearchResults.mkRow 1 (Some "A") (Some "http://a") (Some "s")
             (Some "iso") (Some "x") (Some "q") (Some "news")] 1)
       (SearchResults.mkCounts 1 1 1) _))).
  vm_compute. reflexivity.
Defined.

(** X22. run_search returns as soon as a page ends the pagination: if
    the page at [start + 10 k] raises, has no results or announces no
    next page, the loop has returned after at most [k + 1] pages,
    whatever the pages before it held. *)
Theorem run_search_ends_at_the_last_page
  (parser_parse : string -> option GoogleSearchDates.datetime)
  (isoformat : GoogleSearchDates.datetime -> string)
  (api : Z -> response SearchResults.page)
  (now : Z -> nat -> GoogleSearchDates.datetime)
  (q ty : string) (fuel k : nat) (start : Z) (t : SearchResults.results) :
  SearchResults.last_page api (start + 10 * Z.of_nat k) ->
  (k < fuel)%nat ->
  exists (t' : SearchResults.results) (c : SearchResults.counts),
    SearchResults.run_search parser_parse isoformat api now q ty fuel start t
    = Some (t', c)
    /\ (SearchResults.total_pages_fetched c <= S k)%nat.
Proof.
  intros Hl Hk.
  destruct (pages_end q ty parser_parse isoformat api now k fuel start
              (t, SearchResults.mkCounts 0 0 0) Hl Hk) as ([t' c] & E & P).
  exists t', c. split; [exact E | exact P].
Qed.

Lemma run_search_ends_at_the_last_page_witness :
  exists (t' : SearchResults.results) (c : SearchResults.counts),
    SearchResults.run_search (fun _ => None) (fun _ => "iso")
      (fun start =>
         Returned
           (SearchResults.mkPage
              (Some [SearchResults.mkItem "A" "http://a" "s" "" "x"])
              (start <? 20)))
      (fun _ _ => 0) "q" "all" 4 0 (SearchResults.mkResults [] 0)
    = Some (t', c)
    /\ (SearchResults.total_pages_fetched c <= 3)%nat.
Proof.
  refine (run_search_ends_at_the_last_page (fun _ => None) (fun _ => "iso")
            _ (fun _ _ => 0) "q" "all" 4 2 0 (SearchResults.mkResults [] 0)
            _ _).
  - left. reflexivity.
  - lia.
Defined.

(** ** From the search database to the unified database *)

Section SearchToImport.

Import SearchResults.

(** The type of a row is one the importer has statistics for. *)
Let known_type (r : row) : Prop :=
  search_type r = Some "news" \/ search_type r = Some "all"
  \/ search_type r = Some "media_cloud".

Lemma fill_known (t : results) :
  Forall (fun r => search_type r = None \/ known_type r) (result_rows t) ->
  Forall known_type (result_rows (fill_search_type t)).
Proof.
  intros H. unfold fill_search_type. cbn [result_rows].
  apply List.Forall_forall. intros r Hr.
  apply in_map_iff in Hr as (r0 & <- & Hr0).
  rewrite List.Forall_forall in H. specialize (H r0 Hr0).
  destruct (search_type r0) as [x |] eqn:E.
  - destruct H as [H | H]; [discriminate |].
    unfold known_type in *. rewrite E in *. exact H.
  - left. reflexivity.
Qed.

Lemma integrate_rows (date_parser_parse : string -> option string)
  (src : list Importer.csv_row) (st : results * csv_counts) :
  let st' := fold_left (fun st r => integrate_body date_parser_parse r st)
               src st in
  (exists more,
      result_rows (fst st') = (result_rows (fst st) ++ more)%list
      /\ Forall (written_by "media_cloud_import" "media_cloud") more
      /\ csv_new_count (snd st')
         = (csv_new_count (snd st) + length more)%nat)
  /\ (unique_links (fst st) -> unique_links (fst st'))
  /\ (csv_new_count (snd st') + csv_duplicate_count (snd st')
      + length (List.filter (fun r => negb (ImporterFacts.complete r)) src)
      = csv_new_count (snd st) + csv_duplicate_count (snd st)
        + length src)%nat
  /\ csv_error_count (snd st')
     = (csv_error_count (snd st)
        + length (List.filter (fun r => negb (ImporterFacts.complete r))
                    src))%nat.
Proof.
  cbv zeta. revert st. induction src as [| r src IH]; intros st.
  - cbn. split; [| split; [auto | split; lia]].
    exists []. rewrite app_nil_r. cbn.
    split; [reflexivity |]. split; [constructor | lia].
  - cbn [fold_left length List.filter].
    destruct (IH (integrate_body date_parser_parse r st))
      as ((m2 & R2 & F2 & N2) & U2 & C2 & E2).
    unfold integrate_body, ImporterFacts.complete in *. cbv zeta in *.
    destruct (Importer.csv_title r) as [title |],
      (Importer.csv_url r) as [url |],
      (Importer.csv_media_name r) as [media_name |],
      (Importer.csv_publish_date r) as [publish_date |];
      cbn [negb length fst snd csv_new_count csv_duplicate_count
           csv_error_count] in *;
      try (split; [| split; [auto | split; lia]];
           exists m2; split; [exact R2 |]; split; [exact F2 | lia]).
    destruct (insert _ _ _ _ _ _ _ (fst st)) as [t' |] eqn:E.
    + destruct (insert_done _ _ _ _ _ _ _ _ _ E) as (R & _ & U).
      cbn [fst snd csv_new_count csv_duplicate_count csv_error_count] in *.
      split; [| split; [auto | split; lia]].
      eexists. rewrite R2, R, <- app_assoc.
      split; [reflexivity |]. split.
      * apply Forall_app. split; [| exact F2].
        constructor; [| constructor]. repeat split. discriminate.
      * rewrite length_app. cbn [length]. lia.
    + cbn [fst snd csv_new_count csv_duplicate_count csv_error_count] in *.
      split; [| split; [auto | split; lia]].
      exists m2. split; [exact R2 |]. split; [exact F2 | lia].
Qed.

End SearchToImport.

(** X23. A search database filled by google_search.py (its UPDATE of
    the NULL types, its news run and its all run) and then by
    integrate_media_cloud.py holds only rows of type ['news'], ['all']
    or ['media_cloud'], provided the rows it started with had one of
    these types or none: the Google step of build_unified_db.py, in
    whatever order it reads these rows, reaches its end without
    KeyError.  The integration counts every CSV row once, as new, as
    duplicate or as error, the errors being the lines that lack a
    field; it adds one row for each row it counts as new and keeps the
    links distinct. *)
Theorem search_database_never_stops_the_import
  (parser_parse : string -> option GoogleSearchDates.datetime)
  (isoformat : GoogleSearchDates.datetime -> string)
  (date_parser_parse : string -> option string)
  (api_news api_all : Z -> response SearchResults.page)
  (now_news now_all : Z -> nat -> GoogleSearchDates.datetime)
  (q : string) (fuel : nat) (csv : list Importer.csv_row)
  (t t1 t2 : SearchResults.results) (c1 c2 : SearchResults.counts)
  (src : list Importer.search_result) :
  Forall (fun r => SearchResults.search_type r = None
                   \/ SearchResults.search_type r = Some "news"
                   \/ SearchResults.search_type r = Some "all"
                   \/ SearchResults.search_type r = Some "media_cloud")
    (SearchResults.result_rows t) ->
  SearchResults.run_search parser_parse isoformat api_news now_news q "news"
    fuel 0 (SearchResults.fill_search_type t) = Some (t1, c1) ->
  SearchResults.run_search parser_parse isoformat api_all now_all q "all"
    fuel 0 t1 = Some (t2, c2) ->
  let r3 := SearchResults.integrate_media_cloud date_parser_parse csv t2 in
  (forall r, In r src ->
             In r (map SearchResults.selected_columns
                     (SearchResults.result_rows (fst r3)))) ->
  is_completed
    (Importer.import_google src (connect empty_table, Importer.initial_stats))
  = true
  /\ (SearchResults.csv_new_count (snd r3)
      + SearchResults.csv_duplicate_count (snd r3)
      + SearchResults.csv_error_count (snd r3) = length csv)%nat
  /\ SearchResults.csv_error_count (snd r3)
     = length (List.filter (fun r => negb (ImporterFacts.complete r)) csv)
  /\ (length (SearchResults.result_rows (fst r3))
      = length (SearchResults.result_rows t2)
        + SearchResults.csv_new_count (snd r3))%nat
  /\ (SearchResults.unique_links t -> SearchResults.unique_links (fst r3)).
Proof.
  intros Ht H1 H2 r3 Hsrc.
  pose proof (fill_known t Ht) as K0.
  destruct (run_search_rows_typed q "news" parser_parse isoformat api_news
              now_news fuel 0 _ _ _ H1) as ((m1 & R1 & F1) & U1).
  destruct (run_search_rows_typed q "all" parser_parse isoformat api_all
              now_all fuel 0 _ _ _ H2) as ((m2 & R2 & F2) & U2).
  destruct (integrate_rows date_parser_parse csv
              (t2, SearchResults.mkCsvCounts 0 0 0))
    as ((m3 & R3 & F3 & N3) & U3 & C3 & E3).
  fold (SearchResults.integrate_media_cloud date_parser_parse csv t2)
    in R3, N3, U3, C3, E3.
  fold r3 in R3, N3, U3, C3, E3.
  cbn [fst snd SearchResults.csv_new_count SearchResults.csv_duplicate_count
       SearchResults.csv_error_count] in R3, N3, U3, C3, E3.
  split; [| split; [lia | split; [lia | split]]].
  - rewrite import_google_actions. apply loop_completes;
      [apply clean_empty |].
    apply List.Forall_forall. intros a Ha.
    apply in_map_iff in Ha as (r & <- & Hr).
    apply filter_In in Hr as [Hr _]. apply Hsrc in Hr.
    apply in_map_iff in Hr as (x & <- & Hx).
    rewrite R3, R2, R1 in Hx.
    assert (Hk : SearchResults.search_type x = Some "news"
                 \/ SearchResults.search_type x = Some "all"
                 \/ SearchResults.search_type x = Some "media_cloud").
    { rewrite !in_app_iff in Hx.
      rewrite List.Forall_forall in K0, F1, F2, F3.
      destruct Hx as [[[Hx | Hx] | Hx] | Hx].
      - apply K0, Hx.
      - left. apply (F1 x Hx).
      - right. left. apply (F2 x Hx).
      - right. right. apply (F3 x Hx). }
    apply initial_keys. cbn.
    destruct Hk as [-> | [-> | ->]]; cbn; auto.
  - rewrite R3, length_app. lia.
  - intros Hu. apply U3, U2, U1.
    unfold SearchResults.unique_links, SearchResults.links,
      SearchResults.fill_search_type in *.
    cbn [SearchResults.result_rows]. rewrite map_map.
    erewrite map_ext; [exact Hu |].
    intros r. destruct (SearchResults.search_type r); reflexivity.
Qed.

Lemma search_database_never_stops_the_import_witness :
  is_completed
    (Importer.import_google
       [Importer.mkSearchResult (Some "C") (Some "http://c") (Some "m")
          (Some "2025") (Some "media_cloud");
        Importer.mkSearchResult (Some "A") (Some "http://a") (Some "s")
          (Some "old") (Some "news")]
       (connect empty_table, Importer.initial_stats))
  = true.
Proof.
  refine (proj1
    (search_database_never_stops_the_import (fun _ => None) (fun _ => "iso")
       (fun _ => None)
       (fun _ => Returned
                   (SearchResults.mkPage
                      (Some [SearchResults.mkItem "B" "http://b" "s" "" "x"])
                      false))
       (fun _ => Exception "quota")
       (fun _ _ => 0) (fun _ _ => 0) "q" 3
       [Importer.mkCsvRow (Some "C") (Some " http://c") (Some "m")
          (Some "2025");
        Importer.mkCsvRow (Some "D") (Some "http://d") None None]
       (SearchResults.mkResults
          [SearchResults.mkRow 1 (Some "A") (Some "http://a") (Some "s")
             (Some "old") (Some "") (Some "q") None] 1)
       (SearchResults.mkResults
          [SearchResults.mkRow 1 (Some "A") (Some "http://a") (Some "s")
             (Some "old") (Some "") (Some "q") (Some "news");
           SearchResults.mkRow 2 (Some "B") (Some "http://b") (Some "s")
             (Some "") (Some "x") (Some "q") (Some "news")] 2)
       (SearchResults.mkResults
          [SearchResults.mkRow 1 (Some "A") (Some "http://a") (Some "s")
             (Some "old") (Some "") (Some "q") (Some "news");
           SearchResults.mkRow 2 (Some "B") (Some "http://b") (Some "s")
             (Some "") (Some "x") (Some "q") (Some "news")] 2)
       (SearchResults.mkCounts 1 0 1) (SearchResults.mkCounts 0 0 0)
       _ _ _ _ _)).
  - repeat constructor.
  - vm_compute. reflexivity.
  - vm_compute. reflexivity.
  - intros r [<- | [<- | []]]; vm_compute; auto.
Defined.

(** ** The topic files of the dashboard *)

Section TopicFilesFacts.

Import TopicFiles.

Context {V : Type}.

Lemma str_injective (a b : Z) : Py.str a = Py.str b -> a = b.
Proof.
  intros E.
  assert (H : Py.int (Py.str a) = Py.int (Py.str b)) by (rewrite E; reflexivity).
  rewrite !int_str in H. injection H as H. exact H.
Qed.

Lemma dict_get_json_keys (d : list (Z * V)) (k : Z) :
  dict_get (json_keys d) (Py.str k)
  = snd <$> List.find (fun kv => fst kv =? k) d.
Proof.
  induction d as [| [k' v] d IH]; [reflexivity |].
  cbn [json_keys map dict_get List.find fst snd].
  destruct (Z.eqb_spec k' k) as [-> | N].
  - rewrite String.eqb_refl. reflexivity.
  - destruct (String.eqb_spec (Py.str k') (Py.str k)) as [E | _].
    + destruct N. apply str_injective, E.
    + apply IH.
Qed.

Lemma int_keys_fold (l : list (Z * V)) (acc : gmap Z V) :
  fold_left
    (fun acc kv =>
       match acc, Py.int (fst kv) with
       | Some m, Some i => Some (<[i := snd kv]> m)
       | _, _ => None
       end)
    (json_keys l) (Some acc)
  = Some (fold_left (fun m kv => <[fst kv := snd kv]> m) l acc).
Proof.
  revert acc. induction l as [| [k v] l IH]; intros acc; [reflexivity |].
  cbn [json_keys map fold_left fst snd]. rewrite int_str. apply IH.
Qed.

Lemma fold_insert_union (l : list (Z * V)) (acc : gmap Z V) :
  NoDup (l.*1) ->
  fold_left (fun m kv => <[fst kv := snd kv]> m) l acc
  = list_to_map l ∪ acc.
Proof.
  revert acc. induction l as [| [k v] l IH]; intros acc Hnd.
  - cbn. rewrite (left_id_L ∅ (∪)). reflexivity.
  - cbn [fold_left fst snd list_to_map foldr].
    rewrite fmap_cons in Hnd. apply NoDup_cons in Hnd as [Hk Hnd].
    rewrite (IH _ Hnd).
    assert (Hn : (list_to_map l : gmap Z V) !! k = None)
      by (apply not_elem_of_list_to_map_1, Hk).
    cbn. rewrite <- insert_union_l. symmetry.
    apply insert_union_r, Hn.
Qed.

End TopicFilesFacts.

(** X24. The labels and keywords written by export_topic_data.py under
    the integer ids of the topics are the ones the dashboard finds
    under [str(topic_id)]: [get_topic_label] gives ['Outliers'] for -1,
    the name of the first entry written for the id otherwise, and
    ['Topic ' + id] when none was written; [get_keywords] gives the
    keywords of that entry, or none. *)
Theorem dashboard_finds_exported_topics
  (topic_data : list (Z * TopicFiles.topic_entry)) (topic_id : Z) :
  let topic_info := TopicFiles.json_keys topic_data in
  let entry := List.find (fun kv => fst kv =? topic_id) topic_data in
  TopicFiles.get_topic_label topic_info (-1) = "Outliers"
  /\ (topic_id <> -1 ->
      TopicFiles.get_topic_label topic_info topic_id
      = match entry with
        | Some kv => TopicFiles.entry_name (snd kv)
        | None => "Topic " ++ Py.str topic_id
        end)
  /\ TopicFiles.get_keywords topic_info topic_id
     = match entry with
       | Some kv => TopicFiles.entry_keywords (snd kv)
       | None => []
       end
  /\ (forall a b : Z, Py.str a = Py.str b -> a = b).
Proof.
  intros topic_info entry.
  split; [reflexivity |]. split; [| split; [| exact str_injective]].
  - intros Hne. unfold TopicFiles.get_topic_label. cbv zeta.
    destruct (Z.eqb_spec topic_id (-1)) as [E | _]; [contradiction |].
    unfold topic_info. rewrite dict_get_json_keys. fold entry.
    destruct entry; reflexivity.
  - unfold TopicFiles.get_keywords, topic_info.
    rewrite dict_get_json_keys. fold entry. destruct entry; reflexivity.
Qed.

(** X25. The descriptions that generate_topic_descriptions.py writes
    under integer topic ids come back under the same ids when the
    dashboard loads them: for a dictionary [d], written in any order of
    its entries, [load_topic_descriptions] gives [d] back, and the
    conversion of the keys raises for no key. *)
Theorem topic_descriptions_round_trip {V : Type}
  (d : gmap Z V) (items : list (Z * V)) :
  items ≡ₚ map_to_list d ->
  TopicFiles.int_keys (TopicFiles.json_keys items) = Some d
  /\ TopicFiles.load_topic_descriptions (TopicFiles.json_keys items) = d
  /\ (forall k : Z,
        TopicFiles.load_topic_descriptions (TopicFiles.json_keys items) !! k
        = d !! k).
Proof.
  intros Hp.
  assert (Hnd : NoDup (items.*1)).
  { rewrite Hp. apply NoDup_fst_map_to_list. }
  assert (E : TopicFiles.int_keys (TopicFiles.json_keys items) = Some d).
  { unfold TopicFiles.int_keys. rewrite int_keys_fold.
    rewrite (fold_insert_union items ∅ Hnd), (right_id_L ∅ (∪)).
    f_equal. rewrite (list_to_map_proper items (map_to_list d) Hnd Hp).
    apply list_to_map_to_list. }
  split; [exact E |].
  unfold TopicFiles.load_topic_descriptions. rewrite E.
  split; [reflexivity | intros k; reflexivity].
Qed.

Lemma topic_descriptions_round_trip_witness :
  TopicFiles.load_topic_descriptions
    (TopicFiles.json_keys [(3, "three"); (-1, "outliers")])
  = <[3 := "three"]> (<[-1 := "outliers"]> ∅).
Proof.
  refine (proj1 (proj2
    (topic_descriptions_round_trip
       (<[3 := "three"]> (<[-1 := "outliers"]> ∅))
       [(3, "three"); (-1, "outliers")] _))).
  rewrite map_to_list_insert by reflexivity.
  rewrite map_to_list_insert by reflexivity.
  rewrite map_to_list_empty. reflexivity.
Defined.

(** ** Waiting for the filter batch *)

Section FilterWait.

Import FilterScript.

Variable status : nat -> string.

Let pending_status (n : nat) : Prop :=
  status n <> "completed" /\ gave_up (status n) = false.

Lemma wait_spec (fuel n : nat) (b : bool) :
  wait fuel status n = Some b
  <-> exists k : nat,
        (k < fuel)%nat
        /\ (forall j, (j < k)%nat -> pending_status (n + j))
        /\ (if b then status (n + k)%nat = "completed"
            else status (n + k)%nat <> "completed"
                 /\ gave_up (status (n + k)) = true).
Proof.
  revert n. induction fuel as [| fuel IH]; intros n.
  - split; [discriminate | intros (k & Hk & _); lia].
  - cbn [wait]. destruct (String.eqb_spec (status n) "completed") as [E | N].
    + split.
      * intros H. injection H as <-. exists O.
        rewrite Nat.add_0_r. split; [lia |]. split; [intros j Hj; lia | exact E].
      * intros (k & Hk & Hbefore & Hat). destruct k as [| k].
        -- rewrite Nat.add_0_r in Hat. destruct b; [reflexivity |].
           destruct Hat as [Hat _]. contradiction.
        -- destruct (Hbefore O) as [Hn _]; [lia |].
           rewrite Nat.add_0_r in Hn. contradiction.
    + destruct (gave_up (status n)) eqn:G.
      * split.
        -- intros H. injection H as <-. exists O.
           rewrite Nat.add_0_r. split; [lia |].
           split; [intros j Hj; lia | auto].
        -- intros (k & Hk & Hbefore & Hat). destruct k as [| k].
           ++ rewrite Nat.add_0_r in Hat. destruct b; [contradiction |].
              reflexivity.
           ++ destruct (Hbefore O) as [_ Hg]; [lia |].
              rewrite Nat.add_0_r in Hg. congruence.
      * rewrite IH. split.
        -- intros (k & Hk & Hbefore & Hat). exists (S k).
           split; [lia |]. split.
           ++ intros [| j] Hj.
              ** rewrite Nat.add_0_r. split; assumption.
              ** replace (n + S j)%nat with (S n + j)%nat by lia.
                 apply Hbefore. lia.
           ++ replace (n + S k)%nat with (S n + k)%nat by lia. exact Hat.
        -- intros (k & Hk & Hbefore & Hat). destruct k as [| k].
           ++ rewrite Nat.add_0_r in Hat. destruct b.
              ** contradiction.
              ** destruct Hat as [_ Hat]. congruence.
           ++ exists k. split; [lia |]. split.
              ** intros j Hj.
                 replace (S n + j)%nat with (n + S j)%nat by lia.
                 apply Hbefore. lia.
              ** replace (S n + k)%nat with (n + S k)%nat by lia. exact Hat.
Qed.

End FilterWait.

(** X26. filter_cultural_articles.py processes results only when the
    user answered ['y'], a retrieval returned ['completed'] before any
    returned ['failed'], ['cancelled'] or ['expired'], and the batch
    has an output file; in every other case that ends, the table is
    the one the submission left (or the table as it was, when nothing
    was selected).  The loop leaves at the first retrieval whose status
    is one of these four, and however the script ends the records of
    the table are the same. *)
Theorem filter_script_processes_only_completed_batches
  (batch answer : string) (fuel : nat) (status : nat -> string)
  (output : option (list batch_result)) (t t' : table) :
  FilterScript.filter_cultural_articles batch answer fuel status output t
  = Some t' ->
  same_records t t'
  /\ (t' = t
      \/ t' = Filter.mark_submitted batch t
      \/ exists (l : list batch_result) (k : nat),
           output = Some l
           /\ Str.strip (Str.lower answer) = "y"
           /\ (k < fuel)%nat
           /\ status k = "completed"
           /\ (forall j, (j < k)%nat ->
                         status j <> "completed"
                         /\ FilterScript.gave_up (status j) = false)
           /\ t' = Filter.process_results l (Filter.mark_submitted batch t))
  /\ (forall (b : bool) (n : nat),
        FilterScript.wait fuel status n = Some b ->
        exists k : nat,
          (k < fuel)%nat
          /\ (forall j, (j < k)%nat ->
                        status (n + j)%nat <> "completed"
                        /\ FilterScript.gave_up (status (n + j)%nat) = false)
          /\ (if b then status (n + k)%nat = "completed"
              else FilterScript.gave_up (status (n + k)%nat) = true)).
Proof.
  intros H. split; [| split].
  - unfold FilterScript.filter_cultural_articles, FilterSubmit.submit in H.
    destruct (Filter.articles t) as [| a sel].
    { injection H as <-. apply same_records_refl. }
    assert (Hm := filter_mark_keeps batch t).
    destruct (String.eqb _ "y"); [| injection H as <-; exact Hm].
    destruct (FilterScript.wait fuel status O) as [[|] |]; [| | discriminate].
    + destruct output as [l |]; injection H as <-; [| exact Hm].
      eapply same_records_trans; [exact Hm | apply filter_process_keeps].
    + injection H as <-. exact Hm.
  - unfold FilterScript.filter_cultural_articles, FilterSubmit.submit in H.
    destruct (Filter.articles t) as [| a sel].
    { injection H as <-. left. reflexivity. }
    destruct (String.eqb_spec (Str.strip (Str.lower answer)) "y")
      as [Ey | _]; [| injection H as <-; right; left; reflexivity].
    destruct (FilterScript.wait fuel status O) as [[|] |] eqn:W;
      [| injection H as <-; right; left; reflexivity | discriminate].
    destruct output as [l |];
      [| injection H as <-; right; left; reflexivity].
    injection H as <-. right. right.
    apply wait_spec in W as (k & Hk & Hbefore & Hat).
    exists l, k. repeat split; try assumption; apply (Hbefore j); assumption.
  - intros b n W. apply wait_spec in W as (k & Hk & Hbefore & Hat).
    exists k. split; [exact Hk |]. split; [exact Hbefore |].
    destruct b; [exact Hat | apply Hat].
Qed.

Lemma filter_script_processes_only_completed_batches_witness :
  same_records Sample.summarised
    (Filter.process_results [Sample.answer 1 "NO"; Sample.answer 2 "YES"]
       (Filter.mark_submitted "batch_1" Sample.summarised)).
Proof.
  refine (proj1
    (filter_script_processes_only_completed_batches "batch_1" " Y" 5
       (fun n => if (n <? 2)%nat then "in_progress" else "completed")
       (Some [Sample.answer 1 "NO"; Sample.answer 2 "YES"])
       Sample.summarised _ _)).
  vm_compute. reflexivity.
Defined.

(** ** Batch and synchronous summaries *)

Section BatchAgainstSync.

Import BatchAsSync SummarizeBatchFacts.

Lemma row_effect_summarised (now : string) (r : batch_result) (a : article) :
  (error r = None -> exists x, content r = Some x /\ x <> "") ->
  summarised a
  \/ (custom_id r = article_id a /\ error r = None) ->
  summarised (row_effect now r a).
Proof.
  intros Hr H. unfold row_effect, on_id, has_id.
  destruct (Z.eqb_spec (article_id a) (custom_id r)) as [E | N].
  - destruct (error r) as [msg |] eqn:Ee.
    + destruct H as [H | [_ H]]; [exact H | discriminate].
    + destruct (Hr eq_refl) as (x & Hx & Hne). exists x. split; [| exact Hne].
      cbn. exact Hx.
  - destruct H as [H | [H _]]; [| congruence].
    destruct (error r); exact H.
Qed.

Lemma rows_effect_summarised (clock : nat -> string) (n : nat)
  (l : list batch_result) (a : article) :
  answered l ->
  summarised a \/ answers (article_id a) l = true ->
  summarised (rows_effect clock n l a).
Proof.
  revert n a. induction l as [| r l IH]; intros n a Hl H.
  - destruct H as [H | H]; [exact H | discriminate].
  - cbn [rows_effect]. apply IH.
    + intros x Hx. apply Hl. right. exact Hx.
    + rewrite batch_row_effect_id.
      assert (Hr : error r = None -> exists x, content r = Some x /\ x <> "")
        by (apply Hl; left; reflexivity).
      destruct H as [H | H].
      * left. apply row_effect_summarised; auto.
      * cbn [answers existsb] in H. apply orb_true_iff in H as [H | H].
        -- left. apply row_effect_summarised; [exact Hr |]. right.
           apply andb_true_iff in H as [H1 H2]. apply Z.eqb_eq in H1.
           split; [exact H1 |]. destruct (error r); [discriminate | reflexivity].
        -- right. exact H.
Qed.

Lemma batch_rows_text (clock : nat -> string) (n : nat)
  (l : list batch_result) (a : article) :
  text (rows_effect clock n l a) = text a.
Proof.
  revert n a. induction l as [| r l IH]; intros n a; [reflexivity |].
  cbn [rows_effect]. rewrite IH. unfold row_effect, on_id.
  destruct (error r), (has_id (custom_id r) a); reflexivity.
Qed.

(** A bundle with one line for each of the distinct rows [sel]. *)
Lemma one_line_each (clock : nat -> string) (f : article -> batch_result)
  (sel : list article) (n : nat) (r : article) :
  (forall s, custom_id (f s) = article_id s) ->
  List.NoDup (map article_id sel) ->
  (~ In (article_id r) (map article_id sel)
   /\ rows_effect clock n (map f sel) r = r)
  \/ (exists (s : article) (now : string),
        In s sel /\ article_id s = article_id r
        /\ rows_effect clock n (map f sel) r = row_effect now (f s) r).
Proof.
  intros Hf. revert n r. induction sel as [| s sel IH]; intros n r Hnd.
  - left. split; [intros [] | reflexivity].
  - cbn [map] in Hnd. apply NoDup_cons_iff in Hnd as [Hs Hnd].
    cbn [map rows_effect].
    destruct (Z.eq_dec (article_id s) (article_id r)) as [E | N].
    + right. exists s, (clock n). split; [left; reflexivity |].
      split; [exact E |]. apply rows_effect_unmentioned.
      rewrite batch_row_effect_id, map_map.
      rewrite (map_ext _ article_id) by exact Hf. rewrite <- E. exact Hs.
    + rewrite row_effect_other by (rewrite Hf; exact N).
      destruct (IH (S n) r Hnd) as [[Hout E] | (s' & now & Hin & Hid & E)].
      * left. split; [| exact E]. cbn [map]. intros [H | H]; auto.
      * right. exists s', now. split; [right; exact Hin |]. auto.
Qed.

End BatchAgainstSync.

(** X27. When the bundle of a completed summarization batch has, for
    every selected row, a line without error, and every line without
    error carries a summary of at least one character, processing it
    leaves no row selected by the summarizer: summarize_batch_prepare.py
    then writes no request. *)
Theorem complete_summaries_empty_the_selection
  (clock : nat -> string) (l : list batch_result) (t : table) :
  batch_found batch_id t = true ->
  BatchAsSync.answered l ->
  (forall a, In a (Summarize.articles_to_summarize t) ->
             SummarizeBatchFacts.answers (article_id a) l = true) ->
  let t' := SummarizeBatch.summarize_batch_process clock "completed"
              (Some l) t in
  Summarize.articles_to_summarize t' = []
  /\ SummarizeBatchPrepare.summarize_batch_prepare t' = []
  /\ (forall a, In a (rows t') ->
                SummarizeBatchFacts.answers (article_id a) l = true ->
                BatchAsSync.summarised a).
Proof.
  intros Hb Hl Hall t'.
  assert (Hrows : rows t'
                  = map (SummarizeBatchFacts.rows_effect clock O l) (rows t)).
  { unfold t'. rewrite (process_script_rows clock l t Hb). reflexivity. }
  assert (E : Summarize.articles_to_summarize t' = []).
  { unfold Summarize.articles_to_summarize, select_where. rewrite Hrows.
    apply filter_nothing. intros a' Ha'.
    apply in_map_iff in Ha' as (a & <- & Ha).
    destruct (Summarize.pending a) eqn:Hp.
    - destruct (rows_effect_summarised clock O l a Hl) as (x & Hx & Hne).
      { right. apply Hall. apply filter_In. split; assumption. }
      apply (not_pending_when_summary x); assumption.
    - destruct (SummarizeBatchFacts.answers (article_id a) l) eqn:Ha2.
      + destruct (rows_effect_summarised clock O l a Hl) as (x & Hx & Hne);
          [right; exact Ha2 |].
        apply (not_pending_when_summary x); assumption.
      + unfold Summarize.pending in *. rewrite batch_rows_text.
        destruct (text a) as [s |]; [| reflexivity].
        apply andb_false_iff in Hp as [Hp | Hp];
          [rewrite Hp; reflexivity |].
        apply andb_false_iff. right.
        destruct (summary a) as [x |] eqn:Hs; [| discriminate].
        simpl in Hp. apply String.eqb_neq in Hp.
        destruct (rows_effect_summarised clock O l a Hl) as (y & Hy & Hne).
        { left. exists x. auto. }
        rewrite Hy. simpl. apply String.eqb_neq. exact Hne. }
  split; [exact E |]. split.
  - unfold SummarizeBatchPrepare.summarize_batch_prepare. rewrite E.
    reflexivity.
  - intros a Ha Hans. rewrite Hrows in Ha.
    apply in_map_iff in Ha as (a0 & <- & _).
    apply rows_effect_summarised; [exact Hl |]. right.
    rewrite batch_rows_effect_id in Hans. exact Hans.
Qed.

Lemma complete_summaries_empty_the_selection_witness :
  SummarizeBatchPrepare.summarize_batch_prepare
    (SummarizeBatch.summarize_batch_process (fun _ => "2025-06-01")
       "completed"
       (Some [Sample.answer 1 "Summary one."; Sample.failure 2 "timeout";
              Sample.answer 2 "Summary two."])
       (SummarizeBatch.summarize_batch_submit "batch_1" Sample.scraped))
  = [].
Proof.
  refine (proj1 (proj2
    (complete_summaries_empty_the_selection (fun _ => "2025-06-01")
       [Sample.answer 1 "Summary one."; Sample.failure 2 "timeout";
        Sample.answer 2 "Summary two."]
       (SummarizeBatch.summarize_batch_submit "batch_1" Sample.scraped)
       _ _ _))).
  - reflexivity.
  - intros r [<- | [<- | [<- | []]]] He; try discriminate He;
      eexists; (split; [reflexivity | discriminate]).
  - intros a Ha. vm_compute in Ha.
    destruct Ha as [<- | [<- | []]]; reflexivity.
Defined.

Section BatchAgainstSyncRows.

Import BatchAsSync SummarizeBatchFacts.

Variable llm : string -> response Summarize.completion.
Variable zclock : Z -> string.

Lemma line_of_id (a : article) : custom_id (line_of llm a) = article_id a.
Proof.
  unfold line_of. destruct (llm (Summarize.prompt_of a)); reflexivity.
Qed.

(** The line of a selected row does to the row, once marked as
    submitted, what the synchronous call does to it. *)
Lemma line_as_call (batch now : string) (a : article) :
  Summarize.pending a = true ->
  (forall c, llm (Summarize.prompt_of a) = Returned c ->
             Summarize.content c <> None) ->
  comparable
    (row_effect now (line_of llm a)
       (set_summary_status (Some "batch_submitted")
          (set_batch_id (Some batch) a)))
  = comparable (SummarizeFacts.run_effect llm zclock a).
Proof.
  intros Hp Hc. unfold SummarizeFacts.run_effect. rewrite Hp.
  unfold SummarizeFacts.row_effect, line_of, row_effect, on_id, has_id.
  destruct (llm (Summarize.prompt_of a)) as [c |msg] eqn:E;
    cbn [custom_id error content set_summary_status set_batch_id article_id];
    rewrite Z.eqb_refl.
  - destruct (Summarize.content c) as [x |] eqn:Ec.
    + reflexivity.
    + destruct (Hc c eq_refl). exact Ec.
  - reflexivity.
Qed.

End BatchAgainstSyncRows.

(** X28. If the batch endpoint answers each request as the
    synchronous call would (a completion with a content, or an error
    with the message of the exception), then submitting the selected
    articles as a batch and processing its bundle leaves every row as
    summarize_articles.py leaves it, apart from the batch id and the
    time of the summary: same summaries, same statuses, same rows
    untouched. *)
Theorem batch_and_synchronous_summaries_agree
  (llm : string -> response Summarize.completion)
  (zclock : Z -> string) (nclock : nat -> string)
  (batch : string) (t : table) :
  List.NoDup (ids t) ->
  (forall a c,
      In a (Summarize.articles_to_summarize t) ->
      llm (Summarize.prompt_of a) = Returned c ->
      Summarize.content c <> None) ->
  let by_batch :=
    SummarizeBatch.summarize_batch_process nclock "completed"
      (Some (BatchAsSync.bundle_of llm t))
      (SummarizeBatch.summarize_batch_submit batch t) in
  let by_calls := fst (Summarize.summarize_articles llm zclock t) in
  map BatchAsSync.comparable (rows by_batch)
  = map BatchAsSync.comparable (rows by_calls)
  /\ map summary (rows by_batch) = map summary (rows by_calls)
  /\ map summary_status (rows by_batch) = map summary_status (rows by_calls)
  /\ seq by_batch = seq by_calls.
Proof.
  intros Hnd Hc by_batch by_calls.
  set (sel := Summarize.articles_to_summarize t).
  set (mark := fun a => if Summarize.pending a
                        then set_summary_status (Some "batch_submitted")
                               (set_batch_id (Some batch) a)
                        else a).
  assert (Hsync : rows by_calls
                  = map (SummarizeFacts.run_effect llm zclock) (rows t))
    by apply (summarize_articles_rows llm zclock t Hnd).
  assert (Hsel : List.NoDup (map article_id sel))
    by (apply NoDup_filter_ids, Hnd).
  assert (Hbatch : rows by_batch
                   = map (fun a => SummarizeBatchFacts.rows_effect nclock O
                                     (BatchAsSync.bundle_of llm t) (mark a))
                       (rows t)
                   /\ seq by_batch = seq t).
  { unfold by_batch.
    destruct (batch_found batch_id
                (SummarizeBatch.summarize_batch_submit batch t)) eqn:Hf.
    - rewrite (process_script_rows nclock _ _ Hf). cbn [rows seq].
      rewrite submit_rows, map_map. split; reflexivity.
    - unfold SummarizeBatch.summarize_batch_process. rewrite Hf.
      cbn [negb]. split; [| reflexivity].
      rewrite submit_rows. apply map_ext_in. intros a Ha. fold (mark a).
      assert (Hp : Summarize.pending a = false).
      { destruct (Summarize.pending a) eqn:Hp; [| reflexivity].
        exfalso. unfold batch_found in Hf.
        rewrite submit_rows in Hf.
        assert (Hex : existsb
                        (fun a0 => match batch_id a0 with
                                   | Some _ => true
                                   | None => false
                                   end)
                        (map mark (rows t)) = true).
        { apply existsb_exists. exists (mark a).
          split; [apply in_map, Ha |]. unfold mark. rewrite Hp. reflexivity. }
        unfold mark in Hex. rewrite Hex in Hf. discriminate. }
      unfold mark. rewrite Hp. symmetry.
      apply rows_effect_unmentioned. unfold BatchAsSync.bundle_of.
      rewrite map_map.
      rewrite (map_ext _ article_id) by apply line_of_id.
      intros Hin. apply in_map_iff in Hin as (x & E & Hx).
      apply filter_In in Hx as [Hx Hpx].
      assert (x = a) by (apply (same_id_same_row (rows t)); assumption).
      subst x. congruence. }
  destruct Hbatch as [Hbatch Hseq].
  assert (Hrow : forall a, In a (rows t) ->
             BatchAsSync.comparable
               (SummarizeBatchFacts.rows_effect nclock O
                  (BatchAsSync.bundle_of llm t) (mark a))
             = BatchAsSync.comparable
                 (SummarizeFacts.run_effect llm zclock a)).
  { intros a Ha.
    assert (Hid : article_id (mark a) = article_id a)
      by (unfold mark; destruct (Summarize.pending a); reflexivity).
    destruct (one_line_each nclock (BatchAsSync.line_of llm) sel O (mark a)
                (line_of_id llm) Hsel)
      as [[Hout E] | (s & now & Hin & Hs & E)];
      unfold BatchAsSync.bundle_of; fold sel; rewrite E.
    - assert (Hp : Summarize.pending a = false).
      { destruct (Summarize.pending a) eqn:Hp; [| reflexivity].
        destruct Hout. rewrite Hid. apply in_map, filter_In. auto. }
      unfold mark, SummarizeFacts.run_effect. rewrite Hp. reflexivity.
    - assert (s = a).
      { apply filter_In in Hin as [Hin _].
        apply (same_id_same_row (rows t)); [exact Hnd | exact Hin | exact Ha |].
        rewrite Hs. exact Hid. }
      subst s. apply filter_In in Hin as [_ Hp].
      unfold mark. rewrite Hp. apply line_as_call; [exact Hp |].
      intros c Hcall. apply (Hc a c); [| exact Hcall].
      apply filter_In. auto. }
  assert (Hcmp : map BatchAsSync.comparable (rows by_batch)
                 = map BatchAsSync.comparable (rows by_calls)).
  { rewrite Hbatch, Hsync, !map_map. apply map_ext_in, Hrow. }
  split; [exact Hcmp |]. split; [| split].
  - assert (Es : forall l : list article,
               map summary l = map summary (map BatchAsSync.comparable l))
      by (intros l; rewrite map_map; reflexivity).
    rewrite (Es (rows by_batch)), (Es (rows by_calls)), Hcmp. reflexivity.
  - assert (Es : forall l : list article,
               map summary_status l
               = map summary_status (map BatchAsSync.comparable l))
      by (intros l; rewrite map_map; reflexivity).
    rewrite (Es (rows by_batch)), (Es (rows by_calls)), Hcmp. reflexivity.
  - rewrite Hseq. symmetry.
    apply (summarize_keeps llm zclock t).
Qed.

Lemma batch_and_synchronous_summaries_agree_witness :
  map summary_status
    (rows
       (SummarizeBatch.summarize_batch_process (fun _ => "2025-06-02")
          "completed"
          (Some (BatchAsSync.bundle_of
                   (fun p => if Str.contains "http://a" p
                             then Returned
                                    (Summarize.mkCompletion (Some "Sum.") 9)
                             else Exception "rate_limit")
                   Sample.scraped))
          (SummarizeBatch.summarize_batch_submit "batch_1" Sample.scraped)))
  = map summary_status
      (rows
         (fst (Summarize.summarize_articles
                 (fun p => if Str.contains "http://a" p
                           then Returned
                                  (Summarize.mkCompletion (Some "Sum.") 9)
                           else Exception "rate_limit")
                 (fun _ => "2025-06-01") Sample.scraped))).
Proof.
  refine (proj1 (proj2 (proj2
    (batch_and_synchronous_summaries_agree
       (fun p => if Str.contains "http://a" p
                 then Returned (Summarize.mkCompletion (Some "Sum.") 9)
                 else Exception "rate_limit")
       (fun _ => "2025-06-01") (fun _ => "2025-06-02") "batch_1"
       Sample.scraped _ _)))).
  - distinct_ids.
  - intros a c _ H.
    destruct (Str.contains "http://a" (Summarize.prompt_of a));
      [| discriminate H].
    injection H as <-. discriminate.
Defined.

(** ** The dates that the search importer stores *)

Section StoredDates.

Import GoogleSearchDates SearchResults SearchDatesFacts.

Variable parser_parse : string -> option datetime.
Variable isoformat : datetime -> string.
Variable now : Z -> nat -> datetime.
Variable q ty : string.




End StoredDates.



(** ** One run of the importer, and a second *)

Section ImporterRuns.

Import Importer ImporterFacts.

(** One iteration from the same connection with two dictionaries that
    have the same keys. *)
Lemma perform_shift (a : action) (c : connection)
  (s s' : gmap string counters) :
  same_keys s s' ->
  let r := perform a (c, s) in
  let r' := perform a (c, s') in
  conn_of r' = conn_of r
  /\ is_completed r' = is_completed r
  /\ same_keys (stats_of r) (stats_of r')
  /\ (total added (stats_of r') + total added s
      = total added (stats_of r) + total added s')%nat
  /\ (total skipped (stats_of r') + total skipped s
      = total skipped (stats_of r) + total skipped s')%nat
  /\ (total errors (stats_of r') + total errors s
      = total errors (stats_of r) + total errors s')%nat.
Proof.
  intros Hk.
  assert (Hskip : forall key c0,
    let r := match bump incr_skipped key s with
             | Some x => Completed (c0, x)
             | None => Raised "KeyError" (c0, s)
             end in
    let r' := match bump incr_skipped key s' with
              | Some x => Completed (c0, x)
              | None => Raised "KeyError" (c0, s')
              end in
    conn_of r' = conn_of r
    /\ is_completed r' = is_completed r
    /\ same_keys (stats_of r) (stats_of r')
    /\ (total added (stats_of r') + total added s
        = total added (stats_of r) + total added s')%nat
    /\ (total skipped (stats_of r') + total skipped s
        = total skipped (stats_of r) + total skipped s')%nat
    /\ (total errors (stats_of r') + total errors s
        = total errors (stats_of r) + total errors s')%nat).
  { intros key c0. cbv zeta.
    destruct (s !! key) as [x |] eqn:E.
    - assert (Hs' : is_Some (s' !! key)) by (apply Hk; eauto).
      destruct (bump_some incr_skipped key s (ex_intro _ x E))
        as (y & _ & B).
      destruct (bump_some incr_skipped key s' Hs') as (y' & _ & B').
      rewrite B, B'.
      destruct (total_bump_skipped _ _ _ B) as (A1 & A2 & A3).
      destruct (total_bump_skipped _ _ _ B') as (A1' & A2' & A3').
      unfold conn_of, stats_of. cbn [state_of fst snd is_completed].
      split; [reflexivity |]. split; [reflexivity |]. split.
      + apply (same_keys_trans _ s);
          [apply same_keys_sym, (bump_same_keys _ _ _ _ B) |].
        apply (same_keys_trans _ s'); [exact Hk |].
        apply (bump_same_keys _ _ _ _ B').
      + lia.
    - assert (E' : s' !! key = None).
      { destruct (s' !! key) eqn:E2; [| reflexivity].
        assert (is_Some (s !! key)) as [z Hz] by (apply Hk; eauto).
        congruence. }
      rewrite (bump_none _ _ _ E), (bump_none _ _ _ E').
      unfold conn_of, stats_of. cbn [state_of fst snd is_completed].
      split; [reflexivity |]. split; [reflexivity |].
      split; [exact Hk | lia]. }
  destruct a as [key | key ti u so da |]; cbn [perform fst snd].
  - apply Hskip.
  - unfold insert_and_count.
    destruct (insert_article ti u so da key (working c)) as [t' |];
      [| apply Hskip].
    destruct (s !! key) as [x |] eqn:E.
    + assert (Hs' : is_Some (s' !! key)) by (apply Hk; eauto).
      destruct (bump_some incr_added key s (ex_intro _ x E)) as (y & _ & B).
      destruct (bump_some incr_added key s' Hs') as (y' & _ & B').
      rewrite B, B'.
      destruct (total_bump_added _ _ _ B) as (A1 & A2 & A3).
      destruct (total_bump_added _ _ _ B') as (A1' & A2' & A3').
      unfold conn_of, stats_of. cbn [state_of fst snd is_completed].
      split; [reflexivity |]. split; [reflexivity |]. split.
      * apply (same_keys_trans _ s);
          [apply same_keys_sym, (bump_same_keys _ _ _ _ B) |].
        apply (same_keys_trans _ s'); [exact Hk |].
        apply (bump_same_keys _ _ _ _ B').
      * lia.
    + assert (E' : s' !! key = None).
      { destruct (s' !! key) eqn:E2; [| reflexivity].
        assert (is_Some (s !! key)) as [z Hz] by (apply Hk; eauto).
        congruence. }
      rewrite !(bump_none _ _ _ E), !(bump_none _ _ _ E').
      unfold conn_of, stats_of. cbn [state_of fst snd is_completed].
      split; [reflexivity |]. split; [reflexivity |].
      split; [exact Hk | lia].
  - unfold conn_of, stats_of. cbn [state_of fst snd is_completed].
    split; [reflexivity |]. split; [reflexivity |].
    split; [exact Hk | lia].
Qed.

(** The loop from the same connection with two dictionaries that have
    the same keys: the same table, the same end, and counters that
    differ by what they differed by. *)
Lemma loop_shift (l : list action) (c : connection)
  (s s' : gmap string counters) :
  same_keys s s' ->
  let r := for_each perform l (c, s) in
  let r' := for_each perform l (c, s') in
  conn_of r' = conn_of r
  /\ is_completed r' = is_completed r
  /\ (total added (stats_of r') + total added s
      = total added (stats_of r) + total added s')%nat
  /\ (total skipped (stats_of r') + total skipped s
      = total skipped (stats_of r) + total skipped s')%nat
  /\ (total errors (stats_of r') + total errors s
      = total errors (stats_of r) + total errors s')%nat.
Proof.
  revert c s s'. induction l as [| a l IH]; intros c s s' Hk.
  - cbn. repeat split; lia.
  - cbn [for_each].
    destruct (perform_shift a c s s' Hk) as (Hc & Hd & Hk1 & Ha & Hs & He).
    destruct (perform a (c, s)) as [[c1 s1] | e [c1 s1]],
      (perform a (c, s')) as [[c1' s1'] | e' [c1' s1']];
      unfold conn_of, stats_of in *;
      cbn [state_of fst snd is_completed] in *; try discriminate.
    + subst c1'. destruct (IH c1 s1 s1' Hk1) as (Hc2 & Hd2 & Ha2 & Hs2 & He2).
      cbv zeta in *. unfold conn_of, stats_of in *.
      split; [exact Hc2 |]. split; [exact Hd2 |]. lia.
    + subst c1'. repeat split; lia.
Qed.

Variable date_parser_parse : string -> option string.

Lemma counted_google (r : search_result) :
  counted (google_action r) initial_stats <-> known_type r.
Proof.
  unfold counted, known_type. cbn [google_action key_of]. split.
  - apply initial_keys_only.
  - apply initial_keys.
Qed.

Lemma counted_media_cloud (r : csv_row) :
  counted (media_cloud_action date_parser_parse r) initial_stats
  <-> complete r = true.
Proof.
  unfold counted, media_cloud_action, complete.
  destruct (csv_title r), (csv_url r) as [url |], (csv_media_name r),
    (csv_publish_date r); cbn [key_of];
    try (split; [contradiction | discriminate]).
  destruct (negb (Str.truthy (Str.strip url))); cbn [key_of];
    (split; [reflexivity | intros _; apply initial_keys; auto]).
Qed.

(** The script reaches its end exactly when every Google row it reads
    has a type of the dictionary and every line of the CSV has its four
    fields. *)
Lemma build_unified_db_completes (google : list search_result)
  (media : list csv_row) :
  is_completed (build_unified_db date_parser_parse google media) = true
  <-> Forall known_type (List.filter has_link google)
      /\ Forall (fun r => complete r = true) media.
Proof.
  rewrite build_unified_db_actions, (loop_completes_iff _ _ _ clean_empty).
  rewrite Forall_app, !List.Forall_forall. split.
  - intros [Hg Hm]. split.
    + intros r Hr. apply counted_google, Hg, in_map, Hr.
    + intros r Hr. apply counted_media_cloud, Hm, in_map, Hr.
  - intros [Hg Hm]. split.
    + intros a Ha. apply in_map_iff in Ha as (r & <- & Hr).
      apply counted_google, Hg, Hr.
    + intros a Ha. apply in_map_iff in Ha as (r & <- & Hr).
      apply counted_media_cloud, Hm, Hr.
Qed.

(** What is left of a run that reached the end of the Google rows [g]
    and of the lines [m]. *)
Lemma run_split (g m : list action) (c : connection)
  (s : gmap string counters) :
  is_completed (for_each perform (g ++ m) (c, s)) = true ->
  exists c1 s1 c2 s2,
    for_each perform g (c, s) = Completed (c1, s1)
    /\ for_each perform m (c1, s1) = Completed (c2, s2)
    /\ for_each perform (g ++ m) (c, s) = Completed (c2, s2).
Proof.
  rewrite for_each_app.
  destruct (for_each perform g (c, s)) as [[c1 s1] | e st] eqn:Eg;
    [| discriminate].
  destruct (for_each perform m (c1, s1)) as [[c2 s2] | e st] eqn:Em;
    [| discriminate].
  intros _. exists c1, s1, c2, s2. auto.
Qed.

(** The lines of the CSV read twice in one run. *)
Lemma media_twice (g m : list action) :
  let r := for_each perform (g ++ m) (connect empty_table, initial_stats) in
  let r2 := for_each perform (g ++ m ++ m)
              (connect empty_table, initial_stats) in
  is_completed r = true ->
  is_completed r2 = true
  /\ conn_of r2 = conn_of r
  /\ total added (stats_of r2) = total added (stats_of r)
  /\ total skipped (stats_of r2)
     = (total skipped (stats_of r) + length m)%nat
  /\ total errors (stats_of r2) = total errors (stats_of r).
Proof.
  intros r r2 Hdone. unfold r, r2 in *.
  destruct (run_split g m _ _ Hdone) as (c1 & s1 & c2 & s2 & Eg & Em & E).
  rewrite E. rewrite app_assoc, for_each_app, E.
  pose proof (loop_first g _ initial_stats clean_empty) as (Hc1 & _ & _).
  rewrite Eg in Hc1. unfold conn_of in Hc1. cbn [state_of fst] in Hc1.
  pose proof (loop_first m c1 s1 Hc1) as (_ & _ & Hk).
  rewrite Em in Hk. unfold stats_of in Hk. cbn [state_of snd] in Hk.
  destruct (loop_again m c1 c2 s1 s2 Hc1 Hk) as (H1 & H2 & H3 & H4 & H5).
  { rewrite Em. intros v Hv. exact Hv. }
  rewrite Em in H4. cbn [is_completed] in H4.
  unfold conn_of, stats_of in *. cbn [state_of fst snd].
  split; [exact H4 |]. split; [exact H1 |]. split; [exact H2 |].
  split; [apply H5, H4 | exact H3].
Qed.

(** The Google rows read twice in one run. *)
Lemma google_twice (g m : list action) :
  let r := for_each perform (g ++ m) (connect empty_table, initial_stats) in
  let r2 := for_each perform ((g ++ g) ++ m)
              (connect empty_table, initial_stats) in
  is_completed r = true ->
  is_completed r2 = true
  /\ conn_of r2 = conn_of r
  /\ total added (stats_of r2) = total added (stats_of r)
  /\ total skipped (stats_of r2)
     = (total skipped (stats_of r) + length g)%nat
  /\ total errors (stats_of r2) = total errors (stats_of r).
Proof.
  intros r r2 Hdone. unfold r, r2 in *.
  destruct (run_split g m _ _ Hdone) as (c1 & s1 & c2 & s2 & Eg & Em & E).
  rewrite E. rewrite (for_each_app _ (g ++ g)), for_each_app, Eg.
  pose proof (loop_first g _ initial_stats clean_empty) as (Hc1 & _ & Hk).
  rewrite Eg in Hc1, Hk. unfold conn_of, stats_of in Hc1, Hk.
  cbn [state_of fst snd] in Hc1, Hk.
  destruct (loop_again g (connect empty_table) c1 initial_stats s1
              clean_empty Hk) as (H1 & H2 & H3 & H4 & H5).
  { rewrite Eg. intros v Hv. exact Hv. }
  pose proof (loop_first g c1 s1 Hc1) as (_ & _ & Hk1).
  rewrite Eg in H4. cbn [is_completed] in H4. specialize (H5 H4).
  destruct (for_each perform g (c1, s1)) as [[c1' s1'] | e st];
    [| discriminate].
  unfold conn_of, stats_of in H1, H2, H3, H5, Hk1.
  cbn [state_of fst snd] in H1, H2, H3, H5, Hk1. subst c1'.
  destruct (loop_shift m c1 s1 s1' Hk1) as (Hc & Hd & Ha & Hs & He).
  rewrite Em in Hc, Hd, Ha, Hs, He.
  unfold conn_of, stats_of in *. cbn [state_of fst snd is_completed] in *.
  split; [exact Hd |]. split; [exact Hc |]. lia.
Qed.

End ImporterRuns.

(** C1, as the code has it.  However a run of build_unified_db.py
    ends, no two rows of the store share a url and nothing is left
    uncommitted.  An INSERT of a url that is there fails, the loop
    counts the row as skipped and the table is left as it was.  Rows
    that a run reads a second time, the Google rows or the lines of the
    CSV listed twice, add nothing: the run ends with the same store and
    the same number of added rows, and counts each of them as skipped.
    The script never imports into the store of an earlier run: it
    removes the database file and creates the table anew, so a second
    run over the same feeds ends as the first did, every row added
    again.  The run reaches its end exactly when every Google row read
    has a type of the statistics and every line of the CSV has its four
    fields; a line that lacks one stops it with AttributeError, the
    rows before it committed. *)
Theorem import_keeps_urls_unique
  (date_parser_parse : string -> option string)
  (google : list Importer.search_result) (media : list Importer.csv_row)
  (existing : table) :
  let run := Importer.build_unified_db date_parser_parse in
  let r := run google media in
  let c := fst (state_of r) in
  List.NoDup (urls (committed c))
  /\ committed c = working c
  /\ (forall (a : article) (ti so da ty : string),
        In a (rows (committed c)) ->
        Importer.insert_article ti (url a) so da ty (committed c) = None)
  /\ (forall (key ti u so da : string) (s : gmap string Importer.counters),
        In u (urls (working c)) ->
        Importer.insert_and_count key ti u so da (c, s)
        = match Importer.bump Importer.incr_skipped key s with
          | Some s' => Completed (c, s')
          | None => Raised "KeyError" (c, s)
          end)
  /\ (is_completed r = true ->
      let r2 := run (google ++ google)%list media in
      is_completed r2 = true
      /\ fst (state_of r2) = c
      /\ Importer.total Importer.added (snd (state_of r2))
         = Importer.total Importer.added (snd (state_of r))
      /\ Importer.total Importer.skipped (snd (state_of r2))
         = (Importer.total Importer.skipped (snd (state_of r))
            + length (List.filter Importer.has_link google))%nat
      /\ Importer.total Importer.errors (snd (state_of r2))
         = Importer.total Importer.errors (snd (state_of r)))
  /\ (is_completed r = true ->
      let r2 := run google (media ++ media)%list in
      is_completed r2 = true
      /\ fst (state_of r2) = c
      /\ Importer.total Importer.added (snd (state_of r2))
         = Importer.total Importer.added (snd (state_of r))
      /\ Importer.total Importer.skipped (snd (state_of r2))
         = (Importer.total Importer.skipped (snd (state_of r))
            + length media)%nat
      /\ Importer.total Importer.errors (snd (state_of r2))
         = Importer.total Importer.errors (snd (state_of r)))
  /\ Importer.build_unified_db_over date_parser_parse existing google media
     = r
  /\ Importer.build_unified_db_over date_parser_parse (committed c)
       google media
     = r
  /\ (is_completed r = true
      <-> Forall ImporterFacts.known_type
            (List.filter Importer.has_link google)
          /\ Forall (fun x => ImporterFacts.complete x = true) media)
  /\ (forall (m1 m2 : list Importer.csv_row) (x : Importer.csv_row),
        media = (m1 ++ x :: m2)%list ->
        ImporterFacts.complete x = false ->
        is_completed (run google m1) = true ->
        r = Raised "AttributeError" (state_of (run google m1))).
Proof.
  intros run r c.
  assert (Er : r = for_each ImporterFacts.perform
                     (ImporterFacts.actions date_parser_parse google media)
                     (connect empty_table, Importer.initial_stats))
    by apply build_unified_db_actions.
  destruct (loop_first (ImporterFacts.actions date_parser_parse google media)
              _ Importer.initial_stats clean_empty) as ([Hcw Hnd] & _ & _).
  rewrite <- Er in Hcw, Hnd. change (ImporterFacts.conn_of r) with c in Hcw, Hnd.
  split; [rewrite Hcw; exact Hnd |]. split; [exact Hcw |]. split.
  { intros a ti so da ty Ha. apply insert_duplicate, in_map, Ha. }
  split.
  { intros key ti u so da s Hu.
    apply (perform_again (ImporterFacts.Insert key ti u so da) c s Hu). }
  split.
  { intros Hdone r2. unfold r2, run.
    rewrite build_unified_db_actions, List.filter_app, map_app.
    unfold c. rewrite Er in Hdone |- *.
    destruct (google_twice
                (map ImporterFacts.google_action
                   (List.filter Importer.has_link google))
                (map (ImporterFacts.media_cloud_action date_parser_parse)
                   media) Hdone) as (H1 & H2 & H3 & H4 & H5).
    rewrite length_map in H4.
    split; [exact H1 |]. split; [exact H2 |]. split; [exact H3 |].
    split; [exact H4 | exact H5]. }
  split.
  { intros Hdone r2. unfold r2, run.
    rewrite build_unified_db_actions, map_app.
    unfold c. rewrite Er in Hdone |- *.
    destruct (media_twice
                (map ImporterFacts.google_action
                   (List.filter Importer.has_link google))
                (map (ImporterFacts.media_cloud_action date_parser_parse)
                   media) Hdone) as (H1 & H2 & H3 & H4 & H5).
    rewrite length_map in H4.
    split; [exact H1 |]. split; [exact H2 |]. split; [exact H3 |].
    split; [exact H4 | exact H5]. }
  split; [reflexivity |]. split; [reflexivity |]. split.
  { apply build_unified_db_completes. }
  intros m1 m2 x -> Hx Hdone. unfold r, run in *.
  rewrite (build_unified_db_actions date_parser_parse google m1) in Hdone |- *.
  rewrite (build_unified_db_actions date_parser_parse google
             (m1 ++ x :: m2)).
  rewrite map_app, app_assoc, for_each_app.
  destruct (for_each ImporterFacts.perform
              (map ImporterFacts.google_action
                 (List.filter Importer.has_link google)
               ++ map (ImporterFacts.media_cloud_action date_parser_parse)
                    m1)
              (connect empty_table, Importer.initial_stats))
    as [st | e st]; [| discriminate].
  cbn [map for_each state_of].
  assert (E : ImporterFacts.media_cloud_action date_parser_parse x
              = ImporterFacts.Stop).
  { unfold ImporterFacts.media_cloud_action, ImporterFacts.complete in *.
    destruct (Importer.csv_title x), (Importer.csv_url x),
      (Importer.csv_media_name x), (Importer.csv_publish_date x);
      try reflexivity; discriminate. }
  rewrite E. reflexivity.
Qed.

(** C1, as the specification words it, fails: a second run of the
    script over the feeds of the first, started on the store that the
    first left, adds the two rows again and counts none of them as
    skipped. *)
Lemma second_run_adds_every_row_again :
  let google :=
    [Importer.mkSearchResult (Some "A") (Some "http://a") (Some "s")
       (Some "2025-01-01") (Some "news")] in
  let media :=
    [Importer.mkCsvRow (Some "B") (Some "http://b") (Some "m")
       (Some "2025-01-02")] in
  let first := Importer.build_unified_db (fun _ => None) google media in
  let store := committed (fst (state_of first)) in
  let second :=
    Importer.build_unified_db_over (fun _ => None) store google media in
  is_completed first = true
  /\ urls store = ["http://a"; "http://b"]
  /\ is_completed second = true
  /\ Importer.total Importer.added (snd (state_of second)) = 2%nat
  /\ Importer.total Importer.skipped (snd (state_of second)) = O
  /\ Importer.total Importer.added (snd (state_of second)) <> O.
Proof.
  cbv zeta.
  assert (E : Importer.total Importer.added
                (snd (state_of
                   (Importer.build_unified_db_over (fun _ => None)
                      (committed (fst (state_of
                         (Importer.build_unified_db (fun _ => None)
                            [Importer.mkSearchResult (Some "A")
                               (Some "http://a") (Some "s")
                               (Some "2025-01-01") (Some "news")]
                            [Importer.mkCsvRow (Some "B") (Some "http://b")
                               (Some "m") (Some "2025-01-02")]))))
                      [Importer.mkSearchResult (Some "A") (Some "http://a")
                         (Some "s") (Some "2025-01-01") (Some "news")]
                      [Importer.mkCsvRow (Some "B") (Some "http://b")
                         (Some "m") (Some "2025-01-02")])))
              = 2%nat)
    by (vm_compute; reflexivity).
  split; [vm_compute; reflexivity |].
  split; [vm_compute; reflexivity |].
  split; [vm_compute; reflexivity |].
  split; [exact E |].
  split; [vm_compute; reflexivity |].
  rewrite E. discriminate.
Qed.
